(** * Home tidal flood warning: tide ingestion and alert/tide correlation

    A shallow embedding of the tide fetcher ([pkg/fetcher/tidal_flood.go])
    and of the risk assessment of the alert controller
    ([cmd/api/controllers/alert.go]), with the properties the specification
    states about them.

    Conventions of the embedding:
    - a [time.Time] is an instant, counted in nanoseconds since the Unix
      epoch, together with the location it is displayed in; instants are
      not bounded, and what is stated of the value of a time holds where
      the instant is one a [time.Time] holds ([GoTime.representable]);
    - a [float64] read from a decimal numeral is the rational number the
      numeral denotes (heights are compared, never computed with), the
      range check of [strconv.ParseFloat] is kept;
    - a Go [string] is a [string] of bytes;
    - a function returning [(T, error)] returns a [result T];
    - functions of the Go standard library and of other modules whose
      behaviour no property depends on ([strings.ToLower] beyond ASCII, the
      date part of [time.ParseInLocation], ...) are section variables. *)

From Stdlib Require Import ZArith QArith Qabs List String Ascii Bool Lia.
From Stdlib Require Import Sorting.Permutation Sorting.Sorted DecimalString.
Import ListNotations.

Local Open Scope string_scope.
Local Open Scope Z_scope.

(** ** Errors *)

Inductive result (A : Type) : Type :=
| Ok (a : A)
| Err (e : string).
Arguments Ok {A} a.
Arguments Err {A} e.

Definition is_ok {A} (r : result A) : bool :=
  match r with Ok _ => true | Err _ => false end.

Definition bind {A B} (r : result A) (f : A -> result B) : result B :=
  match r with Ok a => f a | Err e => Err e end.

Declare Scope result_scope.
Delimit Scope result_scope with result.
Notation "x <- r ;; k" := (bind r (fun x => k))
  (at level 61, r at next level, right associativity) : result_scope.
Notation "' p <- r ;; k" := (bind r (fun x => let p := x in k))
  (at level 61, p pattern, r at next level, right associativity) : result_scope.

(** ** Package [strings] *)

Module Strings.

(** [strings.HasPrefix s p]. *)
Fixpoint HasPrefix (s p : string) : bool :=
  match p, s with
  | EmptyString, _ => true
  | String c p', String d s' => Ascii.eqb c d && HasPrefix s' p'
  | String _ _, EmptyString => false
  end.

(** [strings.Contains s substr]: [substr] occurs at some position of [s]. *)
Fixpoint Contains (s substr : string) : bool :=
  HasPrefix s substr ||
  match s with
  | EmptyString => false
  | String _ s' => Contains s' substr
  end.

(** [strings.ToLower] on ASCII text: [A]..[Z] are mapped to [a]..[z]. *)
Definition lower_byte (c : ascii) : ascii :=
  let n := nat_of_ascii c in
  if andb (Nat.leb 65 n) (Nat.leb n 90) then ascii_of_nat (n + 32) else c.

Fixpoint ascii_ToLower (s : string) : string :=
  match s with
  | EmptyString => EmptyString
  | String c s' => String (lower_byte c) (ascii_ToLower s')
  end.

(** White space of [strings.TrimSpace], which is that of
    [unicode.IsSpace], in the UTF-8 bytes of the string.  One byte:
    ['\t'], ['\n'], ['\v'], ['\f'], ['\r'], [' ']. *)
Definition is_space (c : ascii) : bool :=
  let n := nat_of_ascii c in
  orb (andb (Nat.leb 9 n) (Nat.leb n 13)) (Nat.eqb n 32).

(** Two bytes: U+0085 ([C2 85]) and U+00A0 ([C2 A0]). *)
Definition is_space2 (c1 c2 : ascii) : bool :=
  let n2 := nat_of_ascii c2 in
  andb (Nat.eqb (nat_of_ascii c1) 194)
       (orb (Nat.eqb n2 133) (Nat.eqb n2 160)).

(** Three bytes: U+1680 ([E1 9A 80]), U+2000 to U+200A ([E2 80 80] to
    [E2 80 8A]), U+2028, U+2029 and U+202F ([E2 80 A8], [E2 80 A9],
    [E2 80 AF]), U+205F ([E2 81 9F]) and U+3000 ([E3 80 80]). *)
Definition is_space3 (c1 c2 c3 : ascii) : bool :=
  let n1 := nat_of_ascii c1 in
  let n2 := nat_of_ascii c2 in
  let n3 := nat_of_ascii c3 in
  orb (andb (Nat.eqb n1 225) (andb (Nat.eqb n2 154) (Nat.eqb n3 128)))
 (orb (andb (Nat.eqb n1 226)
        (orb (andb (Nat.eqb n2 128)
                (orb (andb (Nat.leb 128 n3) (Nat.leb n3 138))
                (orb (Nat.eqb n3 168) (orb (Nat.eqb n3 169) (Nat.eqb n3 175)))))
             (andb (Nat.eqb n2 129) (Nat.eqb n3 159))))
      (andb (Nat.eqb n1 227) (andb (Nat.eqb n2 128) (Nat.eqb n3 128)))).

(** [s] is one white space rune. *)
Definition is_space_rune (s : string) : bool :=
  match s with
  | String c1 EmptyString => is_space c1
  | String c1 (String c2 EmptyString) => is_space2 c1 c2
  | String c1 (String c2 (String c3 EmptyString)) => is_space3 c1 c2 c3
  | _ => false
  end.

(** The white space runes at the head of [s] are dropped. *)
Fixpoint trim_left (s : string) : string :=
  match s with
  | EmptyString => EmptyString
  | String c1 s1 =>
      if is_space c1 then trim_left s1
      else
        match s1 with
        | EmptyString => s
        | String c2 s2 =>
            if is_space2 c1 c2 then trim_left s2
            else
              match s2 with
              | EmptyString => s
              | String c3 s3 =>
                  if is_space3 c1 c2 c3 then trim_left s3 else s
              end
        end
  end.

(** The white space runes at the end of [s] are dropped: with those of
    the tail dropped, a byte is kept unless what is left is one white
    space rune. *)
Fixpoint trim_right (s : string) : string :=
  match s with
  | EmptyString => EmptyString
  | String c s' =>
      let u := String c (trim_right s') in
      if is_space_rune u then EmptyString else u
  end.

Definition TrimSpace (s : string) : string := trim_right (trim_left s).

(** [strings.Split s ":"]: the pieces of [s] between the colons, one more
    than there are colons. *)
Fixpoint split_colon (s : string) : list string :=
  match s with
  | EmptyString => [EmptyString]
  | String c s' =>
      if Ascii.eqb c ":"%char then EmptyString :: split_colon s'
      else match split_colon s' with
           | p :: ps => String c p :: ps
           | [] => [String c EmptyString]
           end
  end.

End Strings.

(** ** Package [time] *)

Module GoTime.

(** [time.Duration]: nanoseconds. *)
Definition Duration := Z.
Definition Nanosecond : Duration := 1.
Definition Second : Duration := 1000000000.
Definition Minute : Duration := 60 * Second.
Definition Hour : Duration := 60 * Minute.

Record Location := FixedZone { zoneName : string; zoneOffset : Z }.
Definition UTC : Location := FixedZone "UTC" 0.

Record Time := mkTime { unixNano : Z; location : Location }.

(** [t.Add d], [t.After u], [t.Before u], [t.In loc], [t.UTC()]. *)
Definition Add (t : Time) (d : Duration) : Time :=
  mkTime (unixNano t + d) (location t).
Definition After (t u : Time) : bool := unixNano u <? unixNano t.
Definition Before (t u : Time) : bool := unixNano t <? unixNano u.
Definition In (t : Time) (loc : Location) : Time := mkTime (unixNano t) loc.
Definition toUTC (t : Time) : Time := In t UTC.

(** The zero [time.Time{}]: January 1, year 1, 00:00:00 UTC. *)
Definition zeroTime : Time := mkTime (-62135596800 * Second) UTC.

(** *** The proleptic Gregorian calendar

    Days are counted from 1970-01-01.  [days_from_civil y m d] expects
    [1 <= m <= 12] and is linear in [d]; [civil_from_days] is its
    inverse on day numbers. *)
Definition days_from_civil (y m d : Z) : Z :=
  let y' := if m <=? 2 then y - 1 else y in
  let era := y' / 400 in
  let yoe := y' - era * 400 in
  let mp := if 2 <? m then m - 3 else m + 9 in
  let doy := (153 * mp + 2) / 5 + d - 1 in
  let doe := yoe * 365 + yoe / 4 - yoe / 100 + doy in
  era * 146097 + doe - 719468.

Definition civil_from_days (z : Z) : Z * Z * Z :=
  let z := z + 719468 in
  let era := z / 146097 in
  let doe := z - era * 146097 in
  let yoe := (doe - doe / 1460 + doe / 36524 - doe / 146096) / 365 in
  let y := yoe + era * 400 in
  let doy := doe - (365 * yoe + yoe / 4 - yoe / 100) in
  let mp := (5 * doy + 2) / 153 in
  let d := doy - (153 * mp + 2) / 5 + 1 in
  let m := if mp <? 10 then mp + 3 else mp - 9 in
  (if m <=? 2 then y + 1 else y, m, d).

Definition secondsPerDay : Z := 86400.

(** Seconds since the epoch on the wall clock of the time's location,
    and the day that clock shows. *)
Definition localSeconds (t : Time) : Z :=
  unixNano t / Second + zoneOffset (location t).
Definition localDay (t : Time) : Z := localSeconds t / secondsPerDay.

(** [t.Year()], [t.Month()], [t.Day()], [t.Hour()], [t.Minute()],
    [t.Second()], [t.Nanosecond()]. *)
Definition Year (t : Time) : Z := fst (fst (civil_from_days (localDay t))).
Definition Month (t : Time) : Z := snd (fst (civil_from_days (localDay t))).
Definition Day (t : Time) : Z := snd (civil_from_days (localDay t)).
Definition Hour_ (t : Time) : Z := (localSeconds t mod secondsPerDay) / 3600.
Definition Minute_ (t : Time) : Z := (localSeconds t mod 3600) / 60.
Definition Second_ (t : Time) : Z := localSeconds t mod 60.
Definition Nanosecond_ (t : Time) : Z := unixNano t mod Second.

(** [time.Date(year, month, day, hour, min, sec, nsec, loc)].  The month
    is normalised into the year; day, hour, minute, second and
    nanosecond may be outside their usual ranges and carry over. *)
Definition Date (year month day hour min sec nsec : Z) (loc : Location)
  : Time :=
  let m0 := month - 1 in
  let year := year + m0 / 12 in
  let month := m0 mod 12 + 1 in
  let days := days_from_civil year month day in
  let wall := days * secondsPerDay + hour * 3600 + min * 60 + sec in
  mkTime ((wall - zoneOffset loc) * Second + nsec) loc.

(** [t.AddDate(years, months, days)]. *)
Definition AddDate (t : Time) (years months days : Z) : Time :=
  Date (Year t + years) (Month t + months) (Day t + days)
       (Hour_ t) (Minute_ t) (Second_ t) (Nanosecond_ t) (location t).

(** *** The range of [time.Time]

    A [time.Time] keeps the seconds since January 1 of year 1 in a
    signed 64-bit integer, and [time.Date] and [t.Add] compute them
    modulo [2^64].  The functions above compute on instants without
    bound: they give the result of the library wherever the instant they
    return is [representable], and say nothing of it elsewhere. *)
Definition unixToInternal : Z := 62135596800.

Definition representable (t : Time) : bool :=
  let sec := unixNano t / Second + unixToInternal in
  (- 2 ^ 63 <=? sec) && (sec <? 2 ^ 63).

End GoTime.

(** ** Package [strconv] *)

Module Strconv.

Definition is_digit (c : ascii) : bool :=
  let n := nat_of_ascii c in andb (Nat.leb 48 n) (Nat.leb n 57).

Definition digit_value (c : ascii) : Z := Z.of_nat (nat_of_ascii c) - 48.

(** The value of a string of decimal digits, [None] when another byte
    occurs. *)
Fixpoint digits_value (s : string) (acc : Z) : option Z :=
  match s with
  | EmptyString => Some acc
  | String c s' =>
      if is_digit c then digits_value s' (acc * 10 + digit_value c)
      else None
  end.

(** The input as the error messages show it (the escaping of
    unprintable bytes by [strconv.Quote] is left out). *)
Definition quote (s : string) : string :=
  let q := String (ascii_of_nat 34) EmptyString in q ++ s ++ q.

Definition syntaxError (fn s : string) : string :=
  "strconv." ++ fn ++ ": parsing " ++ quote s ++ ": invalid syntax".
Definition rangeError (fn s : string) : string :=
  "strconv." ++ fn ++ ": parsing " ++ quote s ++ ": value out of range".

(** [strconv.Itoa], also the verb [%d] of [fmt]. *)
Definition Itoa (n : Z) : string := NilZero.string_of_int (Z.to_int n).

Definition minInt64 : Z := - 2 ^ 63.
Definition maxInt64 : Z := 2 ^ 63 - 1.

(** [strconv.Atoi]: an optional sign, then one decimal digit or more;
    the value is an [int] of 64 bits. *)
Definition Atoi (s : string) : result Z :=
  let '(neg, body) :=
    match s with
    | String "-"%char s' => (true, s')
    | String "+"%char s' => (false, s')
    | _ => (false, s)
    end in
  match body with
  | EmptyString => Err (syntaxError "Atoi" s)
  | _ =>
      match digits_value body 0 with
      | None => Err (syntaxError "Atoi" s)
      | Some n =>
          let v := if neg then - n else n in
          if (minInt64 <=? v) && (v <=? maxInt64) then Ok v
          else Err (rangeError "Atoi" s)
      end
  end.

(** The digits of a decimal numeral: mantissa, number of digits read,
    number of digits after the point, [None] on a byte that is neither
    digit nor the first point. *)
Fixpoint read_decimal (s : string) (mant : Z) (ndigits : nat)
    (sawdot : bool) (frac : nat) : option (Z * nat * nat) :=
  match s with
  | EmptyString => Some (mant, ndigits, frac)
  | String c s' =>
      if Ascii.eqb c "."%char then
        if sawdot then None else read_decimal s' mant ndigits true frac
      else if is_digit c then
        read_decimal s' (mant * 10 + digit_value c) (S ndigits) sawdot
                     (if sawdot then S frac else frac)
      else None
  end.

(** Half an ulp above the largest [float64]: numerals of this magnitude
    and beyond round to infinity. *)
Definition float64_overflow : Q := inject_Z (2 ^ 1024 - 2 ^ 970).

(** [strconv.ParseFloat s 64] on numerals written with sign, digits and
    point, which is all a capture of the height pattern can hold.  (The
    library also reads exponents, hexadecimal mantissas, infinities and
    NaN, which need other bytes; here those are syntax errors.) *)
Definition ParseFloat (s : string) : result Q :=
  let '(neg, body) :=
    match s with
    | String "-"%char s' => (true, s')
    | String "+"%char s' => (false, s')
    | _ => (false, s)
    end in
  match read_decimal body 0 0 false 0 with
  | None => Err (syntaxError "ParseFloat" s)
  | Some (_, O, _) => Err (syntaxError "ParseFloat" s)
  | Some (mant, _, frac) =>
      let v := Qmake (if neg then - mant else mant)
                     (Z.to_pos (10 ^ Z.of_nat frac)) in
      if Qle_bool float64_overflow (Qabs v)
      then Err (rangeError "ParseFloat" s)
      else Ok v
  end.

End Strconv.

(** ** Package [models] *)

Module Models.

Inductive TideType := TideTypeHigh | TideTypeLow.

Definition TideType_string (t : TideType) : string :=
  match t with TideTypeHigh => "high" | TideTypeLow => "low" end.

Definition TideType_eqb (a b : TideType) : bool :=
  match a, b with
  | TideTypeHigh, TideTypeHigh | TideTypeLow, TideTypeLow => true
  | _, _ => false
  end.

(** A row of table [tide_data].  The columns [created_at] and
    [updated_at] are maintained by the ORM and read by none of the
    functions below. *)
Record TideData := mkTideData {
  ID : string;
  Location : string;
  Date : GoTime.Time;
  TideType_ : TideType;
  TideTime : GoTime.Time;
  HeightM : Q;
  HeightFt : Q
}.

(** The hook [BeforeCreate]: a row without identifier receives a fresh
    ULID. *)
Definition BeforeCreate (t : TideData) (ulid : string) : TideData :=
  if String.eqb (ID t) "" then
    mkTideData ulid (Location t) (Date t) (TideType_ t) (TideTime t)
               (HeightM t) (HeightFt t)
  else t.

End Models.

(** ** The tide store as the controllers and the fetcher see it *)

Module Store.
Import GoTime Models.

(** The table [tide_data]: a bag of rows. *)
Definition Table := list TideData.

(** The one read query of the risk assessment,
    [Where("tide_type = ? AND height_m > ? AND tide_time >= ? AND
    tide_time <= ?", ...).Order("height_m DESC").Find(&tideData)]. *)
Record TideQuery := mkTideQuery {
  q_tide_type : TideType;
  q_height_above : Q;
  q_time_from : Time;
  q_time_to : Time
}.

Inductive QueryResult :=
| Rows (rows : list TideData)
| QueryError (e : string).

(** A computation that may consult the store: it either is finished or
    issues a query and goes on with its result. *)
Inductive Db (A : Type) : Type :=
| Ret (a : A)
| Find (q : TideQuery) (k : QueryResult -> Db A).
Arguments Ret {A} a.
Arguments Find {A} q k.

(** The run of a computation against the store [h], and the queries it
    issues on the way. *)
Fixpoint runDb {A} (h : TideQuery -> QueryResult) (p : Db A) : A :=
  match p with
  | Ret a => a
  | Find q k => runDb h (k (h q))
  end.

Fixpoint queries {A} (h : TideQuery -> QueryResult) (p : Db A)
  : list TideQuery :=
  match p with
  | Ret _ => []
  | Find q k => q :: queries h (k (h q))
  end.

(** The [WHERE] clause; heights are compared as numbers and timestamps
    as instants. *)
Definition Qltb (a b : Q) : bool := negb (Qle_bool b a).

Definition selects (q : TideQuery) (t : TideData) : bool :=
  TideType_eqb (TideType_ t) (q_tide_type q)
  && Qltb (q_height_above q) (HeightM t)
  && (unixNano (q_time_from q) <=? unixNano (TideTime t))
  && (unixNano (TideTime t) <=? unixNano (q_time_to q)).

(** [ORDER BY height_m DESC]. *)
Definition height_desc (a b : TideData) : Prop :=
  (HeightM b <= HeightM a)%Q.

(** What a successful query may answer: the selected rows, highest
    first.  The order among rows of equal height is the engine's. *)
Definition answers (tbl : Table) (q : TideQuery) (rows : list TideData)
  : Prop :=
  Permutation rows (filter (selects q) tbl)
  /\ StronglySorted height_desc rows.

(** A store whose every query succeeds with an answer over [tbl]. *)
Definition serves (tbl : Table) (h : TideQuery -> QueryResult) : Prop :=
  forall q, exists rows, h q = Rows rows /\ answers tbl q rows.

(** An engine to run examples with: a stable insertion sort. *)
Fixpoint insertByHeight (t : TideData) (rows : list TideData)
  : list TideData :=
  match rows with
  | [] => [t]
  | r :: rows' =>
      if Qle_bool (HeightM r) (HeightM t) then t :: rows
      else r :: insertByHeight t rows'
  end.

Definition sortByHeight (rows : list TideData) : list TideData :=
  fold_right insertByHeight [] rows.

Definition execQuery (tbl : Table) (q : TideQuery) : QueryResult :=
  Rows (sortByHeight (filter (selects q) tbl)).

(** A store whose connection is down. *)
Definition brokenStore (e : string) (q : TideQuery) : QueryResult :=
  QueryError e.

End Store.

(** ** Package [controllers]: the risk assessment *)

Module Controllers.
Import GoTime Models Store.

(** [weathermodels.AlertDetail], the fields the assessment reads. *)
Record AlertDetail := mkAlertDetail {
  Effective : Time;
  Expires : Time;
  Description : string
}.

Record TidalFloodRisk := mkTidalFloodRisk {
  HasRisk : bool;
  RiskLevel : string;
  TideType : string;
  TideTime : Time;
  TideHeightM : Q;
  HeavyRain : bool;
  Message : string
}.

(** Buffer time to account for rising sea level before high tide peak. *)
Definition tideBufferDuration : Duration := 2 * Hour.

Section Risk.
(** [strings.ToLower] and [basetraits.FormatTimeWithTimezone]. *)
Variable ToLower : string -> string.
Variable FormatTimeWithTimezone : Time -> string -> Time.

(** [now] is the value of [time.Now()] at the call. *)
Definition calculateTidalFloodRisk (alert : AlertDetail)
    (timezone : string) (now : Time) : Db TidalFloodRisk :=
  let descLower := ToLower (Description alert) in
  let hasHeavyRain := Strings.Contains descLower "heavy rain" in
  if negb hasHeavyRain then
    Ret {| HasRisk := false;
           RiskLevel := "none";
           TideType := "";
           TideTime := FormatTimeWithTimezone (toUTC now) timezone;
           TideHeightM := 0%Q;
           HeavyRain := false;
           Message := "No heavy rain expected" |}
  else
    let expiresWithBuffer := Add (Expires alert) tideBufferDuration in
    Find (mkTideQuery TideTypeHigh (26 # 10)%Q (Effective alert)
                      expiresWithBuffer)
      (fun result =>
         match result with
         | QueryError _ =>
             Ret {| HasRisk := false;
                    RiskLevel := "unknown";
                    TideType := "";
                    TideTime :=
                      FormatTimeWithTimezone (toUTC now) timezone;
                    TideHeightM := 0%Q;
                    HeavyRain := hasHeavyRain;
                    Message := "Unable to determine tidal flood risk" |}
         | Rows [] =>
             Ret {| HasRisk := false;
                    RiskLevel := "none";
                    TideType := "";
                    TideTime :=
                      FormatTimeWithTimezone (toUTC now) timezone;
                    TideHeightM := 0%Q;
                    HeavyRain := hasHeavyRain;
                    Message := "No tidal flood risk: No high tide (>2.6m) during or near alert period" |}
         | Rows (highestTide :: _) =>
             if After (Models.TideTime highestTide) (Expires alert) then
               Ret {| HasRisk := true;
                      RiskLevel := "moderate";
                      TideType := TideType_string (TideType_ highestTide);
                      TideTime := Models.TideTime highestTide;
                      TideHeightM := HeightM highestTide;
                      HeavyRain := hasHeavyRain;
                      Message := "MODERATE RISK: Heavy rain with high tide (>2.6m) shortly after - Sea level rising during alert period" |}
             else
               Ret {| HasRisk := true;
                      RiskLevel := "high";
                      TideType := TideType_string (TideType_ highestTide);
                      TideTime := Models.TideTime highestTide;
                      TideHeightM := HeightM highestTide;
                      HeavyRain := hasHeavyRain;
                      Message := "HIGH RISK: Heavy rain expected during high tide (>2.6m) - Flash flood possible!" |}
         end).
End Risk.

End Controllers.

(** ** Package [fetcher]: the tide fetcher *)

Module Fetcher.
Import GoTime Models Store.

(** TideLocation is the location name for the tide data. *)
Definition TideLocation : string := "Sekupang".

(** UTC+7 timezone. *)
Definition wibTimezone : GoTime.Location := FixedZone "WIB" (7 * 60 * 60).

(** *** The stop channel *)

(** A [chan struct{}] on which nothing is ever sent: it is open or
    closed. *)
Inductive Chan := ChanOpen | ChanClosed.

(** A call returns or panics. *)
Inductive outcome (A : Type) : Type :=
| Returns (a : A)
| Panics (msg : string).
Arguments Returns {A} a.
Arguments Panics {A} msg.

(** The builtin [close]. *)
Definition close (c : Chan) : outcome Chan :=
  match c with
  | ChanOpen => Returns ChanClosed
  | ChanClosed => Panics "close of closed channel"
  end.

Record TidalFloodFetcher := mkFetcher { stopChan : Chan }.

Definition NewTidalFloodFetcher : TidalFloodFetcher := mkFetcher ChanOpen.

(** Stop stops the periodic fetching. *)
Definition Stop (f : TidalFloodFetcher) : outcome TidalFloodFetcher :=
  match close (stopChan f) with
  | Returns c => Returns (mkFetcher c)
  | Panics msg => Panics msg
  end.

(** What the loop of [StartPeriodicFetch] finds when it selects on the
    channel: a receive is ready exactly on a closed channel. *)
Definition stopRequested (f : TidalFloodFetcher) : bool :=
  match stopChan f with ChanClosed => true | ChanOpen => false end.

(** *** Transactions *)

(** The statements of a transaction run against a working copy of the
    table; each may fail.  [statementFault n] is the error of the [n]-th
    statement the transaction runs, if it fails, [commitFault] that of
    the commit. *)
Record Faults := mkFaults {
  statementFault : nat -> option string;
  commitFault : option string
}.

Definition noFaults : Faults := mkFaults (fun _ => None) None.

Record TxState := mkTx { tx_rows : Table; tx_statements : nat }.

Definition Tx (A : Type) : Type := TxState -> result A * TxState.

Definition tx_ret {A} (a : A) : Tx A := fun st => (Ok a, st).
Definition tx_fail {A} (e : string) : Tx A := fun st => (Err e, st).
Definition tx_bind {A B} (m : Tx A) (f : A -> Tx B) : Tx B :=
  fun st =>
    match m st with
    | (Ok a, st') => f a st'
    | (Err e, st') => (Err e, st')
    end.

Declare Scope tx_scope.
Delimit Scope tx_scope with tx.
Notation "x <- m ;; k" := (tx_bind m (fun x => k))
  (at level 61, m at next level, right associativity) : tx_scope.
Notation "m ;; k" := (tx_bind m (fun _ => k))
  (at level 61, right associativity) : tx_scope.

(** [fmt.Errorf(msg + ": %w", err)]. *)
Definition wrapError {A} (msg : string) (m : Tx A) : Tx A :=
  fun st =>
    match m st with
    | (Err e, st') => (Err (msg ++ ": " ++ e), st')
    | r => r
    end.

Section Transactions.
Variable faults : Faults.
(** [helpers.NewULID()], by the number of the statement that draws. *)
Variable NewULID : nat -> string.

Definition statement (f : nat -> Table -> Table) : Tx unit :=
  fun st =>
    match statementFault faults (tx_statements st) with
    | Some e => (Err e, st)
    | None =>
        (Ok tt, mkTx (f (tx_statements st) (tx_rows st))
                     (S (tx_statements st)))
    end.

(** [tx.Where("location = ? AND date = ?", location, date)
    .Delete(&models.TideData{})]. *)
Definition sameDay (location : string) (date : Time) (t : TideData)
  : bool :=
  String.eqb (Models.Location t) location
  && (unixNano (Models.Date t) =? unixNano date).

Definition tx_Delete (location : string) (date : Time) : Tx unit :=
  statement (fun _ rows =>
               filter (fun t => negb (sameDay location date t)) rows).

(** [tx.Create(&data)], with the hook [BeforeCreate]. *)
Definition tx_Create (data : TideData) : Tx unit :=
  statement (fun n rows =>
               (rows ++ [BeforeCreate data (NewULID n)])%list).

(** [db.Transaction(fn)]: commit when [fn] returns nil; roll back and
    return the error otherwise. *)
Definition Transaction {A} (fn : Tx A) (db : Table)
  : result A * Table :=
  match fn (mkTx db 0) with
  | (Ok a, st) =>
      match commitFault faults with
      | None => (Ok a, tx_rows st)
      | Some e => (Err e, db)
      end
  | (Err e, _) => (Err e, db)
  end.

(** The loop over the batch; [count] is the counter of the caller. *)
Fixpoint insertAll (tideData : list TideData) (count : Z) : Tx Z :=
  match tideData with
  | [] => tx_ret count
  | data :: rest =>
      (wrapError "failed to insert tide data" (tx_Create data) ;;
       insertAll rest (count + 1))%tx
  end.

(** FetchAndStore fetches tide data and stores it in the database
    using a transaction.  [fetched] is what [f.Fetch()] returned. *)
Definition FetchAndStore (fetched : result (list TideData * Time))
    (db : Table) : result Z * Table :=
  match fetched with
  | Err e => (Err e, db)
  | Ok (tideData, date) =>
      if (List.length tideData =? 0)%nat then (Ok 0, db)
      else
        match
          Transaction
            (wrapError "failed to delete existing tide data"
                       (tx_Delete TideLocation date) ;;
             insertAll tideData 0)%tx db
        with
        | (Err e, db') => (Err e, db')
        | (Ok count, db') => (Ok count, db')
        end
  end.
End Transactions.

(** *** The height pattern

    [regexp.MustCompile(`(-?[\d.]+)\s*m\s*\((-?[\d.]+)\s*ft\)`)] and its
    [FindStringSubmatch]: the leftmost match, read greedily.  No byte
    that ends a run of the pattern can also continue it, so the greedy
    reading of each run is the only reading there is. *)
Module HeightRe.

(** [[\d.]] and [\s] (tab, line feed, form feed, carriage return,
    space). *)
Definition is_numchar (c : ascii) : bool :=
  Strconv.is_digit c || Ascii.eqb c "."%char.

Definition is_re_space (c : ascii) : bool :=
  let n := nat_of_ascii c in
  (Nat.eqb n 9 || Nat.eqb n 10 || Nat.eqb n 12 || Nat.eqb n 13
   || Nat.eqb n 32)%bool.

(** The longest prefix of bytes in [p], and what follows. *)
Fixpoint span (p : ascii -> bool) (s : string) : string * string :=
  match s with
  | EmptyString => (EmptyString, EmptyString)
  | String c s' =>
      if p c then let '(run, rest) := span p s' in (String c run, rest)
      else (EmptyString, s)
  end.

(** [-?[\d.]+]: the capture and the rest. *)
Definition numeral (s : string) : option (string * string) :=
  let '(sign, body) :=
    match s with
    | String "-"%char s' => ("-", s')
    | _ => ("", s)
    end in
  match span is_numchar body with
  | (EmptyString, _) => None
  | (run, rest) => Some (sign ++ run, rest)
  end.

(** [\s*]: the rest. *)
Definition spaces (s : string) : string := snd (span is_re_space s).

(** A literal: the rest. *)
Fixpoint literal (lit s : string) : option string :=
  match lit, s with
  | EmptyString, _ => Some s
  | String c lit', String d s' =>
      if Ascii.eqb c d then literal lit' s' else None
  | String _ _, EmptyString => None
  end.

(** A match that starts at the first byte of [s]: the text matched
    and the two captures. *)
Definition match_here (s : string) : option (string * string * string) :=
  match numeral s with
  | None => None
  | Some (g1, r1) =>
  match literal "m" (spaces r1) with
  | None => None
  | Some r2 =>
  match literal "(" (spaces r2) with
  | None => None
  | Some r3 =>
  match numeral r3 with
  | None => None
  | Some (g2, r4) =>
  match literal "ft)" (spaces r4) with
  | None => None
  | Some r5 =>
      Some (substring 0 (String.length s - String.length r5) s, g1, g2)
  end end end end end.

(** [re.FindStringSubmatch(s)]: nil without a match. *)
Fixpoint FindStringSubmatch (s : string) : list string :=
  match match_here s with
  | Some (m, g1, g2) => [m; g1; g2]
  | None =>
      match s with
      | EmptyString => []
      | String _ s' => FindStringSubmatch s'
      end
  end.

End HeightRe.

Local Open Scope result_scope.

(** parseHeight parses height string like "1.1 m (3.6 ft)" and returns
    meters and feet. *)
Definition parseHeight (heightStr : string) : result (Q * Q) :=
  let matches := HeightRe.FindStringSubmatch heightStr in
  if (List.length matches <? 3)%nat then
    Err ("could not parse height: " ++ heightStr)
  else
    heightM <- Strconv.ParseFloat (nth 1 matches "") ;;
    heightFt <- Strconv.ParseFloat (nth 2 matches "") ;;
    Ok (heightM, heightFt).

(** parseTimeWIB parses a time string like "03:12" and combines with
    the date in WIB. *)
Definition parseTimeWIB (date : Time) (timeStr : string) : result Time :=
  let parts := Strings.split_colon timeStr in
  if negb (List.length parts =? 2)%nat then
    Err ("invalid time format: " ++ timeStr)
  else
    hour <- Strconv.Atoi (nth 0 parts "") ;;
    minute <- Strconv.Atoi (nth 1 parts "") ;;
    Ok (GoTime.Date (Year date) (Month date) (Day date)
                    hour minute 0 0 wibTimezone).

(** calculateNext2HourMark calculates the next 2-hour aligned time in
    WIB.  [clock] is the value of [time.Now()]. *)
Definition calculateNext2HourMark (clock : Time) : Time :=
  let now := In clock wibTimezone in
  let currentHour := Hour_ now in
  let nextHour := ((currentHour / 2) + 1) * 2 in
  let nextRun :=
    GoTime.Date (Year now) (Month now) (Day now)
                (nextHour mod 24) 0 0 0 wibTimezone in
  if 24 <=? nextHour then AddDate nextRun 0 0 1 else nextRun.

(** *** The scrape *)

(** What the scrape reads of the page: the text of every [div], in
    document order, and for every [tr] under [table.table-bordered] the
    texts of its [td] cells. *)
Record Document := mkDocument {
  divTexts : list string;
  tableRows : list (list string)
}.

(** What [http.Get] and [goquery.NewDocumentFromReader] come back
    with. *)
Inductive HttpResult :=
| GetFailed (e : string)
| Response (statusCode : Z) (body : result Document).

Definition StatusOK : Z := 200.

Section Scrape.
(** [strings.ToLower]; [FindStringSubmatch] of the date pattern
    [(\w+)\s+(\w+)\s+(\d+),\s+(\d+)]; [time.ParseInLocation]. *)
Variable ToLower : string -> string.
Variable dateRe_FindStringSubmatch : string -> list string.
Variable ParseInLocation :
  string -> string -> GoTime.Location -> result Time.

(** parseTideDate parses the date from text like "Tide Times for
    Sekupang: Thursday December 4, 2025 (WIB)". *)
Definition parseTideDate (text : string) : result Time :=
  let matches := dateRe_FindStringSubmatch text in
  if (List.length matches <? 5)%nat then
    Err ("could not extract date from: " ++ text)
  else
    let dateStr :=
      nth 2 matches "" ++ " " ++ nth 3 matches "" ++ ", "
      ++ nth 4 matches "" in
    date <- ParseInLocation "January 2, 2006" dateStr wibTimezone ;;
    Ok (GoTime.Date (Year date) (Month date) (Day date) 0 0 0 0
                    wibTimezone).

(** The header: the text of the last [div] that holds both
    markers. *)
Definition findDateText (divs : list string) : string :=
  fold_left
    (fun dateText text =>
       if Strings.Contains text "Tide Times for"
          && Strings.Contains text "(WIB)"
       then text else dateText)
    divs "".

(** One table row: the entry it yields, or nothing when it is
    skipped. *)
Definition parseRow (date : Time) (cols : list string)
  : option TideData :=
  if negb (List.length cols =? 3)%nat then None
  else
    let tideTypeStr := Strings.TrimSpace (nth 0 cols "") in
    let timeStr := Strings.TrimSpace (nth 1 cols "") in
    let heightStr := Strings.TrimSpace (nth 2 cols "") in
    let tideType :=
      if Strings.Contains (ToLower tideTypeStr) "high"
      then Some TideTypeHigh
      else if Strings.Contains (ToLower tideTypeStr) "low"
      then Some TideTypeLow
      else None in
    match tideType with
    | None => None
    | Some tideType =>
        match parseTimeWIB date timeStr with
        | Err _ => None
        | Ok tideTime =>
            match parseHeight heightStr with
            | Err _ => None
            | Ok (heightM, heightFt) =>
                Some {| ID := "";
                        Models.Location := TideLocation;
                        Models.Date := date;
                        TideType_ := tideType;
                        TideTime := tideTime;
                        HeightM := heightM;
                        HeightFt := heightFt |}
            end
        end
    end.

(** The loop over the rows, [i] the index of the first of [rows];
    the row of index 0 is the header row. *)
Fixpoint parseRows (date : Time) (i : nat) (rows : list (list string))
    (tideData : list TideData) : list TideData :=
  match rows with
  | [] => tideData
  | cols :: rest =>
      parseRows date (S i) rest
        (if (i =? 0)%nat then tideData
         else match parseRow date cols with
              | Some data => (tideData ++ [data])%list
              | None => tideData
              end)
  end.

(** Fetch retrieves and parses tide data from worldtides.info. *)
Definition Fetch (resp : HttpResult) : result (list TideData * Time) :=
  match resp with
  | GetFailed e => Err ("failed to fetch tide data: " ++ e)
  | Response statusCode body =>
      if negb (statusCode =? StatusOK) then
        Err ("worldtides.info returned status code: "
             ++ Strconv.Itoa statusCode)
      else
        match body with
        | Err e => Err ("failed to parse HTML: " ++ e)
        | Ok doc =>
            let dateText := findDateText (divTexts doc) in
            if String.eqb dateText "" then
              Err "could not find tide date header"
            else
              match parseTideDate dateText with
              | Err e => Err ("failed to parse tide date: " ++ e)
              | Ok date =>
                  let tideData :=
                    parseRows date 0 (tableRows doc) [] in
                  if (List.length tideData =? 0)%nat then
                    Err "no tide data found in the table"
                  else Ok (tideData, date)
              end
        end
  end.
End Scrape.

End Fetcher.

(** The variant of the fetcher that stores its timestamps in UTC; it
    differs in how the date and the clock times are built. *)
Module FetcherUTC.
Import GoTime Fetcher.
Local Open Scope result_scope.

(** parseTimeWIB parses a time string like "03:12" and combines with
    the date in WIB, then converts to UTC for consistent storage. *)
Definition parseTimeWIB (date : Time) (timeStr : string) : result Time :=
  let parts := Strings.split_colon timeStr in
  if negb (List.length parts =? 2)%nat then
    Err ("invalid time format: " ++ timeStr)
  else
    hour <- Strconv.Atoi (nth 0 parts "") ;;
    minute <- Strconv.Atoi (nth 1 parts "") ;;
    let wibTime :=
      GoTime.Date (Year date) (Month date) (Day date)
                  hour minute 0 0 wibTimezone in
    Ok (toUTC wibTime).

Section Scrape.
Variable ToLower : string -> string.
Variable dateRe_FindStringSubmatch : string -> list string.
Variable ParseInLocation :
  string -> string -> GoTime.Location -> result Time.

(** parseTideDate returns two values: dateForStorage (UTC midnight for
    DB) and dateWIB (for combining with times). *)
Definition parseTideDate (text : string) : result (Time * Time) :=
  let matches := dateRe_FindStringSubmatch text in
  if (List.length matches <? 5)%nat then
    Err ("could not extract date from: " ++ text)
  else
    let dateStr :=
      nth 2 matches "" ++ " " ++ nth 3 matches "" ++ ", "
      ++ nth 4 matches "" in
    date <- ParseInLocation "January 2, 2006" dateStr wibTimezone ;;
    let dateWIB :=
      GoTime.Date (Year date) (Month date) (Day date) 0 0 0 0 wibTimezone in
    let dateForStorage :=
      GoTime.Date (Year date) (Month date) (Day date) 0 0 0 0 UTC in
    Ok (dateForStorage, dateWIB).

Definition parseRow (dateForStorage dateWIB : Time) (cols : list string)
  : option Models.TideData :=
  if negb (List.length cols =? 3)%nat then None
  else
    let tideTypeStr := Strings.TrimSpace (nth 0 cols "") in
    let timeStr := Strings.TrimSpace (nth 1 cols "") in
    let heightStr := Strings.TrimSpace (nth 2 cols "") in
    let tideType :=
      if Strings.Contains (ToLower tideTypeStr) "high"
      then Some Models.TideTypeHigh
      else if Strings.Contains (ToLower tideTypeStr) "low"
      then Some Models.TideTypeLow
      else None in
    match tideType with
    | None => None
    | Some tideType =>
        match parseTimeWIB dateWIB timeStr with
        | Err _ => None
        | Ok tideTime =>
            match parseHeight heightStr with
            | Err _ => None
            | Ok (heightM, heightFt) =>
                Some (Models.mkTideData "" TideLocation dateForStorage
                                        tideType tideTime heightM heightFt)
            end
        end
    end.

Fixpoint parseRows (dateForStorage dateWIB : Time) (i : nat)
    (rows : list (list string)) (tideData : list Models.TideData)
  : list Models.TideData :=
  match rows with
  | [] => tideData
  | cols :: rest =>
      parseRows dateForStorage dateWIB (S i) rest
        (if (i =? 0)%nat then tideData
         else match parseRow dateForStorage dateWIB cols with
              | Some data => (tideData ++ [data])%list
              | None => tideData
              end)
  end.

(** Fetch retrieves and parses tide data from worldtides.info. *)
Definition Fetch (resp : HttpResult)
  : result (list Models.TideData * Time) :=
  match resp with
  | GetFailed e => Err ("failed to fetch tide data: " ++ e)
  | Response statusCode body =>
      if negb (statusCode =? StatusOK) then
        Err ("worldtides.info returned status code: "
             ++ Strconv.Itoa statusCode)
      else
        match body with
        | Err e => Err ("failed to parse HTML: " ++ e)
        | Ok doc =>
            let dateText := findDateText (divTexts doc) in
            if String.eqb dateText "" then
              Err "could not find tide date header"
            else
              match parseTideDate dateText with
              | Err e => Err ("failed to parse tide date: " ++ e)
              | Ok (dateForStorage, dateWIB) =>
                  let tideData :=
                    parseRows dateForStorage dateWIB 0 (tableRows doc) [] in
                  if (List.length tideData =? 0)%nat then
                    Err "no tide data found in the table"
                  else Ok (tideData, dateForStorage)
              end
        end
  end.
End Scrape.

End FetcherUTC.

(** * Properties *)

(** ** The tide store *)

Module StoreFacts.
Import GoTime Models Store.

Lemma Qltb_lt (a b : Q) : Qltb a b = true <-> (a < b)%Q.
Proof.
  unfold Qltb. rewrite negb_true_iff. split; intros H.
  - apply Qnot_le_lt. intros Hle. apply Qle_bool_iff in Hle. congruence.
  - destruct (Qle_bool b a) eqn:E; [| reflexivity].
    apply Qle_bool_iff in E. exfalso. exact (Qlt_not_le _ _ H E).
Qed.

Lemma insertByHeight_perm (t : TideData) (rows : list TideData) :
  Permutation (insertByHeight t rows) (t :: rows).
Proof.
  induction rows as [| r rows IH]; simpl.
  - apply Permutation_refl.
  - destruct (Qle_bool (HeightM r) (HeightM t)).
    + apply Permutation_refl.
    + apply perm_trans with (r :: t :: rows).
      * apply perm_skip. exact IH.
      * apply perm_swap.
Qed.

Lemma sortByHeight_perm (rows : list TideData) :
  Permutation (sortByHeight rows) rows.
Proof.
  induction rows as [| r rows IH]; simpl.
  - apply perm_nil.
  - eapply perm_trans; [apply insertByHeight_perm |].
    apply perm_skip. exact IH.
Qed.

Lemma insertByHeight_sorted (t : TideData) (rows : list TideData) :
  StronglySorted height_desc rows ->
  StronglySorted height_desc (insertByHeight t rows).
Proof.
  induction rows as [| r rows IH]; simpl; intros Hs.
  - constructor; [constructor | constructor].
  - inversion Hs as [| r' rows' Hrest Hall]; subst.
    destruct (Qle_bool (HeightM r) (HeightM t)) eqn:E.
    + apply Qle_bool_iff in E.
      constructor; [exact Hs |].
      constructor; [exact E |].
      rewrite Forall_forall in *. intros x Hx.
      unfold height_desc in *. eapply Qle_trans; [apply Hall, Hx | exact E].
    + assert (Hlt : (HeightM t < HeightM r)%Q).
      { apply Qnot_le_lt. intros Hle. apply Qle_bool_iff in Hle.
        congruence. }
      constructor; [apply IH; exact Hrest |].
      rewrite Forall_forall in *. intros x Hx.
      apply (Permutation_in _ (insertByHeight_perm t rows)) in Hx.
      destruct Hx as [<- | Hx].
      * unfold height_desc. apply Qlt_le_weak. exact Hlt.
      * apply Hall. exact Hx.
Qed.

Lemma sortByHeight_sorted (rows : list TideData) :
  StronglySorted height_desc (sortByHeight rows).
Proof.
  induction rows as [| r rows IH]; simpl.
  - constructor.
  - apply insertByHeight_sorted. exact IH.
Qed.

(** The engine of the examples is a store in the sense of [serves]. *)
Lemma execQuery_serves (tbl : Table) : serves tbl (execQuery tbl).
Proof.
  intros q. exists (sortByHeight (filter (selects q) tbl)).
  split; [reflexivity |]. split.
  - apply sortByHeight_perm.
  - apply sortByHeight_sorted.
Qed.

(** The first row of an answer is a selected row of the table, and no
    selected row is higher. *)
Lemma answers_head (tbl : Table) (q : TideQuery) (rows : list TideData)
      (t : TideData) :
  answers tbl q rows ->
  List.In t tbl -> selects q t = true ->
  exists peak rest,
    rows = peak :: rest
    /\ List.In peak tbl /\ selects q peak = true
    /\ forall t', List.In t' tbl -> selects q t' = true ->
                  (HeightM t' <= HeightM peak)%Q.
Proof.
  intros [Hperm Hsorted] Hin Hsel.
  assert (Hsome : List.In t rows).
  { apply (Permutation_in _ (Permutation_sym Hperm)).
    apply filter_In. split; assumption. }
  destruct rows as [| peak rest]; [contradiction |].
  exists peak, rest. split; [reflexivity |].
  assert (Hpeak : List.In peak (filter (selects q) tbl)).
  { apply (Permutation_in _ Hperm). left. reflexivity. }
  apply filter_In in Hpeak. destruct Hpeak as [Hp1 Hp2].
  split; [exact Hp1 |]. split; [exact Hp2 |].
  intros t' Hin' Hsel'.
  assert (Ht' : List.In t' (peak :: rest)).
  { apply (Permutation_in _ (Permutation_sym Hperm)).
    apply filter_In. split; assumption. }
  inversion Hsorted as [| p r Hr Hall]; subst.
  destruct Ht' as [<- | Ht'].
  - apply Qle_refl.
  - rewrite Forall_forall in Hall. apply Hall. exact Ht'.
Qed.

(** An answer is empty exactly when the table has no selected row. *)
Lemma answers_nil (tbl : Table) (q : TideQuery) :
  answers tbl q [] -> forall t, List.In t tbl -> selects q t = false.
Proof.
  intros [Hperm _] t Hin.
  destruct (selects q t) eqn:E; [| reflexivity].
  exfalso.
  assert (Hf : List.In t (filter (selects q) tbl))
    by (apply filter_In; split; assumption).
  apply (Permutation_in _ (Permutation_sym Hperm)) in Hf. contradiction.
Qed.

End StoreFacts.

(** ** The risk assessment *)

Module RiskFacts.
Import GoTime Models Store Controllers StoreFacts.

(** The query the assessment of [alert] issues. *)
Definition riskQuery (alert : AlertDetail) : TideQuery :=
  mkTideQuery TideTypeHigh (26 # 10)%Q (Effective alert)
              (Add (Expires alert) tideBufferDuration).

(** A qualifying observation: kind High, height above 2.6 m, time
    within [alert.effective, alert.expires + 2h]. *)
Definition qualifies (alert : AlertDetail) (t : TideData) : bool :=
  TideType_eqb (TideType_ t) TideTypeHigh
  && Qltb 2.6 (HeightM t)
  && (unixNano (Effective alert) <=? unixNano (Models.TideTime t))
  && (unixNano (Models.TideTime t) <=? unixNano (Expires alert) + 2 * Hour).

Lemma selects_riskQuery (alert : AlertDetail) (t : TideData) :
  selects (riskQuery alert) t = qualifies alert t.
Proof. reflexivity. Qed.

Section Assessment.
Variable ToLower : string -> string.
Variable FormatTimeWithTimezone : Time -> string -> Time.

Let assess := calculateTidalFloodRisk ToLower FormatTimeWithTimezone.

(** The heavy-rain signal of an alert. *)
Definition heavyRain (alert : AlertDetail) : bool :=
  Strings.Contains (ToLower (Description alert)) "heavy rain".

(** With the signal, the assessment is one query and a verdict on its
    result. *)
Lemma assess_heavy_rain alert tz now (h : TideQuery -> QueryResult) :
  heavyRain alert = true ->
  queries h (assess alert tz now) = [riskQuery alert]
  /\ forall r, runDb h (assess alert tz now) = r ->
       match h (riskQuery alert) with
       | QueryError _ => RiskLevel r = "unknown" /\ HasRisk r = false
       | Rows [] => RiskLevel r = "none" /\ HasRisk r = false
       | Rows (peak :: _) =>
           HasRisk r = true
           /\ TideType r = TideType_string (TideType_ peak)
           /\ Controllers.TideTime r = Models.TideTime peak
           /\ TideHeightM r = HeightM peak
           /\ RiskLevel r =
                if unixNano (Expires alert)
                   <? unixNano (Models.TideTime peak)
                then "moderate" else "high"
       end.
Proof.
  unfold heavyRain. intros Hrain.
  unfold assess, calculateTidalFloodRisk. rewrite Hrain. simpl.
  fold (riskQuery alert).
  split.
  - destruct (h (riskQuery alert)) as [[| peak rest] | e];
      [reflexivity | | reflexivity].
    destruct (After (Models.TideTime peak) (Expires alert)); reflexivity.
  - intros r <-.
    destruct (h (riskQuery alert)) as [[| peak rest] | e];
      [simpl; auto | | simpl; auto].
    unfold After.
    destruct (unixNano (Expires alert) <? unixNano (Models.TideTime peak));
      simpl; auto.
Qed.

(** The verdict on an answering store that holds a qualifying
    observation. *)
Lemma assess_peak alert tz now (tbl : Table) h (t : TideData) :
  heavyRain alert = true ->
  serves tbl h ->
  List.In t tbl -> qualifies alert t = true ->
  exists peak,
    List.In peak tbl /\ qualifies alert peak = true
    /\ (forall t', List.In t' tbl -> qualifies alert t' = true ->
                   (HeightM t' <= HeightM peak)%Q)
    /\ let r := runDb h (assess alert tz now) in
       HasRisk r = true
       /\ TideType r = "high"
       /\ Controllers.TideTime r = Models.TideTime peak
       /\ TideHeightM r = HeightM peak
       /\ RiskLevel r =
            if unixNano (Expires alert) <? unixNano (Models.TideTime peak)
            then "moderate" else "high".
Proof.
  intros Hrain Hserves Hin Hq.
  destruct (Hserves (riskQuery alert)) as [rows [Hh Hans]].
  destruct (answers_head tbl (riskQuery alert) rows t Hans Hin Hq)
    as [peak [rest [-> [Hpin [Hpq Hmax]]]]].
  exists peak. split; [exact Hpin |]. split; [exact Hpq |].
  split; [exact Hmax |].
  destruct (assess_heavy_rain alert tz now h Hrain) as [_ Hrun].
  specialize (Hrun _ eq_refl). rewrite Hh in Hrun.
  destruct Hrun as [H1 [H2 [H3 [H4 H5]]]].
  cbv zeta. repeat split; try assumption.
  rewrite H2. unfold selects in Hpq. simpl in Hpq.
  destruct (TideType_ peak); [reflexivity | discriminate].
Qed.
End Assessment.

Section Verdicts.
Variable ToLower : string -> string.
Variable FormatTimeWithTimezone : Time -> string -> Time.

Let assess := calculateTidalFloodRisk ToLower FormatTimeWithTimezone.

(** C1.  An alert with the heavy-rain signal, assessed against a store
    that holds at least one qualifying observation: the verdict is
    taken from a qualifying observation [peak] that no qualifying
    observation exceeds in height; it has [HasRisk] set, level "high"
    when the time of [peak] is at or before [alert.Expires], and level
    "moderate" when it is after. *)
Theorem heavy_rain_high_tide_level alert tz now (tbl : Table) h :
  heavyRain ToLower alert = true ->
  serves tbl h ->
  (exists t, List.In t tbl /\ qualifies alert t = true) ->
  exists peak,
    List.In peak tbl /\ qualifies alert peak = true
    /\ (forall t, List.In t tbl -> qualifies alert t = true ->
                  (HeightM t <= HeightM peak)%Q)
    /\ let r := runDb h (assess alert tz now) in
       Controllers.TideTime r = Models.TideTime peak
       /\ TideHeightM r = HeightM peak
       /\ HasRisk r = true
       /\ (unixNano (Models.TideTime peak) <= unixNano (Expires alert) ->
           RiskLevel r = "high")
       /\ (unixNano (Expires alert) < unixNano (Models.TideTime peak) ->
           RiskLevel r = "moderate").
Proof.
  intros Hrain Hserves [t [Hin Hq]].
  destruct (assess_peak ToLower FormatTimeWithTimezone alert tz now
                        tbl h t Hrain Hserves Hin Hq)
    as [peak [Hpin [Hpq [Hmax Hr]]]].
  exists peak. repeat (split; [assumption |]).
  cbv zeta in *. destruct Hr as [H1 [_ [H3 [H4 H5]]]].
  fold assess in H1, H3, H4, H5.
  repeat (split; [assumption |]). split; intros Hcmp; rewrite H5.
  - apply Z.ltb_ge in Hcmp. rewrite Hcmp. reflexivity.
  - apply Z.ltb_lt in Hcmp. rewrite Hcmp. reflexivity.
Qed.

(** C2.  An alert without the heavy-rain signal: the assessment is
    finished without a query, whatever the store holds, with
    [HasRisk] false, level "none" and [HeavyRain] false. *)
Theorem no_heavy_rain_no_query alert tz now :
  heavyRain ToLower alert = false ->
  exists r,
    assess alert tz now = Ret r
    /\ HasRisk r = false /\ RiskLevel r = "none" /\ HeavyRain r = false
    /\ forall h, runDb h (assess alert tz now) = r
                 /\ queries h (assess alert tz now) = [].
Proof.
  unfold heavyRain. intros Hrain.
  unfold assess, calculateTidalFloodRisk. rewrite Hrain. simpl.
  eexists. split; [reflexivity |]. simpl.
  do 3 (split; [reflexivity |]). intros h. split; reflexivity.
Qed.

(** C3.  An alert with the heavy-rain signal: the assessment always
    yields a verdict, and the level of the verdict is "unknown"
    exactly when the query of the tide store fails; a query that
    succeeds without rows yields level "none". *)
Theorem query_failure_unknown alert tz now h :
  heavyRain ToLower alert = true ->
  let r := runDb h (assess alert tz now) in
  (RiskLevel r = "unknown" <-> exists e, h (riskQuery alert) = QueryError e)
  /\ (h (riskQuery alert) = Rows [] -> RiskLevel r = "none")
  /\ "unknown" <> "none".
Proof.
  intros Hrain r.
  destruct (assess_heavy_rain ToLower FormatTimeWithTimezone
                              alert tz now h Hrain) as [_ Hrun].
  specialize (Hrun r eq_refl).
  destruct (h (riskQuery alert)) as [[| peak rest] | e].
  - destruct Hrun as [Hl _]. split; [| split].
    + split; [rewrite Hl; discriminate | intros [e He]; discriminate].
    + intros _. exact Hl.
    + discriminate.
  - destruct Hrun as [_ [_ [_ [_ Hl]]]]. split; [| split].
    + split; [| intros [e He]; discriminate].
      rewrite Hl.
      destruct (unixNano (Expires alert)
                <? unixNano (Models.TideTime peak)); discriminate.
    + discriminate.
    + discriminate.
  - destruct Hrun as [Hl _]. split; [| split].
    + split; [intros _; exists e; reflexivity | intros _; exact Hl].
    + discriminate.
    + discriminate.
Qed.

(** C4.  An alert with the heavy-rain signal, assessed against a store
    that holds two qualifying observations or more: the tide the
    verdict cites (kind, time, height) is a qualifying observation of
    maximal height. *)
Theorem verdict_cites_highest_tide alert tz now (tbl : Table) h :
  heavyRain ToLower alert = true ->
  serves tbl h ->
  (2 <= List.length (filter (qualifies alert) tbl))%nat ->
  let r := runDb h (assess alert tz now) in
  (forall t, List.In t tbl -> qualifies alert t = true ->
             (HeightM t <= TideHeightM r)%Q)
  /\ exists peak,
       List.In peak tbl /\ qualifies alert peak = true
       /\ TideType r = TideType_string (TideType_ peak)
       /\ Controllers.TideTime r = Models.TideTime peak
       /\ TideHeightM r = HeightM peak.
Proof.
  intros Hrain Hserves Hlen r.
  destruct (filter (qualifies alert) tbl) as [| t rest] eqn:Hf;
    [simpl in Hlen; lia |].
  assert (Ht : List.In t (filter (qualifies alert) tbl))
    by (rewrite Hf; left; reflexivity).
  apply filter_In in Ht. destruct Ht as [Hin Hq].
  destruct (assess_peak ToLower FormatTimeWithTimezone alert tz now
                        tbl h t Hrain Hserves Hin Hq)
    as [peak [Hpin [Hpq [Hmax Hr]]]].
  cbv zeta in Hr. fold assess in Hr. fold r in Hr.
  destruct Hr as [_ [H2 [H3 [H4 _]]]].
  split.
  - intros t' Hin' Hq'. rewrite H4. apply Hmax; assumption.
  - exists peak. repeat (split; [assumption |]). split; [| auto].
    rewrite H2. unfold qualifies in Hpq.
    destruct (TideType_ peak); [reflexivity | discriminate].
Qed.
End Verdicts.

(** *** The examples of the specification *)

(** An advisory valid from T = 2025-12-04 10:00 UTC to T+3h. *)
Definition exampleStart : Time := GoTime.Date 2025 12 4 10 0 0 0 UTC.

Definition rainAlert : AlertDetail :=
  mkAlertDetail exampleStart (Add exampleStart (3 * Hour))
                "Heavy Rain with thunderstorm in Batam, Kep. Riau".

Definition dryAlert : AlertDetail :=
  mkAlertDetail exampleStart (Add exampleStart (3 * Hour))
                "Strong wind in Batam, Kep. Riau".

Definition highTide (id : string) (height : Q) (at_ : Time) : TideData :=
  mkTideData id "Sekupang" (GoTime.Date 2025 12 4 0 0 0 0 UTC)
             TideTypeHigh at_ height (height * (3281 # 1000))%Q.

Definition keepTime (t : Time) (timezone : string) : Time := t.

Definition exampleAssess (alert : AlertDetail) (tbl : Table)
  : TidalFloodRisk :=
  runDb (execQuery tbl)
        (calculateTidalFloodRisk Strings.ascii_ToLower keepTime alert
                                 "Asia/Jakarta" exampleStart).

(** A high tide of 2.8 m at T+1h: high risk; at T+4h: moderate risk;
    at T+6h: none. *)
Example tide_within_window :
  let r := exampleAssess rainAlert
             [highTide "a" 2.8 (Add exampleStart (1 * Hour))] in
  (HasRisk r, RiskLevel r) = (true, "high").
Proof. vm_compute. reflexivity. Qed.

Example tide_within_buffer :
  let r := exampleAssess rainAlert
             [highTide "a" 2.8 (Add exampleStart (4 * Hour))] in
  (HasRisk r, RiskLevel r) = (true, "moderate").
Proof. vm_compute. reflexivity. Qed.

Example tide_after_buffer :
  let r := exampleAssess rainAlert
             [highTide "a" 2.8 (Add exampleStart (6 * Hour))] in
  (HasRisk r, RiskLevel r) = (false, "none").
Proof. vm_compute. reflexivity. Qed.

(** Two qualifying tides, 2.7 m and 2.9 m: the verdict cites the
    2.9 m one. *)
Definition twoTides : Table :=
  [highTide "a" 2.7 (Add exampleStart (1 * Hour));
   highTide "b" 2.9 (Add exampleStart (2 * Hour))].

Example two_tides_cite_higher :
  let r := exampleAssess rainAlert twoTides in
  (TideHeightM r, Controllers.TideTime r)
  = (2.9%Q, Add exampleStart (2 * Hour)).
Proof. vm_compute. reflexivity. Qed.

Lemma heavy_rain_high_tide_level_witness :
  let tbl := [highTide "a" 2.8 (Add exampleStart (4 * Hour))] in
  exists peak,
    List.In peak tbl /\ qualifies rainAlert peak = true
    /\ (forall t, List.In t tbl -> qualifies rainAlert t = true ->
                  (HeightM t <= HeightM peak)%Q)
    /\ let r := exampleAssess rainAlert tbl in
       Controllers.TideTime r = Models.TideTime peak
       /\ TideHeightM r = HeightM peak
       /\ HasRisk r = true
       /\ (unixNano (Models.TideTime peak) <= unixNano (Expires rainAlert) ->
           RiskLevel r = "high")
       /\ (unixNano (Expires rainAlert) < unixNano (Models.TideTime peak) ->
           RiskLevel r = "moderate").
Proof.
  intros tbl.
  apply (heavy_rain_high_tide_level Strings.ascii_ToLower keepTime
           rainAlert "Asia/Jakarta" exampleStart tbl (execQuery tbl)).
  - vm_compute. reflexivity.
  - apply execQuery_serves.
  - exists (highTide "a" 2.8 (Add exampleStart (4 * Hour))).
    split; [left; reflexivity | vm_compute; reflexivity].
Defined.

Lemma no_heavy_rain_no_query_witness :
  exists r,
    calculateTidalFloodRisk Strings.ascii_ToLower keepTime dryAlert
                            "Asia/Jakarta" exampleStart = Ret r
    /\ HasRisk r = false /\ RiskLevel r = "none" /\ HeavyRain r = false
    /\ forall h,
         runDb h (calculateTidalFloodRisk Strings.ascii_ToLower keepTime
                    dryAlert "Asia/Jakarta" exampleStart) = r
         /\ queries h (calculateTidalFloodRisk Strings.ascii_ToLower
                         keepTime dryAlert "Asia/Jakarta" exampleStart)
            = [].
Proof.
  apply (no_heavy_rain_no_query Strings.ascii_ToLower keepTime dryAlert
           "Asia/Jakarta" exampleStart).
  vm_compute. reflexivity.
Defined.

Lemma query_failure_unknown_witness :
  let h := brokenStore "connection refused" in
  let r := runDb h (calculateTidalFloodRisk Strings.ascii_ToLower keepTime
                      rainAlert "Asia/Jakarta" exampleStart) in
  (RiskLevel r = "unknown"
   <-> exists e, h (riskQuery rainAlert) = QueryError e)
  /\ (h (riskQuery rainAlert) = Rows [] -> RiskLevel r = "none")
  /\ "unknown" <> "none".
Proof.
  intros h.
  apply (query_failure_unknown Strings.ascii_ToLower keepTime rainAlert
           "Asia/Jakarta" exampleStart h).
  vm_compute. reflexivity.
Defined.

Lemma verdict_cites_highest_tide_witness :
  let r := exampleAssess rainAlert twoTides in
  (forall t, List.In t twoTides -> qualifies rainAlert t = true ->
             (HeightM t <= TideHeightM r)%Q)
  /\ exists peak,
       List.In peak twoTides /\ qualifies rainAlert peak = true
       /\ TideType r = TideType_string (TideType_ peak)
       /\ Controllers.TideTime r = Models.TideTime peak
       /\ TideHeightM r = HeightM peak.
Proof.
  apply (verdict_cites_highest_tide Strings.ascii_ToLower keepTime
           rainAlert "Asia/Jakarta" exampleStart twoTides
           (execQuery twoTides)).
  - vm_compute. reflexivity.
  - apply execQuery_serves.
  - vm_compute. lia.
Defined.

End RiskFacts.

(** ** The scheduler's stop channel *)

Module StopFacts.
Import Fetcher.

(** C5, as stated, fails: after a first [Stop] on a new fetcher, which
    returns, a second [Stop] does not return. *)
Lemma second_stop_not_safe :
  exists f1,
    Stop NewTidalFloodFetcher = Returns f1
    /\ ~ (exists f2, Stop f1 = Returns f2).
Proof.
  exists (mkFetcher ChanClosed). split; [reflexivity |].
  intros [f2 H]. discriminate H.
Qed.

(** C5, amended.  A [Stop] that returns leaves the stop channel closed,
    which is what the fetch loop waits for, and every [Stop] after it
    panics with "close of closed channel": the fetcher has no guard
    against a second call. *)
Theorem stop_twice_panics (f f1 : TidalFloodFetcher) :
  Stop f = Returns f1 ->
  stopChan f = ChanOpen
  /\ stopRequested f1 = true
  /\ Stop f1 = Panics "close of closed channel".
Proof.
  destruct f as [[|]]; unfold Stop; simpl; intros H.
  - injection H as <-. repeat split.
  - discriminate H.
Qed.

Lemma stop_twice_panics_witness :
  stopChan NewTidalFloodFetcher = ChanOpen
  /\ stopRequested (mkFetcher ChanClosed) = true
  /\ Stop (mkFetcher ChanClosed) = Panics "close of closed channel".
Proof.
  apply (stop_twice_panics NewTidalFloodFetcher (mkFetcher ChanClosed)).
  reflexivity.
Defined.

End StopFacts.

(** ** The replacement of a day *)

Module SyncFacts.
Import GoTime Models Store Fetcher.

Section Replace.
Variable faults : Faults.
Variable NewULID : nat -> string.

(** The rows a run of inserts creates, [n] the number of the statement
    that inserts the first. *)
Fixpoint created (n : nat) (tideData : list TideData) : list TideData :=
  match tideData with
  | [] => []
  | data :: rest => BeforeCreate data (NewULID n) :: created (S n) rest
  end.

(** The table after a day has been replaced. *)
Definition replaced (db : Table) (date : Time) (tideData : list TideData)
  : Table :=
  (filter (fun t => negb (sameDay TideLocation date t)) db
   ++ created 1 tideData)%list.

(** Statements [n] to [n + k - 1] run without fault. *)
Definition faultless (n k : nat) : Prop :=
  forall i, (n <= i < n + k)%nat -> statementFault faults i = None.

Lemma statement_ok (f : nat -> Table -> Table) (st : TxState) :
  statementFault faults (tx_statements st) = None ->
  statement faults f st
  = (Ok tt, mkTx (f (tx_statements st) (tx_rows st)) (S (tx_statements st))).
Proof. unfold statement. intros ->. reflexivity. Qed.

Lemma statement_fault (f : nat -> Table -> Table) (st : TxState) e :
  statementFault faults (tx_statements st) = Some e ->
  statement faults f st = (Err e, st).
Proof. unfold statement. intros ->. reflexivity. Qed.

(** The loop of inserts: without fault it appends the created rows and
    counts them. *)
Lemma insertAll_ok (tideData : list TideData) :
  forall count st,
    faultless (tx_statements st) (List.length tideData) ->
    insertAll faults NewULID tideData count st
    = (Ok (count + Z.of_nat (List.length tideData)),
       mkTx (tx_rows st ++ created (tx_statements st) tideData)%list
            (tx_statements st + List.length tideData)).
Proof.
  induction tideData as [| data rest IH]; intros count st Hok.
  - simpl. unfold tx_ret. rewrite Z.add_0_r, app_nil_r, Nat.add_0_r.
    destruct st; reflexivity.
  - cbn [insertAll]. unfold tx_bind, wrapError, tx_Create.
    rewrite statement_ok by (apply Hok; simpl; lia).
    rewrite IH.
    + cbn [tx_rows tx_statements List.length created].
      rewrite <- app_assoc. cbn [app].
      f_equal; [f_equal; lia | f_equal; lia].
    + intros i Hi. apply Hok. cbn [tx_statements List.length] in *. lia.
Qed.

(** With a fault among its statements the loop ends in an error. *)
Lemma insertAll_fault (tideData : list TideData) :
  forall count st i,
    (tx_statements st <= i < tx_statements st + List.length tideData)%nat ->
    statementFault faults i <> None ->
    exists e st', insertAll faults NewULID tideData count st = (Err e, st').
Proof.
  induction tideData as [| data rest IH]; intros count st i Hi Hf.
  - simpl in Hi. lia.
  - cbn [insertAll]. unfold tx_bind, wrapError, tx_Create.
    destruct (statementFault faults (tx_statements st)) as [e |] eqn:E.
    + rewrite (statement_fault _ _ e E). eauto.
    + rewrite statement_ok by exact E.
      apply (IH _ _ i); [| exact Hf].
      cbn [tx_statements List.length] in *.
      assert (i <> tx_statements st) by congruence. lia.
Qed.

(** Either the inserts of a batch run without fault or one of them has
    a fault. *)
Lemma classic_fault (tideData : list TideData) (s : nat) :
  faultless s (List.length tideData)
  \/ exists i,
       (s <= i < s + List.length tideData)%nat
       /\ statementFault faults i <> None.
Proof.
  revert s.
  induction (List.length tideData) as [| k IH]; intros s.
  - left. intros i Hi. lia.
  - destruct (IH s) as [Hall | [i [Hi Hf]]].
    + destruct (statementFault faults (s + k)) as [e |] eqn:E.
      * right. exists (s + k)%nat. split; [lia | congruence].
      * left. intros i Hi.
        destruct (Nat.eq_dec i (s + k)) as [-> | Hne]; [exact E |].
        apply Hall. lia.
    + right. exists i. split; [lia | exact Hf].
Qed.

(** C6.  The replacement of a day by a non-empty batch is one
    transaction: statement 0 deletes the rows of the location and date,
    statements 1 to [n] insert the [n] rows of the batch.  If one of them
    fails (or the commit does), the call returns an error and the table
    is the one before the call; if none fails, the call returns [n] and
    the table holds the batch in place of the day's former rows. *)
Theorem replace_day_atomic (tideData : list TideData) (date : Time)
    (db : Table) :
  tideData <> [] ->
  let n := List.length tideData in
  let run := FetchAndStore faults NewULID (Ok (tideData, date)) db in
  ((exists i, (i <= n)%nat /\ statementFault faults i <> None)
   \/ commitFault faults <> None ->
   exists e, run = (Err e, db))
  /\ (faultless 0 (S n) -> commitFault faults = None ->
      run = (Ok (Z.of_nat n), replaced db date tideData)).
Proof.
  intros Hne n run. subst run. unfold FetchAndStore.
  destruct tideData as [| d0 rest] eqn:Hd; [congruence |].
  rewrite <- Hd in *. clear Hne.
  assert (Hlen : (List.length tideData =? 0)%nat = false)
    by (rewrite Hd; reflexivity).
  rewrite Hlen. unfold Transaction, tx_bind, wrapError, tx_Delete.
  split.
  - intros Hfault.
    destruct (statementFault faults 0) as [e0 |] eqn:E0.
    + rewrite (statement_fault _ _ e0) by exact E0. eauto.
    + rewrite statement_ok by exact E0. cbn [tx_rows tx_statements].
      destruct (classic_fault tideData 1) as [Hall | [i [Hi Hf]]].
      * rewrite insertAll_ok by exact Hall.
        destruct (commitFault faults) as [ec |] eqn:Ec; [eauto |].
        exfalso. destruct Hfault as [[i [Hi Hf]] | Hc]; [| congruence].
        destruct i as [| i]; [congruence |].
        apply Hf, Hall. rewrite Hd. subst n. simpl in *. lia.
      * destruct (insertAll_fault tideData 0
                    (mkTx (filter (fun t => negb (sameDay TideLocation date t))
                                  db) 1) i Hi Hf) as [e [st' ->]].
        eauto.
  - intros Hok Hcommit.
    assert (Hn : n = List.length tideData) by (rewrite Hd; reflexivity).
    rewrite statement_ok by (apply Hok; cbn; lia).
    cbn [tx_rows tx_statements].
    rewrite insertAll_ok
      by (intros i Hi; apply Hok; cbn [tx_statements] in Hi; lia).
    rewrite Hcommit, Hn. reflexivity.
Qed.

End Replace.

(** *** An example: the tides of 2025-12-04 replace those stored *)

Definition exampleDate : Time := GoTime.Date 2025 12 4 0 0 0 0 wibTimezone.

Definition exampleRow (id : string) (date : Time) (kind : TideType)
    (hour minute : Z) (m ft : Q) : TideData :=
  mkTideData id TideLocation date kind
             (GoTime.Date (Year date) (Month date) (Day date) hour minute
                          0 0 wibTimezone)
             m ft.

(** The table holds two rows of the day and one of the day before. *)
Definition storedDays : Table :=
  [exampleRow "01A" (AddDate exampleDate 0 0 (-1)) TideTypeHigh 21 40 2.5 8.2;
   exampleRow "01B" exampleDate TideTypeLow 3 12 0.4 1.3;
   exampleRow "01C" exampleDate TideTypeHigh 9 47 2.7 8.9].

Definition freshBatch : list TideData :=
  [exampleRow "" exampleDate TideTypeLow 3 14 0.5 1.6;
   exampleRow "" exampleDate TideTypeHigh 9 50 2.8 9.2].

Definition exampleULID (n : nat) : string :=
  "01J" ++ Strconv.Itoa (Z.of_nat n).

(** The second insert fails. *)
Definition secondInsertFails : Faults :=
  mkFaults (fun n => if (n =? 2)%nat then Some "disk full" else None) None.

Example failed_insert_keeps_the_day :
  FetchAndStore secondInsertFails exampleULID (Ok (freshBatch, exampleDate))
                storedDays
  = (Err "failed to insert tide data: disk full", storedDays).
Proof. vm_compute. reflexivity. Qed.

Example replaced_day :
  FetchAndStore noFaults exampleULID (Ok (freshBatch, exampleDate))
                storedDays
  = (Ok 2,
     [exampleRow "01A" (AddDate exampleDate 0 0 (-1)) TideTypeHigh 21 40
                 2.5 8.2;
      exampleRow "01J1" exampleDate TideTypeLow 3 14 0.5 1.6;
      exampleRow "01J2" exampleDate TideTypeHigh 9 50 2.8 9.2]).
Proof. vm_compute. reflexivity. Qed.

Lemma replace_day_atomic_witness :
  (exists e,
      FetchAndStore secondInsertFails exampleULID
                    (Ok (freshBatch, exampleDate)) storedDays
      = (Err e, storedDays))
  /\ FetchAndStore noFaults exampleULID (Ok (freshBatch, exampleDate))
                   storedDays
     = (Ok 2, replaced exampleULID storedDays exampleDate freshBatch).
Proof.
  split.
  - apply (proj1 (replace_day_atomic secondInsertFails exampleULID
                    freshBatch exampleDate storedDays
                    ltac:(discriminate))).
    left. exists 2%nat. split; [simpl; lia | discriminate].
  - apply (proj2 (replace_day_atomic noFaults exampleULID
                    freshBatch exampleDate storedDays
                    ltac:(discriminate))).
    + intros i _. reflexivity.
    + reflexivity.
Defined.

End SyncFacts.

(** ** The scrape *)

Module ScrapeFacts.
Import GoTime Models Store Fetcher.

Section Rows.
Variable ToLower : string -> string.
Variable dateRe_FindStringSubmatch : string -> list string.
Variable ParseInLocation : string -> string -> GoTime.Location -> result Time.

Let Fetch := Fetch ToLower dateRe_FindStringSubmatch ParseInLocation.
Let parseTideDate := parseTideDate dateRe_FindStringSubmatch ParseInLocation.

(** The entries of the accepted rows of a table, in the order of the
    table; the first row is the header row. *)
Definition entry (date : Time) (cols : list string) : list TideData :=
  match parseRow ToLower date cols with
  | Some data => [data]
  | None => []
  end.

Definition accepted (date : Time) (rows : list (list string))
  : list TideData :=
  flat_map (entry date) (tl rows).

Lemma parseRows_from (date : Time) (rows : list (list string)) :
  forall i tideData,
    parseRows ToLower date (S i) rows tideData
    = (tideData ++ flat_map (entry date) rows)%list.
Proof.
  induction rows as [| cols rest IH]; intros i tideData; simpl.
  - rewrite app_nil_r. reflexivity.
  - rewrite IH. unfold entry.
    destruct (parseRow ToLower date cols) as [data |]; simpl.
    + rewrite <- app_assoc. reflexivity.
    + reflexivity.
Qed.

Lemma parseRows_accepted (date : Time) (rows : list (list string)) :
  parseRows ToLower date 0 rows [] = accepted date rows.
Proof.
  destruct rows as [| header rest]; [reflexivity |].
  simpl. rewrite parseRows_from. reflexivity.
Qed.

(** The kind a label is read as. *)
Definition classify (label : string) : option TideType :=
  if Strings.Contains (ToLower label) "high" then Some TideTypeHigh
  else if Strings.Contains (ToLower label) "low" then Some TideTypeLow
  else None.

(** A row is accepted exactly when it has three cells, its label is read
    as a kind, and its time and height parse. *)
Lemma parseRow_accepts (date : Time) (cols : list string)
      (data : TideData) :
  parseRow ToLower date cols = Some data <->
  exists label clock height kind tideTime m ft,
    cols = [label; clock; height]
    /\ classify (Strings.TrimSpace label) = Some kind
    /\ parseTimeWIB date (Strings.TrimSpace clock) = Ok tideTime
    /\ parseHeight (Strings.TrimSpace height) = Ok (m, ft)
    /\ data = mkTideData "" TideLocation date kind tideTime m ft.
Proof.
  unfold parseRow, classify. split.
  - destruct cols as [| a [| b [| c [| d cols]]]]; simpl; try discriminate.
    intros H. exists a, b, c.
    destruct (Strings.Contains (ToLower (Strings.TrimSpace a)) "high").
    + destruct (parseTimeWIB date (Strings.TrimSpace b)) as [t |];
        [| discriminate].
      destruct (parseHeight (Strings.TrimSpace c)) as [[m ft] |];
        [| discriminate].
      injection H as <-. exists TideTypeHigh, t, m, ft. auto.
    + destruct (Strings.Contains (ToLower (Strings.TrimSpace a)) "low");
        [| discriminate].
      destruct (parseTimeWIB date (Strings.TrimSpace b)) as [t |];
        [| discriminate].
      destruct (parseHeight (Strings.TrimSpace c)) as [[m ft] |];
        [| discriminate].
      injection H as <-. exists TideTypeLow, t, m, ft. auto.
  - intros (a & b & c & kind & t & m & ft & -> & Hk & Ht & Hh & ->). simpl.
    rewrite Ht, Hh.
    destruct (Strings.Contains (ToLower (Strings.TrimSpace a)) "high").
    + injection Hk as <-. reflexivity.
    + destruct (Strings.Contains (ToLower (Strings.TrimSpace a)) "low");
        [| discriminate].
      injection Hk as <-. reflexivity.
Qed.


End Rows.

(** *** The library functions on the page of the station

    To run the scrape on a page, the three library functions are given
    here as far as such a page exercises them: lower-casing of ASCII
    text, the date pattern read greedily from the leftmost position it
    matches at, and the layout "January 2, 2006". *)

Definition is_word (c : ascii) : bool :=
  let n := nat_of_ascii c in
  (Strconv.is_digit c
   || (Nat.leb 65 n && Nat.leb n 90) || (Nat.leb 97 n && Nat.leb n 122)
   || Nat.eqb n 95)%bool.

(** A run of one byte of the class or more. *)
Definition run1 (p : ascii -> bool) (s : string) : option (string * string) :=
  match HeightRe.span p s with
  | (EmptyString, _) => None
  | r => Some r
  end.

Definition dateRe_here (s : string) : option (list string) :=
  match run1 is_word s with None => None | Some (g1, r1) =>
  match run1 HeightRe.is_re_space r1 with None => None | Some (_, r2) =>
  match run1 is_word r2 with None => None | Some (g2, r3) =>
  match run1 HeightRe.is_re_space r3 with None => None | Some (_, r4) =>
  match run1 Strconv.is_digit r4 with None => None | Some (g3, r5) =>
  match HeightRe.literal "," r5 with None => None | Some r6 =>
  match run1 HeightRe.is_re_space r6 with None => None | Some (_, r7) =>
  match run1 Strconv.is_digit r7 with None => None | Some (g4, r8) =>
    Some [substring 0 (String.length s - String.length r8) s; g1; g2; g3; g4]
  end end end end end end end end.

Fixpoint dateRe (s : string) : list string :=
  match dateRe_here s with
  | Some groups => groups
  | None =>
      match s with
      | EmptyString => []
      | String _ s' => dateRe s'
      end
  end.

Definition longMonthNames : list string :=
  ["January"; "February"; "March"; "April"; "May"; "June"; "July";
   "August"; "September"; "October"; "November"; "December"].

(** The month a text starts with, whatever the case, and the rest. *)
Fixpoint lookupMonth (names : list string) (month : Z) (value : string)
  : option (Z * string) :=
  match names with
  | [] => None
  | name :: rest =>
      let head := substring 0 (String.length name) value in
      if String.eqb (Strings.ascii_ToLower head) (Strings.ascii_ToLower name)
      then Some (month,
                 substring (String.length name)
                           (String.length value - String.length name) value)
      else lookupMonth rest (month + 1) value
  end.

Definition daysIn (month year : Z) : Z :=
  if month =? 2 then
    if ((year mod 4 =? 0) && negb (year mod 100 =? 0) || (year mod 400 =? 0))%bool
    then 29 else 28
  else if (month =? 4) || (month =? 6) || (month =? 9) || (month =? 11)
  then 30 else 31.

Definition parseLongDate (layout value : string) (loc : GoTime.Location)
  : result Time :=
  let failed := Err ("parsing time " ++ Strconv.quote value) in
  if negb (String.eqb layout "January 2, 2006") then failed else
  match lookupMonth longMonthNames 1 value with
  | None => failed
  | Some (month, r1) =>
  match HeightRe.literal " " r1 with
  | None => failed
  | Some r2 =>
      let '(dayText, r3) :=
        match r2 with
        | String a (String b r) =>
            if Strconv.is_digit b then (String a (String b ""), r)
            else (String a "", String b r)
        | _ => (r2, "")
        end in
      match Strconv.digits_value dayText 0, HeightRe.literal ", " r3 with
      | Some day, Some r4 =>
          match Strconv.digits_value r4 0 with
          | Some year =>
              if negb (String.length r4 =? 4)%nat || (String.length dayText =? 0)%nat
              then failed
              else if (day <? 1) || (daysIn month year <? day)
              then Err ("parsing time " ++ Strconv.quote value
                        ++ ": day out of range")
              else Ok (GoTime.Date year month day 0 0 0 0 loc)
          | None => failed
          end
      | _, _ => failed
      end
  end end.

(** *** A page of the station *)

Definition stationPage : Document :=
  mkDocument
    ["Sekupang tide times";
     "Tide Times for Sekupang: Thursday December 4, 2025 (WIB)";
     "All times are local"]
    [["Tide"; "Time"; "Height"];
     [" Low Tide "; "03:12"; "0.4 m (1.3 ft)"];
     [" High Tide "; "09:47"; "2.7 m (8.9 ft)"];
     ["Sunset"; "18:02"];
     [" Low Tide "; "3.55 PM"; "1.1 m (3.6 ft)"];
     [" High Tide "; "21:40"; "2.5 m"];
     [" Slack "; "22:00"; "1.0 m (3.3 ft)"];
     [" Low Tide "; "23:58"; "-0.1 m (-0.3 ft)"]].

Definition pageDate : Time := GoTime.Date 2025 12 4 0 0 0 0 wibTimezone.

Definition pageTide (kind : TideType) (hour minute : Z) (m ft : Q)
  : TideData :=
  mkTideData "" TideLocation pageDate kind
             (GoTime.Date 2025 12 4 hour minute 0 0 wibTimezone) m ft.

Definition scrape (resp : HttpResult) : result (list TideData * Time) :=
  Fetcher.Fetch Strings.ascii_ToLower dateRe parseLongDate resp.

Example page_date :
  Fetcher.parseTideDate dateRe parseLongDate
    "Tide Times for Sekupang: Thursday December 4, 2025 (WIB)"
  = Ok pageDate.
Proof. vm_compute. reflexivity. Qed.

(** Of seven rows under the header row three are accepted. *)
Example page_scrape :
  scrape (Response StatusOK (Ok stationPage))
  = Ok ([pageTide TideTypeLow 3 12 0.4 1.3;
         pageTide TideTypeHigh 9 47 2.7 8.9;
         pageTide TideTypeLow 23 58 (-0.1) (-0.3)],
        pageDate).
Proof. vm_compute. reflexivity. Qed.

(** A page whose rows are all unusable. *)
Example page_without_usable_row :
  scrape (Response StatusOK
            (Ok (mkDocument (divTexts stationPage)
                            [["Tide"; "Time"; "Height"];
                             ["Sunset"; "18:02"];
                             [" High Tide "; "21:40"; "2.5 m"]])))
  = Err "no tide data found in the table".
Proof. vm_compute. reflexivity. Qed.

Example page_failures :
  scrape (GetFailed "dial tcp: i/o timeout")
  = Err "failed to fetch tide data: dial tcp: i/o timeout"
  /\ scrape (Response 503 (Ok stationPage))
     = Err "worldtides.info returned status code: 503"
  /\ scrape (Response StatusOK
               (Ok (mkDocument ["All times are local"]
                               (tableRows stationPage))))
     = Err "could not find tide date header".
Proof. repeat split; vm_compute; reflexivity. Qed.



End ScrapeFacts.

(** ** The height pattern and [parseHeight] *)

Module HeightFacts.
Import Fetcher Fetcher.HeightRe.

(** *** Strings *)

Lemma append_assoc (a b c : string) : ((a ++ b) ++ c = a ++ (b ++ c))%string.
Proof. induction a as [| x a IH]; simpl; [| rewrite IH]; reflexivity. Qed.

Lemma append_empty_r (a : string) : (a ++ "")%string = a.
Proof. induction a as [| x a IH]; simpl; [| rewrite IH]; reflexivity. Qed.

Lemma length_append (a b : string) :
  String.length (a ++ b) = (String.length a + String.length b)%nat.
Proof. induction a as [| x a IH]; simpl; [| rewrite IH]; reflexivity. Qed.

Lemma substring_prefix (a b : string) :
  substring 0 (String.length a) (a ++ b) = a.
Proof.
  induction a as [| x a IH]; simpl.
  - destruct b; reflexivity.
  - rewrite IH. reflexivity.
Qed.

(** *** The text of the pattern *)

(** Every byte of [s] is in the class [p]. *)
Fixpoint all_in (p : ascii -> bool) (s : string) : bool :=
  match s with
  | EmptyString => true
  | String c s' => p c && all_in p s'
  end.

(** [s] does not start with a byte of the class [p]. *)
Definition stops (p : ascii -> bool) (s : string) : bool :=
  match s with
  | EmptyString => true
  | String c _ => negb (p c)
  end.

(** [-?[\d.]+]: an optional minus, then one digit or point or more. *)
Definition numeral_text (g : string) : Prop :=
  exists body,
    body <> "" /\ all_in is_numchar body = true
    /\ (g = body \/ g = String "-" body).

(** [m] is a text the whole pattern matches, with captures [g1] and
    [g2]. *)
Definition pattern_text (m g1 g2 : string) : Prop :=
  exists w1 w2 w3,
    numeral_text g1 /\ numeral_text g2
    /\ all_in is_re_space w1 = true /\ all_in is_re_space w2 = true
    /\ all_in is_re_space w3 = true
    /\ m = g1 ++ w1 ++ "m" ++ w2 ++ "(" ++ g2 ++ w3 ++ "ft)".

(** The pattern occurs in [s]. *)
Definition occurs (s : string) : Prop :=
  exists pre m g1 g2 post, s = pre ++ m ++ post /\ pattern_text m g1 g2.

(** *** The matcher reads exactly the text of the pattern *)

Lemma span_sound (p : ascii -> bool) (s : string) :
  forall run rest,
    span p s = (run, rest) ->
    s = run ++ rest /\ all_in p run = true /\ stops p rest = true.
Proof.
  induction s as [| c s IH]; simpl; intros run rest H.
  - injection H as <- <-. auto.
  - destruct (p c) eqn:E.
    + destruct (span p s) as [run' rest'] eqn:Es.
      injection H as <- <-.
      destruct (IH _ _ eq_refl) as [-> [Ha Hs]].
      simpl. rewrite E, Ha. auto.
    + injection H as <- <-. simpl. rewrite E. auto.
Qed.

Lemma span_complete (p : ascii -> bool) (run rest : string) :
  all_in p run = true -> stops p rest = true ->
  span p (run ++ rest) = (run, rest).
Proof.
  induction run as [| c run IH]; simpl; intros Ha Hs.
  - destruct rest as [| d rest]; [reflexivity |].
    simpl in *. apply negb_true_iff in Hs. rewrite Hs. reflexivity.
  - apply andb_true_iff in Ha. destruct Ha as [Hc Ha].
    rewrite Hc, IH by assumption. reflexivity.
Qed.

Lemma minus_not_numchar : is_numchar "-" = false.
Proof. reflexivity. Qed.

Lemma numeral_sound (s g rest : string) :
  numeral s = Some (g, rest) ->
  s = g ++ rest /\ numeral_text g /\ stops is_numchar rest = true.
Proof.
  unfold numeral.
  assert (Hgen : forall sign body,
             match span is_numchar body with
             | (EmptyString, _) => None
             | (run, r) => Some (sign ++ run, r)
             end = Some (g, rest) ->
             exists run, run <> "" /\ all_in is_numchar run = true
                         /\ g = sign ++ run /\ body = run ++ rest
                         /\ stops is_numchar rest = true).
  { intros sign body H.
    destruct (span is_numchar body) as [run r] eqn:E.
    destruct (span_sound _ _ _ _ E) as [-> [Ha Hs]].
    destruct run as [| c run]; [discriminate |].
    injection H as <- <-. exists (String c run).
    repeat split; auto; discriminate. }
  destruct s as [| c s'].
  - intros H. apply (Hgen "" "") in H.
    destruct H as [run [Hne [_ [_ [Hb _]]]]].
    destruct run; [congruence | discriminate].
  - destruct (Ascii.eqb c "-") eqn:Ec.
    + apply Ascii.eqb_eq in Ec. subst c. intros H.
      apply (Hgen "-" s') in H.
      destruct H as [run [Hne [Ha [-> [-> Hs]]]]].
      split; [reflexivity |]. split; [| exact Hs].
      exists run. auto.
    + assert (Hc : c <> "-"%char) by (apply Ascii.eqb_neq; exact Ec).
      intros H.
      assert (H' : match span is_numchar (String c s') with
                   | (EmptyString, _) => None
                   | (run, r) => Some ("" ++ run, r)
                   end = Some (g, rest)).
      { destruct c as [[] [] [] [] [] [] [] []];
          try exact H; congruence. }
      apply (Hgen "" (String c s')) in H'.
      destruct H' as [run [Hne [Ha [-> [-> Hs]]]]].
      split; [reflexivity |]. split; [| exact Hs].
      exists run. auto.
Qed.

Lemma numeral_complete (g rest : string) :
  numeral_text g -> stops is_numchar rest = true ->
  numeral (g ++ rest) = Some (g, rest).
Proof.
  intros [body [Hne [Ha Hg]]] Hs. unfold numeral.
  destruct Hg as [-> | ->].
  - destruct body as [| c body]; [congruence |].
    assert (Hc : is_numchar c = true)
      by (simpl in Ha; apply andb_true_iff in Ha; tauto).
    assert (Hsp : span is_numchar (String c body ++ rest)
                  = (String c body, rest))
      by (apply span_complete; assumption).
    simpl append in *.
    destruct c as [[] [] [] [] [] [] [] []]; try discriminate Hc;
      rewrite Hsp; reflexivity.
  - simpl. rewrite span_complete by assumption.
    destruct body; [congruence | reflexivity].
Qed.

Lemma spaces_sound (s : string) :
  exists w,
    s = w ++ spaces s /\ all_in is_re_space w = true
    /\ stops is_re_space (spaces s) = true.
Proof.
  unfold spaces. destruct (span is_re_space s) as [w rest] eqn:E.
  destruct (span_sound _ _ _ _ E) as [-> [Ha Hs]].
  exists w. auto.
Qed.

Lemma spaces_complete (w rest : string) :
  all_in is_re_space w = true -> stops is_re_space rest = true ->
  spaces (w ++ rest) = rest.
Proof.
  intros Ha Hs. unfold spaces. rewrite span_complete by assumption.
  reflexivity.
Qed.

Lemma literal_sound (lit : string) :
  forall s rest, literal lit s = Some rest -> s = lit ++ rest.
Proof.
  induction lit as [| c lit IH]; simpl; intros s rest H.
  - injection H as <-. reflexivity.
  - destruct s as [| d s]; [discriminate |].
    destruct (Ascii.eqb c d) eqn:E; [| discriminate].
    apply Ascii.eqb_eq in E. subst d. rewrite (IH _ _ H). reflexivity.
Qed.

Lemma literal_complete (lit rest : string) :
  literal lit (lit ++ rest) = Some rest.
Proof.
  induction lit as [| c lit IH]; simpl.
  - destruct rest; reflexivity.
  - rewrite Ascii.eqb_refl. exact IH.
Qed.

(** What may follow a run of the pattern does not continue it. *)
Lemma space_then_stops_numeral (w rest : string) (c : ascii) :
  all_in is_re_space w = true -> is_numchar c = false ->
  stops is_numchar (w ++ String c rest) = true.
Proof.
  intros Ha Hc. destruct w as [| d w]; simpl.
  - rewrite Hc. reflexivity.
  - simpl in Ha. apply andb_true_iff in Ha. destruct Ha as [Hd _].
    destruct d as [[] [] [] [] [] [] [] []]; try discriminate Hd; reflexivity.
Qed.

Lemma match_here_sound (s m g1 g2 : string) :
  match_here s = Some (m, g1, g2) ->
  exists post, s = m ++ post /\ pattern_text m g1 g2.
Proof.
  unfold match_here.
  destruct (numeral s) as [[h1 r1] |] eqn:E1; [| discriminate].
  destruct (literal "m" (spaces r1)) as [r2 |] eqn:E2; [| discriminate].
  destruct (literal "(" (spaces r2)) as [r3 |] eqn:E3; [| discriminate].
  destruct (numeral r3) as [[h2 r4] |] eqn:E4; [| discriminate].
  destruct (literal "ft)" (spaces r4)) as [r5 |] eqn:E5; [| discriminate].
  intros H. injection H as <- <- <-.
  destruct (numeral_sound _ _ _ E1) as [Hs [Hn1 _]].
  destruct (numeral_sound _ _ _ E4) as [Hr3 [Hn2 _]].
  destruct (spaces_sound r1) as [w1 [Hr1 [Hw1 _]]].
  destruct (spaces_sound r2) as [w2 [Hr2 [Hw2 _]]].
  destruct (spaces_sound r4) as [w3 [Hr4 [Hw3 _]]].
  apply literal_sound in E2, E3, E5.
  rewrite E2 in Hr1. rewrite E3 in Hr2. rewrite E5 in Hr4.
  assert (Hall : s = (h1 ++ w1 ++ "m" ++ w2 ++ "(" ++ h2 ++ w3 ++ "ft)")
                     ++ r5).
  { rewrite Hs, Hr1, Hr2, Hr3, Hr4.
    repeat rewrite append_assoc. reflexivity. }
  exists r5.
  assert (Hm : substring 0 (String.length s - String.length r5) s
               = h1 ++ w1 ++ "m" ++ w2 ++ "(" ++ h2 ++ w3 ++ "ft)").
  { rewrite Hall at 1 2. rewrite length_append, Nat.add_sub.
    apply substring_prefix. }
  rewrite Hm. split; [exact Hall |].
  exists w1, w2, w3. auto 10.
Qed.

Lemma match_here_complete (m g1 g2 post : string) :
  pattern_text m g1 g2 -> match_here (m ++ post) = Some (m, g1, g2).
Proof.
  intros [w1 [w2 [w3 [Hn1 [Hn2 [Hw1 [Hw2 [Hw3 ->]]]]]]]].
  set (r4 := (w3 ++ "ft)" ++ post)%string).
  set (r3 := (g2 ++ r4)%string).
  set (r2 := (w2 ++ "(" ++ r3)%string).
  set (r1 := (w1 ++ "m" ++ r2)%string).
  set (text := (g1 ++ w1 ++ "m" ++ w2 ++ "(" ++ g2 ++ w3 ++ "ft)")%string).
  assert (Htext : (text ++ post)%string = (g1 ++ r1)%string)
    by (subst text r1 r2 r3 r4; repeat rewrite append_assoc;
        reflexivity).
  assert (H1 : numeral (text ++ post) = Some (g1, r1)).
  { rewrite Htext. apply numeral_complete; [assumption |].
    apply space_then_stops_numeral; [assumption | reflexivity]. }
  assert (H2 : literal "m" (spaces r1) = Some r2).
  { subst r1. rewrite spaces_complete by (try assumption; reflexivity).
    apply literal_complete. }
  assert (H3 : literal "(" (spaces r2) = Some r3).
  { subst r2. rewrite spaces_complete by (try assumption; reflexivity).
    apply literal_complete. }
  assert (H4 : numeral r3 = Some (g2, r4)).
  { subst r3. apply numeral_complete; [assumption |].
    apply space_then_stops_numeral; [assumption | reflexivity]. }
  assert (H5 : literal "ft)" (spaces r4) = Some post).
  { subst r4. rewrite spaces_complete by (try assumption; reflexivity).
    apply literal_complete. }
  unfold match_here. rewrite H1, H2, H3, H4, H5.
  rewrite length_append, Nat.add_sub, substring_prefix.
  reflexivity.
Qed.

(** [FindStringSubmatch] finds a match exactly when the pattern occurs,
    and what it returns is an occurrence with its captures. *)
Lemma FindStringSubmatch_sound (s : string) :
  FindStringSubmatch s = []
  \/ exists pre m g1 g2 post,
       FindStringSubmatch s = [m; g1; g2]
       /\ s = pre ++ m ++ post /\ pattern_text m g1 g2.
Proof.
  induction s as [| c s IH].
  - simpl. left. reflexivity.
  - cbn [FindStringSubmatch].
    destruct (match_here (String c s)) as [[[m g1] g2] |] eqn:E.
    + right. destruct (match_here_sound _ _ _ _ E) as [post [Hs Hp]].
      exists "", m, g1, g2, post. auto.
    + destruct IH as [IH | [pre [m [g1 [g2 [post [Hf [Hs Hp]]]]]]]].
      * left. exact IH.
      * right. exists (String c pre), m, g1, g2, post.
        rewrite Hf, Hs. auto.
Qed.

Lemma FindStringSubmatch_here (s m g1 g2 : string) :
  match_here s = Some (m, g1, g2) -> FindStringSubmatch s = [m; g1; g2].
Proof. intros H. destruct s; cbn [FindStringSubmatch]; rewrite H; reflexivity. Qed.

Lemma FindStringSubmatch_complete (s : string) :
  occurs s -> exists m g1 g2, FindStringSubmatch s = [m; g1; g2].
Proof.
  intros [pre [m [g1 [g2 [post [-> Hp]]]]]].
  induction pre as [| c pre IH].
  - simpl append.
    rewrite (FindStringSubmatch_here _ m g1 g2)
      by (apply match_here_complete; exact Hp).
    eauto.
  - simpl append. cbn [FindStringSubmatch].
    destruct (match_here (String c (pre ++ m ++ post)))
      as [[[m' g1'] g2'] |]; eauto.
Qed.

(** *** Decimal numerals *)

(** A decimal numeral: an optional sign, digits, and possibly a point
    and digits, with one digit at least. *)
Definition decimal_text (g : string) : Prop :=
  exists sign int frac,
    (sign = "" \/ sign = "-" \/ sign = "+")
    /\ all_in Strconv.is_digit int = true
    /\ all_in Strconv.is_digit frac = true
    /\ (int ++ frac)%string <> ""
    /\ (g = sign ++ int \/ g = sign ++ int ++ "." ++ frac).

Lemma read_decimal_after_point (s : string) :
  forall mant nd frac r,
    Strconv.read_decimal s mant nd true frac = Some r ->
    all_in Strconv.is_digit s = true
    /\ snd (fst r) = (nd + String.length s)%nat.
Proof.
  induction s as [| c s IH]; simpl; intros mant nd frac r H.
  - injection H as <-. simpl. split; [reflexivity | lia].
  - destruct (Ascii.eqb c "."); [discriminate |].
    destruct (Strconv.is_digit c); [| discriminate].
    destruct (IH _ _ _ _ H) as [Ha Hn]. simpl. split; [exact Ha | lia].
Qed.

Lemma read_decimal_text (s : string) :
  forall mant nd frac r,
    Strconv.read_decimal s mant nd false frac = Some r ->
    exists int fr,
      all_in Strconv.is_digit int = true
      /\ all_in Strconv.is_digit fr = true
      /\ (s = int \/ s = int ++ "." ++ fr)
      /\ snd (fst r) = (nd + String.length (int ++ fr))%nat.
Proof.
  induction s as [| c s IH]; simpl; intros mant nd frac r H.
  - injection H as <-. exists "", "". simpl. repeat split; auto.
  - destruct (Ascii.eqb c ".") eqn:Ec.
    + apply Ascii.eqb_eq in Ec. subst c.
      destruct (read_decimal_after_point _ _ _ _ _ H) as [Ha Hn].
      exists "", s. simpl. repeat split; auto.
    + destruct (Strconv.is_digit c) eqn:Ed; [| discriminate].
      destruct (IH _ _ _ _ H) as [int [fr [Hi [Hf [Hs Hn]]]]].
      exists (String c int), fr. simpl. rewrite Ed, Hi.
      repeat split; auto.
      * destruct Hs as [-> | ->]; [left | right]; reflexivity.
      * rewrite Hn. lia.
Qed.

(** [ParseFloat] reads decimal numerals only. *)
Lemma ParseFloat_decimal (g : string) (v : Q) :
  Strconv.ParseFloat g = Ok v -> decimal_text g.
Proof.
  assert (Hbody : forall body,
             match Strconv.read_decimal body 0 0 false 0 with
             | None => false
             | Some (_, O, _) => false
             | Some _ => true
             end = true ->
             exists int fr,
               all_in Strconv.is_digit int = true
               /\ all_in Strconv.is_digit fr = true
               /\ (int ++ fr)%string <> ""
               /\ (body = int \/ body = int ++ "." ++ fr)).
  { intros body H.
    destruct (Strconv.read_decimal body 0 0 false 0) as [[[m n] f] |] eqn:E;
      [| discriminate].
    destruct (read_decimal_text _ _ _ _ _ E) as [int [fr [Hi [Hf [Hs Hn]]]]].
    exists int, fr. repeat split; auto.
    intros Hempty. rewrite Hempty in Hn. simpl in Hn. subst n.
    discriminate. }
  assert (Hsign : forall sign body,
             (sign = "" \/ sign = "-" \/ sign = "+") ->
             g = (sign ++ body)%string ->
             match Strconv.read_decimal body 0 0 false 0 with
             | None => false
             | Some (_, O, _) => false
             | Some _ => true
             end = true ->
             decimal_text g).
  { intros sign body Hsg -> H.
    destruct (Hbody body H) as [int [fr [Hi [Hf [Hne Hs]]]]].
    exists sign, int, fr. repeat split; auto.
    destruct Hs as [-> | ->]; [left | right]; reflexivity. }
  unfold Strconv.ParseFloat.
  destruct g as [| c g'].
  - simpl. discriminate.
  - intros H.
    assert (Hcases :
              (c = "-"%char /\ decimal_text (String c g'))
              \/ (c = "+"%char /\ decimal_text (String c g'))
              \/ (c <> "-"%char /\ c <> "+"%char)).
    { destruct (Ascii.eqb c "-") eqn:E1.
      - apply Ascii.eqb_eq in E1. subst c. left. split; [reflexivity |].
        apply (Hsign "-" g'); [auto | reflexivity |].
        destruct (Strconv.read_decimal g' 0 0 false 0) as [[[m [| n]] f] |];
          try discriminate H; reflexivity.
      - destruct (Ascii.eqb c "+") eqn:E2.
        + apply Ascii.eqb_eq in E2. subst c. right. left.
          split; [reflexivity |].
          apply (Hsign "+" g'); [auto | reflexivity |].
          destruct (Strconv.read_decimal g' 0 0 false 0)
            as [[[m [| n]] f] |]; try discriminate H; reflexivity.
        + right. right.
          split; apply Ascii.eqb_neq; assumption. }
    destruct Hcases as [[_ Hd] | [[_ Hd] | [Hm Hp]]]; try exact Hd.
    apply (Hsign "" (String c g')); [auto | reflexivity |].
    assert (H' : match Strconv.read_decimal (String c g') 0 0 false 0 with
                 | None => Err (Strconv.syntaxError "ParseFloat" (String c g'))
                 | Some (_, O, _) =>
                     Err (Strconv.syntaxError "ParseFloat" (String c g'))
                 | Some (mant, _, frac) =>
                     let v := Qmake mant (Z.to_pos (10 ^ Z.of_nat frac)) in
                     if Qle_bool Strconv.float64_overflow (Qabs v)
                     then Err (Strconv.rangeError "ParseFloat" (String c g'))
                     else Ok v
                 end = Ok v).
    { destruct c as [[] [] [] [] [] [] [] []];
        try exact H; congruence. }
    destruct (Strconv.read_decimal (String c g') 0 0 false 0)
      as [[[m [| n]] f] |]; try discriminate H'; reflexivity.
Qed.

(** *** [parseHeight] *)

Example parseHeight_bogus :
  parseHeight "bogus" = Err "could not parse height: bogus".
Proof. reflexivity. Qed.

Example parseHeight_two_points :
  HeightRe.FindStringSubmatch "1.2.3 m (3 ft)" = ["1.2.3 m (3 ft)"; "1.2.3"; "3"]
  /\ is_ok (parseHeight "1.2.3 m (3 ft)") = false.
Proof. split; reflexivity. Qed.

(** C9.  [parseHeight] reads "1.1 m (3.6 ft)" as (1.1, 3.6) and
    "-0.1 m (-0.3 ft)" as (-0.1, -0.3); it fails on every input in which
    the pattern "<meters> m (<feet> ft)" does not occur, and on every
    input in which one of the two numerals matched is not a decimal
    numeral. *)
Theorem parseHeight_two_part_pattern :
  parseHeight "1.1 m (3.6 ft)" = Ok (1.1, 3.6)%Q
  /\ parseHeight "-0.1 m (-0.3 ft)" = Ok (-0.1, -0.3)%Q
  /\ (forall s, ~ occurs s -> exists e, parseHeight s = Err e)
  /\ (forall s m g1 g2,
         FindStringSubmatch s = [m; g1; g2] ->
         ~ (decimal_text g1 /\ decimal_text g2) ->
         exists e, parseHeight s = Err e).
Proof.
  split; [reflexivity |]. split; [reflexivity |]. split.
  - intros s Hno. unfold parseHeight.
    destruct (FindStringSubmatch_sound s)
      as [-> | [pre [m [g1 [g2 [post [_ [Hs Hp]]]]]]]].
    + simpl. eauto.
    + exfalso. apply Hno. exists pre, m, g1, g2, post. auto.
  - intros s m g1 g2 Hf Hbad. unfold parseHeight. rewrite Hf. simpl.
    destruct (Strconv.ParseFloat g1) as [v1 |] eqn:E1; simpl; [| eauto].
    destruct (Strconv.ParseFloat g2) as [v2 |] eqn:E2; simpl; [| eauto].
    exfalso. apply Hbad. split; eapply ParseFloat_decimal; eassumption.
Qed.

End HeightFacts.

(** ** Clock times *)

Module ClockFacts.
Import GoTime Fetcher.

(** No colon in [s]. *)
Fixpoint no_colon (s : string) : bool :=
  match s with
  | EmptyString => true
  | String c s' => negb (Ascii.eqb c ":") && no_colon s'
  end.

Lemma split_colon_cons (s : string) :
  exists p ps, Strings.split_colon s = p :: ps.
Proof.
  induction s as [| c s [p [ps IH]]]; simpl.
  - eauto.
  - destruct (Ascii.eqb c ":"); [eauto |]. rewrite IH. eauto.
Qed.

Lemma split_colon_one (s p : string) :
  Strings.split_colon s = [p] <-> s = p /\ no_colon s = true.
Proof.
  revert p. induction s as [| c s IH]; simpl; intros p.
  - split.
    + intros H. injection H as <-. auto.
    + intros [<- _]. reflexivity.
  - destruct (Ascii.eqb c ":") eqn:E; simpl.
    + split.
      * intros H. injection H as _ H.
        destruct (split_colon_cons s) as [q [qs Hq]]. congruence.
      * intros [_ H]. discriminate.
    + destruct (split_colon_cons s) as [q [qs Hq]]. rewrite Hq. split.
      * intros H. injection H as <- ->.
        apply IH in Hq. destruct Hq as [-> Hn]. auto.
      * intros [<- Hn]. assert (Hs : Strings.split_colon s = [s])
          by (apply IH; auto).
        congruence.
Qed.

(** The split yields two parts exactly on two colon-free parts with one
    colon between them. *)
Lemma split_colon_two (s a b : string) :
  Strings.split_colon s = [a; b]
  <-> s = (a ++ ":" ++ b)%string /\ no_colon a = true /\ no_colon b = true.
Proof.
  revert a. induction s as [| c s IH]; simpl; intros a.
  - split; [discriminate |]. intros [H _]. destruct a; discriminate.
  - destruct (Ascii.eqb c ":") eqn:E.
    + apply Ascii.eqb_eq in E. subst c. split.
      * intros H. injection H as <- H.
        apply split_colon_one in H. destruct H as [-> Hn]. auto.
      * intros [H [Ha Hb]]. destruct a as [| x a].
        -- simpl in H. injection H as ->.
           assert (Hs : Strings.split_colon b = [b])
             by (apply split_colon_one; auto).
           rewrite Hs. reflexivity.
        -- simpl in H. injection H as <- _. simpl in Ha. discriminate.
    + destruct (split_colon_cons s) as [q [qs Hq]]. rewrite Hq. split.
      * intros H. injection H as <- ->.
        apply IH in Hq. destruct Hq as [-> [Ha Hb]].
        simpl. rewrite E. auto.
      * intros [H [Ha Hb]]. destruct a as [| x a].
        -- simpl in H. injection H as -> _. discriminate.
        -- simpl in H. injection H as <- ->.
           simpl in Ha. apply andb_true_iff in Ha. destruct Ha as [_ Ha].
           assert (Hs : Strings.split_colon (a ++ ":" ++ b) = [a; b])
             by (apply IH; auto).
           simpl in Hs. congruence.
Qed.

(** The cells of a row are trimmed of white space, ASCII or not, before
    they are read; bytes that are no white space rune stay. *)
Definition nbsp : string :=
  String (ascii_of_nat 194) (String (ascii_of_nat 160) EmptyString).
Definition emspace : string :=
  String (ascii_of_nat 226) (String (ascii_of_nat 128)
    (String (ascii_of_nat 131) EmptyString)).

Example TrimSpace_cells :
  map Strings.TrimSpace
      ["  09:47 "; nbsp ++ "09:47" ++ nbsp ++ " "; emspace ++ "High" ++ " Tide";
       "09" ++ nbsp ++ ":47"; String (ascii_of_nat 160) "x"; nbsp ++ emspace]
  = ["09:47"; "09:47"; "High Tide"; "09" ++ nbsp ++ ":47";
     String (ascii_of_nat 160) "x"; ""].
Proof. vm_compute. reflexivity. Qed.

(** A clock text: two parts that [strconv.Atoi] reads, with one colon
    between them. *)
Definition clock_text (s : string) (hour minute : Z) : Prop :=
  exists a b,
    s = (a ++ ":" ++ b)%string /\ no_colon a = true /\ no_colon b = true
    /\ Strconv.Atoi a = Ok hour /\ Strconv.Atoi b = Ok minute.

(** Clock fields beyond their range carry over.  On instants without
    bound: the instant is that of midnight plus the hours and the
    minutes. *)
Lemma Date_carries (y m d hour minute : Z) (loc : GoTime.Location) :
  unixNano (GoTime.Date y m d hour minute 0 0 loc)
  = unixNano (GoTime.Date y m d 0 0 0 0 loc) + hour * Hour + minute * Minute.
Proof.
  unfold GoTime.Date, Hour, Minute, Second. simpl unixNano. lia.
Qed.

(** Both variants of [parseTimeWIB] by the parts of the split. *)
Lemma parseTimeWIB_parts (date : Time) (s : string) :
  parseTimeWIB date s
  = match Strings.split_colon s with
    | [a; b] =>
        match Strconv.Atoi a, Strconv.Atoi b with
        | Ok hour, Ok minute =>
            Ok (GoTime.Date (Year date) (Month date) (Day date)
                            hour minute 0 0 wibTimezone)
        | Err e, _ => Err e
        | Ok _, Err e => Err e
        end
    | _ => Err ("invalid time format: " ++ s)
    end
  /\ FetcherUTC.parseTimeWIB date s
     = match parseTimeWIB date s with
       | Ok t => Ok (toUTC t)
       | Err e => Err e
       end.
Proof.
  unfold parseTimeWIB, FetcherUTC.parseTimeWIB.
  destruct (Strings.split_colon s) as [| a [| b [| c parts]]]; simpl;
    try (split; reflexivity).
  destruct (Strconv.Atoi a); simpl; [| split; reflexivity].
  destruct (Strconv.Atoi b); simpl; split; reflexivity.
Qed.

Example clock_25_99 :
  parseTimeWIB (GoTime.Date 2025 12 4 0 0 0 0 wibTimezone) "25:99"
  = Ok (GoTime.Date 2025 12 5 2 39 0 0 wibTimezone).
Proof. vm_compute. reflexivity. Qed.

Example clock_negative :
  parseTimeWIB (GoTime.Date 2025 12 4 0 0 0 0 wibTimezone) "-1:-30"
  = Ok (GoTime.Date 2025 12 3 22 30 0 0 wibTimezone).
Proof. vm_compute. reflexivity. Qed.

Example clock_utc_25_99 :
  FetcherUTC.parseTimeWIB (GoTime.Date 2025 12 4 0 0 0 0 wibTimezone) "25:99"
  = Ok (GoTime.Date 2025 12 4 19 39 0 0 UTC).
Proof. vm_compute. reflexivity. Qed.

Example clock_shapes :
  map (fun s => is_ok (parseTimeWIB zeroTime s))
      ["03:12"; "3-12"; "03:12:00"; "03:12 PM"; ":"; "+7:5"; "0x10:00"]
  = [true; false; false; false; false; true; false].
Proof. vm_compute. reflexivity. Qed.

(** C10.  [parseTimeWIB], in both variants of the fetcher, succeeds on
    every clock text, whatever the values of its two parts; the variant
    that stores UTC returns the same instant, shown in UTC.  Values
    beyond the range of a clock are not rejected but carried over to
    other days: wherever midnight of the date, in WIB, plus the hours
    and the minutes is an instant a [time.Time] holds, that is the time
    returned ("25:99" is the next day at 02:39, "-1:-30" the day before
    at 22:30).  It fails on every other input. *)
Theorem parseTimeWIB_no_range_validation (date : Time) (s : string) :
  (forall hour minute,
      clock_text s hour minute ->
      let midnight := GoTime.Date (Year date) (Month date) (Day date)
                                  0 0 0 0 wibTimezone in
      exists t,
        parseTimeWIB date s = Ok t
        /\ FetcherUTC.parseTimeWIB date s = Ok (toUTC t)
        /\ location t = wibTimezone
        /\ (representable (Add midnight (hour * Hour + minute * Minute))
            = true ->
            unixNano t
            = unixNano midnight + hour * Hour + minute * Minute))
  /\ ((~ exists hour minute, clock_text s hour minute) ->
      is_ok (parseTimeWIB date s) = false
      /\ is_ok (FetcherUTC.parseTimeWIB date s) = false)
  /\ (clock_text "25:99" 25 99
      /\ parseTimeWIB (GoTime.Date 2025 12 4 0 0 0 0 wibTimezone) "25:99"
         = Ok (GoTime.Date 2025 12 5 2 39 0 0 wibTimezone)
      /\ representable (GoTime.Date 2025 12 5 2 39 0 0 wibTimezone) = true)
  /\ (clock_text "-1:-30" (-1) (-30)
      /\ parseTimeWIB (GoTime.Date 2025 12 4 0 0 0 0 wibTimezone) "-1:-30"
         = Ok (GoTime.Date 2025 12 3 22 30 0 0 wibTimezone)
      /\ representable (GoTime.Date 2025 12 3 22 30 0 0 wibTimezone) = true).
Proof.
  destruct (parseTimeWIB_parts date s) as [Hwib Hutc].
  split; [| split; [| split]].
  - intros hour minute [a [b [Hs [Ha [Hb [Hh Hm]]]]]] midnight.
    assert (Hsplit : Strings.split_colon s = [a; b])
      by (apply split_colon_two; auto).
    rewrite Hsplit, Hh, Hm in Hwib. rewrite Hwib in Hutc.
    eexists. split; [exact Hwib |]. split; [exact Hutc |].
    split; [reflexivity |].
    intros _. apply Date_carries.
  - intros Hno. rewrite Hutc.
    assert (Herr : is_ok (parseTimeWIB date s) = false).
    { rewrite Hwib.
      destruct (Strings.split_colon s) as [| a [| b [| c parts]]] eqn:E;
        try reflexivity.
      destruct (Strconv.Atoi a) as [hour |] eqn:Ea; [| reflexivity].
      destruct (Strconv.Atoi b) as [minute |] eqn:Eb; [| reflexivity].
      exfalso. apply Hno. exists hour, minute, a, b.
      apply split_colon_two in E. tauto. }
    split; [exact Herr |].
    destruct (parseTimeWIB date s); [discriminate | reflexivity].
  - split; [| split].
    + exists "25", "99". repeat split; reflexivity.
    + vm_compute. reflexivity.
    + vm_compute. reflexivity.
  - split; [| split].
    + exists "-1", "-30". repeat split; reflexivity.
    + vm_compute. reflexivity.
    + vm_compute. reflexivity.
Qed.

End ClockFacts.

(** ** The calendar *)

Module TimeFacts.
Import GoTime.

Lemma Time_eq (a b : Time) :
  unixNano a = unixNano b -> location a = location b -> a = b.
Proof. destruct a, b; simpl; intros -> ->; reflexivity. Qed.

(** The day number of a civil date read off a day number is that day
    number, and the month read off is a month. *)
Lemma civil_roundtrip (z : Z) :
  days_from_civil (fst (fst (civil_from_days z)))
                  (snd (fst (civil_from_days z)))
                  (snd (civil_from_days z)) = z
  /\ 1 <= snd (fst (civil_from_days z)) <= 12.
Proof.
  unfold civil_from_days, days_from_civil. cbn [fst snd].
  set (z' := z + 719468).
  set (era := z' / 146097).
  set (doe := z' - era * 146097).
  assert (Hdoe : 0 <= doe < 146097)
    by (subst doe era; Z.div_mod_to_equations; lia).
  set (yoe := (doe - doe / 1460 + doe / 36524 - doe / 146096) / 365).
  assert (Hyoe : 0 <= yoe <= 399) by (subst yoe; Z.div_mod_to_equations; lia).
  set (doy := doe - (365 * yoe + yoe / 4 - yoe / 100)).
  assert (Hdoy : 0 <= doy <= 365)
    by (subst doy yoe; Z.div_mod_to_equations; lia).
  set (mp := (5 * doy + 2) / 153).
  assert (Hmp : 0 <= mp <= 11) by (subst mp; Z.div_mod_to_equations; lia).
  destruct (mp <? 10) eqn:E.
  - apply Z.ltb_lt in E.
    replace (mp + 3 <=? 2) with false by (symmetry; apply Z.leb_gt; lia).
    replace (2 <? mp + 3) with true by (symmetry; apply Z.ltb_lt; lia).
    replace (mp + 3 - 3) with mp by lia.
    replace ((yoe + era * 400) / 400) with era
      by (Z.div_mod_to_equations; lia).
    replace (yoe + era * 400 - era * 400) with yoe by lia.
    split; [subst doy doe z'; lia | lia].
  - apply Z.ltb_ge in E.
    replace (mp - 9 <=? 2) with true by (symmetry; apply Z.leb_le; lia).
    replace (2 <? mp - 9) with false by (symmetry; apply Z.ltb_ge; lia).
    replace (mp - 9 + 9) with mp by lia.
    replace (yoe + era * 400 + 1 - 1) with (yoe + era * 400) by lia.
    replace ((yoe + era * 400) / 400) with era
      by (Z.div_mod_to_equations; lia).
    replace (yoe + era * 400 - era * 400) with yoe by lia.
    split; [subst doy doe z'; lia | lia].
Qed.

(** [time.Date] on the civil date of [t], some days later. *)
Lemma Date_of_day (t : Time) (d hour minute sec nsec : Z)
      (loc : GoTime.Location) :
  unixNano (GoTime.Date (Year t) (Month t) (Day t + d) hour minute sec nsec loc)
  = ((localDay t + d) * secondsPerDay + hour * 3600 + minute * 60 + sec
     - zoneOffset loc) * Second + nsec.
Proof.
  unfold GoTime.Date, Year, Month, Day. cbn [unixNano].
  destruct (civil_roundtrip (localDay t)) as [Hr Hm].
  set (c := civil_from_days (localDay t)) in *. clearbody c.
  set (y := fst (fst c)) in *. set (m := snd (fst c)) in *.
  set (dd := snd c) in *. clearbody y m dd.
  replace ((m - 1) / 12) with 0 by (clear Hr; Z.div_mod_to_equations; lia).
  replace ((m - 1) mod 12 + 1) with m
    by (clear Hr; Z.div_mod_to_equations; lia).
  rewrite Z.add_0_r.
  assert (Hlin : days_from_civil y m (dd + d) = days_from_civil y m dd + d)
    by (unfold days_from_civil; lia).
  rewrite Hlin, Hr. reflexivity.
Qed.

End TimeFacts.

(** ** The schedule *)

Module ScheduleFacts.
Import GoTime Fetcher TimeFacts.

(** The hour of the next run on the clock of the day of [clock]; 24 is
    midnight of the next day. *)
Definition nextHourOf (clock : Time) : Z :=
  (Hour_ (In clock wibTimezone) / 2 + 1) * 2.

(** The next run in closed form. *)
Lemma next_closed (clock : Time) :
  calculateNext2HourMark clock
  = mkTime ((localDay (In clock wibTimezone) * secondsPerDay
             + nextHourOf clock * 3600 - 25200) * Second) wibTimezone.
Proof.
  unfold calculateNext2HourMark. fold (nextHourOf clock).
  set (now := In clock wibTimezone).
  assert (Hh : 0 <= Hour_ now <= 23)
    by (unfold Hour_, secondsPerDay; Z.div_mod_to_equations; lia).
  assert (Hn : 2 <= nextHourOf clock <= 24)
    by (unfold nextHourOf; fold now; Z.div_mod_to_equations; lia).
  set (nextRun := GoTime.Date (Year now) (Month now) (Day now)
                              (nextHourOf clock mod 24) 0 0 0 wibTimezone).
  assert (Hrun : unixNano nextRun
                 = (localDay now * secondsPerDay
                    + (nextHourOf clock mod 24) * 3600 - 25200) * Second).
  { subst nextRun.
    pose proof (Date_of_day now 0 (nextHourOf clock mod 24) 0 0 0
                            wibTimezone) as H.
    rewrite Z.add_0_r in H. rewrite H. cbn [zoneOffset wibTimezone]. lia. }
  assert (Hloc : location nextRun = wibTimezone) by reflexivity.
  destruct (24 <=? nextHourOf clock) eqn:E.
  - apply Z.leb_le in E. assert (Hnext : nextHourOf clock = 24) by lia.
    unfold AddDate.
    assert (Hls : localSeconds nextRun = localDay now * secondsPerDay).
    { unfold localSeconds. rewrite Hrun, Hloc, Hnext.
      cbn [zoneOffset wibTimezone].
      unfold Second, secondsPerDay. Z.div_mod_to_equations. lia. }
    assert (Hday : localDay nextRun = localDay now).
    { unfold localDay at 1. rewrite Hls. unfold secondsPerDay.
      Z.div_mod_to_equations. lia. }
    assert (Hhour : Hour_ nextRun = 0).
    { unfold Hour_. rewrite Hls. unfold secondsPerDay.
      Z.div_mod_to_equations. lia. }
    assert (Hmin : Minute_ nextRun = 0).
    { unfold Minute_. rewrite Hls. unfold secondsPerDay.
      Z.div_mod_to_equations. lia. }
    assert (Hsec : Second_ nextRun = 0).
    { unfold Second_. rewrite Hls. unfold secondsPerDay.
      Z.div_mod_to_equations. lia. }
    assert (Hns : Nanosecond_ nextRun = 0).
    { unfold Nanosecond_. rewrite Hrun. unfold Second.
      Z.div_mod_to_equations. lia. }
    rewrite Hhour, Hmin, Hsec, Hns, Hloc.
    apply Time_eq; [| reflexivity].
    pose proof (Date_of_day nextRun 1 0 0 0 0 wibTimezone) as H.
    replace (Month nextRun + 0) with (Month nextRun) by lia.
    replace (Year nextRun + 0) with (Year nextRun) by lia.
    rewrite H, Hday, Hnext. simpl. unfold secondsPerDay, Second. lia.
  - apply Z.leb_gt in E.
    apply Time_eq; [| reflexivity].
    rewrite Hrun. cbn [unixNano].
    replace (nextHourOf clock mod 24) with (nextHourOf clock)
      by (Z.div_mod_to_equations; lia).
    reflexivity.
Qed.

(** An even-hour mark on the clock of the time's location: an even
    hour with minutes, seconds and nanoseconds zero. *)
Definition evenHourMark (t : Time) : Prop :=
  Z.even (Hour_ t) = true
  /\ Minute_ t = 0 /\ Second_ t = 0 /\ Nanosecond_ t = 0.

(** The instant at which the hour that [t] is in began. *)
Definition startOfHour (t : Time) : Z :=
  (localSeconds t - localSeconds t mod 3600 - zoneOffset (location t))
  * Second.

Example next_at_01_15 :
  calculateNext2HourMark (GoTime.Date 2025 12 4 1 15 0 0 wibTimezone)
  = GoTime.Date 2025 12 4 2 0 0 0 wibTimezone.
Proof. vm_compute. reflexivity. Qed.

Example next_at_23_10 :
  calculateNext2HourMark (GoTime.Date 2025 12 31 23 10 0 0 wibTimezone)
  = GoTime.Date 2026 1 1 0 0 0 0 wibTimezone.
Proof. vm_compute. reflexivity. Qed.

(** The clock is read in WIB whatever location [time.Now()] carries:
    16:10 UTC is 23:10 WIB. *)
Example next_at_16_10_utc :
  calculateNext2HourMark (GoTime.Date 2025 12 31 16 10 0 0 UTC)
  = GoTime.Date 2026 1 1 0 0 0 0 wibTimezone.
Proof. vm_compute. reflexivity. Qed.

(** C8.  Whatever the current time, the next run is an even-hour mark of
    the WIB clock, later than the current time and the earliest such
    mark later than the hour the clock is in; it is on the same day at
    the next even hour while that is below 24, and at 00:00 of the next
    day otherwise.  At 01:15 it is 02:00 of the same day, at 23:10 it is
    00:00 of the next day. *)
Theorem next_2_hour_mark (clock : Time) :
  let now := In clock wibTimezone in
  let next := calculateNext2HourMark clock in
  location next = wibTimezone
  /\ evenHourMark next
  /\ unixNano clock < unixNano next <= unixNano clock + 2 * Hour
  /\ startOfHour now < unixNano next
  /\ (forall t, location t = wibTimezone -> evenHourMark t ->
                startOfHour now < unixNano t ->
                unixNano next <= unixNano t)
  /\ (Hour_ now < 22 ->
      localDay next = localDay now
      /\ Hour_ next = 2 * (Hour_ now / 2) + 2)
  /\ (22 <= Hour_ now ->
      localDay next = localDay now + 1 /\ Hour_ next = 0)
  /\ calculateNext2HourMark (GoTime.Date 2025 12 4 1 15 0 0 wibTimezone)
     = GoTime.Date 2025 12 4 2 0 0 0 wibTimezone
  /\ calculateNext2HourMark (GoTime.Date 2025 12 31 23 10 0 0 wibTimezone)
     = GoTime.Date 2026 1 1 0 0 0 0 wibTimezone.
Proof.
  intros now next. subst next. rewrite next_closed.
  unfold nextHourOf. fold now.
  assert (Hloc : location now = wibTimezone) by reflexivity.
  assert (Hunix : unixNano now = unixNano clock) by reflexivity.
  unfold evenHourMark, startOfHour, Hour_, Minute_, Second_, Nanosecond_,
    localDay, localSeconds.
  cbn [unixNano location]. rewrite Hloc, Hunix.
  cbn [zoneOffset wibTimezone].
  unfold Hour, Minute, Second, secondsPerDay.
  set (u := unixNano clock). clearbody u. clear now Hloc Hunix.
  assert (Heven : forall x, Z.even x = true <-> x mod 2 = 0).
  { intros x. rewrite Zeven_mod. apply Z.eqb_eq. }
  repeat split.
  - apply Heven. Z.div_mod_to_equations. lia.
  - Z.div_mod_to_equations. lia.
  - Z.div_mod_to_equations. lia.
  - Z.div_mod_to_equations. lia.
  - Z.div_mod_to_equations. lia.
  - Z.div_mod_to_equations. lia.
  - Z.div_mod_to_equations. lia.
  - intros [ut lt] Hl [He [Hm [Hs Hn]]] Hlater.
    cbn [unixNano location] in *. subst lt.
    cbn [zoneOffset wibTimezone] in *.
    apply Heven in He. Z.div_mod_to_equations. lia.
  - Z.div_mod_to_equations. lia.
  - Z.div_mod_to_equations. lia.
  - Z.div_mod_to_equations. lia.
  - Z.div_mod_to_equations. lia.
Qed.

End ScheduleFacts.

(** * Further properties *)

(** ** Verdicts of the risk assessment *)

Module VerdictFacts.
Import GoTime Models Store Controllers StoreFacts RiskFacts.

Section Verdict.
Variable ToLower : string -> string.
Variable FormatTimeWithTimezone : Time -> string -> Time.

Let assess := calculateTidalFloodRisk ToLower FormatTimeWithTimezone.

(** The first row of an answer is selected by the query. *)
Lemma answers_first (tbl : Table) (q : TideQuery) (peak : TideData)
      (rest : list TideData) :
  answers tbl q (peak :: rest) ->
  List.In peak tbl /\ selects q peak = true.
Proof.
  intros [Hperm _].
  assert (H : List.In peak (filter (selects q) tbl))
    by (apply (Permutation_in _ Hperm); left; reflexivity).
  apply filter_In in H. exact H.
Qed.

Lemma verdict_HeavyRain alert tz now (h : TideQuery -> QueryResult) :
  HeavyRain (runDb h (assess alert tz now)) = heavyRain ToLower alert.
Proof.
  unfold assess, calculateTidalFloodRisk, heavyRain.
  destruct (Strings.Contains (ToLower (Description alert)) "heavy rain");
    simpl; [| reflexivity].
  destruct (h _) as [[| peak rest] | e]; simpl; try reflexivity.
  destruct (After (Models.TideTime peak) (Expires alert)); reflexivity.
Qed.

(** X1.  Whatever the store does, the level of a verdict is one of
    "none", "unknown", "moderate" and "high"; [HasRisk] is set exactly
    on the levels "moderate" and "high"; [HeavyRain] tells whether the
    description holds the signal, so that no risk is reported without
    it. *)
Theorem verdict_fields_agree alert tz now (h : TideQuery -> QueryResult) :
  let r := runDb h (assess alert tz now) in
  (RiskLevel r = "none" \/ RiskLevel r = "unknown"
   \/ RiskLevel r = "moderate" \/ RiskLevel r = "high")
  /\ (HasRisk r = true
      <-> RiskLevel r = "moderate" \/ RiskLevel r = "high")
  /\ HeavyRain r = heavyRain ToLower alert
  /\ (HasRisk r = true -> HeavyRain r = true).
Proof.
  intros r. subst r. unfold assess, calculateTidalFloodRisk, heavyRain.
  destruct (Strings.Contains (ToLower (Description alert)) "heavy rain");
    simpl.
  - destruct (h _) as [[| peak rest] | e]; simpl.
    + repeat split; auto; try discriminate.
      intros [H | H]; discriminate.
    + destruct (After (Models.TideTime peak) (Expires alert)); simpl;
        repeat split; auto.
    + repeat split; auto; try discriminate.
      intros [H | H]; discriminate.
  - repeat split; auto; try discriminate.
    intros [H | H]; discriminate.
Qed.

(** X2.  Heavy rain alone is no risk: on a store that answers and holds
    no qualifying observation, the verdict of an alert with the signal
    has level "none", [HasRisk] unset and [HeavyRain] set. *)
Theorem heavy_rain_without_high_tide alert tz now (tbl : Table) h :
  heavyRain ToLower alert = true ->
  serves tbl h ->
  (forall t, List.In t tbl -> qualifies alert t = false) ->
  let r := runDb h (assess alert tz now) in
  RiskLevel r = "none" /\ HasRisk r = false /\ HeavyRain r = true.
Proof.
  intros Hrain Hserves Hnone r.
  destruct (assess_heavy_rain ToLower FormatTimeWithTimezone
                              alert tz now h Hrain) as [_ Hrun].
  specialize (Hrun r eq_refl).
  destruct (Hserves (riskQuery alert)) as [rows [Hh Hans]].
  rewrite Hh in Hrun. destruct rows as [| peak rest].
  - destruct Hrun as [Hl Hr]. repeat split; try assumption.
    subst r. rewrite verdict_HeavyRain. exact Hrain.
  - exfalso. destruct (answers_first _ _ _ _ Hans) as [Hin Hsel].
    rewrite selects_riskQuery, (Hnone _ Hin) in Hsel. discriminate.
Qed.

(** X3.  On a store that answers, a verdict with [HasRisk] set cites a
    high tide above 2.6 m whose time lies between [alert.Effective] and
    [alert.Expires] plus two hours; its level is "high" exactly when
    that time is not after [alert.Expires], and "moderate" exactly when
    it is. *)
Theorem risk_cites_tide_in_window alert tz now (tbl : Table) h :
  serves tbl h ->
  HasRisk (runDb h (assess alert tz now)) = true ->
  let r := runDb h (assess alert tz now) in
  TideType r = "high"
  /\ (2.6 < TideHeightM r)%Q
  /\ unixNano (Effective alert) <= unixNano (Controllers.TideTime r)
     <= unixNano (Expires alert) + 2 * Hour
  /\ (RiskLevel r = "high"
      <-> unixNano (Controllers.TideTime r) <= unixNano (Expires alert))
  /\ (RiskLevel r = "moderate"
      <-> unixNano (Expires alert) < unixNano (Controllers.TideTime r)).
Proof.
  intros Hserves Hrisk r.
  assert (Hrain : heavyRain ToLower alert = true).
  { rewrite <- (verdict_HeavyRain alert tz now h).
    unfold assess, calculateTidalFloodRisk in *.
    destruct (Strings.Contains (ToLower (Description alert)) "heavy rain");
      simpl in *; [| discriminate].
    destruct (h _) as [[| peak rest] | e]; simpl in *; try discriminate.
    destruct (After (Models.TideTime peak) (Expires alert)); reflexivity. }
  destruct (assess_heavy_rain ToLower FormatTimeWithTimezone
                              alert tz now h Hrain) as [_ Hrun].
  specialize (Hrun r eq_refl).
  destruct (Hserves (riskQuery alert)) as [rows [Hh Hans]].
  rewrite Hh in Hrun. destruct rows as [| peak rest].
  - destruct Hrun as [_ Hno]. fold r in Hrisk. congruence.
  - destruct Hrun as [_ [Hk [Ht [Hm Hl]]]].
    destruct (answers_first _ _ _ _ Hans) as [_ Hsel].
    unfold selects in Hsel. cbn [riskQuery q_tide_type q_height_above
                                   q_time_from q_time_to] in Hsel.
    repeat (apply andb_true_iff in Hsel; destruct Hsel as [Hsel ?]).
    rewrite Hk, Ht, Hm, Hl. clear Hk Ht Hm Hl.
    split; [destruct (TideType_ peak); [reflexivity | discriminate] |].
    split; [apply Qltb_lt; assumption |].
    split.
    + cbn [Add unixNano tideBufferDuration] in *.
      unfold tideBufferDuration in *. lia.
    + destruct (unixNano (Expires alert) <? unixNano (Models.TideTime peak))
        eqn:E; [apply Z.ltb_lt in E | apply Z.ltb_ge in E];
        (split; split; intros; try lia; try reflexivity; try discriminate).
Qed.

End Verdict.

(** A tide of 2.6 m, a low tide of 3 m and a high tide six hours after
    the start of a three-hour advisory: none qualifies. *)
Definition harmlessTides : Table :=
  [highTide "a" 2.6 (Add exampleStart (1 * Hour));
   mkTideData "b" "Sekupang" exampleStart TideTypeLow
              (Add exampleStart (2 * Hour)) 3.0 9.8;
   highTide "c" 2.9 (Add exampleStart (6 * Hour))].

Lemma heavy_rain_without_high_tide_witness :
  let r := exampleAssess rainAlert harmlessTides in
  RiskLevel r = "none" /\ HasRisk r = false /\ HeavyRain r = true.
Proof.
  apply (heavy_rain_without_high_tide Strings.ascii_ToLower keepTime
           rainAlert "Asia/Jakarta" exampleStart harmlessTides
           (execQuery harmlessTides)).
  - vm_compute. reflexivity.
  - apply execQuery_serves.
  - intros t [<- | [<- | [<- | []]]]; vm_compute; reflexivity.
Defined.

Lemma risk_cites_tide_in_window_witness :
  let r := exampleAssess rainAlert twoTides in
  TideType r = "high"
  /\ (2.6 < TideHeightM r)%Q
  /\ unixNano (Effective rainAlert) <= unixNano (Controllers.TideTime r)
     <= unixNano (Expires rainAlert) + 2 * Hour
  /\ (RiskLevel r = "high"
      <-> unixNano (Controllers.TideTime r) <= unixNano (Expires rainAlert))
  /\ (RiskLevel r = "moderate"
      <-> unixNano (Expires rainAlert) < unixNano (Controllers.TideTime r)).
Proof.
  apply (risk_cites_tide_in_window Strings.ascii_ToLower keepTime
           rainAlert "Asia/Jakarta" exampleStart twoTides
           (execQuery twoTides)).
  - apply execQuery_serves.
  - vm_compute. reflexivity.
Defined.

End VerdictFacts.

(** ** Midnights and clock times *)

Module MidnightFacts.
Import GoTime Fetcher TimeFacts ClockFacts.

(** The wall clock of a time built by [time.Date] from the civil date of
    [d] and clock fields within a day. *)
Lemma Date_wall (d : Time) (hour minute : Z) (loc : GoTime.Location) :
  0 <= hour * 3600 + minute * 60 < secondsPerDay ->
  let t := GoTime.Date (Year d) (Month d) (Day d) hour minute 0 0 loc in
  localSeconds t = localDay d * secondsPerDay + hour * 3600 + minute * 60
  /\ localDay t = localDay d
  /\ Nanosecond_ t = 0.
Proof.
  intros Hrange t.
  assert (Hu : unixNano t
               = (localDay d * secondsPerDay + hour * 3600 + minute * 60
                  - zoneOffset loc) * Second).
  { subst t. pose proof (Date_of_day d 0 hour minute 0 0 loc) as H.
    rewrite Z.add_0_r in H. rewrite H. lia. }
  assert (Hl : location t = loc) by reflexivity.
  assert (Hs : localSeconds t
               = localDay d * secondsPerDay + hour * 3600 + minute * 60).
  { unfold localSeconds. rewrite Hu, Hl. unfold Second.
    generalize (zoneOffset loc) as off. intros off.
    generalize (localDay d * secondsPerDay + hour * 3600 + minute * 60) as w.
    intros w. Z.div_mod_to_equations. lia. }
  split; [exact Hs |]. split.
  - unfold localDay at 1. rewrite Hs. unfold secondsPerDay in *.
    clear Hu Hs Hl. set (D := localDay d) in *. clearbody D.
    Z.div_mod_to_equations. lia.
  - unfold Nanosecond_. rewrite Hu. unfold Second.
    generalize (localDay d * secondsPerDay + hour * 3600 + minute * 60
                - zoneOffset loc) as w.
    intros w. Z.div_mod_to_equations. lia.
Qed.

(** Such a time shows the civil date of [d] and the clock fields it was
    built from. *)
Lemma Date_fields (d : Time) (hour minute : Z) (loc : GoTime.Location) :
  0 <= hour <= 23 -> 0 <= minute <= 59 ->
  let t := GoTime.Date (Year d) (Month d) (Day d) hour minute 0 0 loc in
  Year t = Year d /\ Month t = Month d /\ Day t = Day d
  /\ Hour_ t = hour /\ Minute_ t = minute /\ Second_ t = 0
  /\ Nanosecond_ t = 0.
Proof.
  intros Hh Hm t.
  destruct (Date_wall d hour minute loc) as [Hs [Hd Hn]];
    [unfold secondsPerDay; lia |].
  fold t in Hs, Hd, Hn.
  unfold Year, Month, Day. rewrite Hd.
  repeat (split; [reflexivity |]).
  unfold Hour_, Minute_, Second_. rewrite Hs. unfold secondsPerDay.
  generalize (localDay d). intros D.
  repeat split; try exact Hn; Z.div_mod_to_equations; lia.
Qed.

(** Midnight of the civil date of a midnight is that midnight. *)
Lemma midnight_again (d : Time) (loc : GoTime.Location) :
  let m := GoTime.Date (Year d) (Month d) (Day d) 0 0 0 0 loc in
  GoTime.Date (Year m) (Month m) (Day m) 0 0 0 0 loc = m.
Proof.
  intros m.
  destruct (Date_fields d 0 0 loc) as [Hy [Hm [Hd _]]]; [lia | lia |].
  fold m in Hy, Hm, Hd. rewrite Hy, Hm, Hd. reflexivity.
Qed.

End MidnightFacts.

(** ** What a scrape returns *)

Module FetchFacts.
Import GoTime Models Store Fetcher TimeFacts ClockFacts MidnightFacts.
Import ScrapeFacts.

(** A [div] announces the date when it holds both markers. *)
Definition isHeader (text : string) : bool :=
  Strings.Contains text "Tide Times for" && Strings.Contains text "(WIB)".

Lemma findDateText_app (pre post : list string) :
  findDateText (pre ++ post)
  = fold_left (fun dateText text => if isHeader text then text else dateText)
              post (findDateText pre).
Proof. unfold findDateText. rewrite fold_left_app. reflexivity. Qed.

Lemma findDateText_none (divs : list string) (start : string) :
  (forall d, List.In d divs -> isHeader d = false) ->
  fold_left (fun dateText text => if isHeader text then text else dateText)
            divs start = start.
Proof.
  revert start. induction divs as [| d divs IH]; intros start Hno; simpl.
  - reflexivity.
  - rewrite (Hno d) by (left; reflexivity).
    apply IH. intros x Hx. apply Hno. right. exact Hx.
Qed.

Lemma isHeader_not_empty (d : string) : isHeader d = true -> d <> "".
Proof. intros H ->. discriminate H. Qed.

(** X4.  The date header of a page is the text of the last [div] that
    holds both "Tide Times for" and "(WIB)"; the header is missing, and
    the scrape stops, exactly when no [div] holds both. *)
Theorem header_is_last_announcement (divs : list string) :
  (findDateText divs = "" <-> forall d, List.In d divs -> isHeader d = false)
  /\ (forall pre d post,
         divs = (pre ++ d :: post)%list -> isHeader d = true ->
         (forall x, List.In x post -> isHeader x = false) ->
         findDateText divs = d).
Proof.
  assert (Hlast : forall pre d post,
             isHeader d = true ->
             (forall x, List.In x post -> isHeader x = false) ->
             findDateText (pre ++ d :: post) = d).
  { intros pre d post Hd Hpost. rewrite findDateText_app. simpl.
    rewrite Hd. apply findDateText_none. exact Hpost. }
  split.
  - split.
    + induction divs as [| d divs IH] using rev_ind; intros Hempty x Hx.
      * destruct Hx.
      * rewrite findDateText_app in Hempty. simpl in Hempty.
        destruct (isHeader d) eqn:Ed.
        -- exfalso. exact (isHeader_not_empty d Ed Hempty).
        -- apply in_app_or in Hx. destruct Hx as [Hx | [<- | []]].
           ++ apply IH; assumption.
           ++ exact Ed.
    + intros Hno. apply (findDateText_none divs ""). exact Hno.
  - intros pre d post -> Hd Hpost. apply Hlast; assumption.
Qed.

Section Entries.
Variable ToLower : string -> string.
Variable dateRe_FindStringSubmatch : string -> list string.
Variable ParseInLocation : string -> string -> GoTime.Location -> result Time.

Let Fetch := Fetch ToLower dateRe_FindStringSubmatch ParseInLocation.
Let parseTideDate := parseTideDate dateRe_FindStringSubmatch ParseInLocation.

(** The date of a page is midnight, in WIB, of the civil date the
    library read. *)
Lemma parseTideDate_inv (text : string) (date : Time) :
  parseTideDate text = Ok date ->
  exists matches d,
    dateRe_FindStringSubmatch text = matches
    /\ (5 <= List.length matches)%nat
    /\ ParseInLocation "January 2, 2006"
         (nth 2 matches "" ++ " " ++ nth 3 matches "" ++ ", "
          ++ nth 4 matches "") wibTimezone = Ok d
    /\ date = GoTime.Date (Year d) (Month d) (Day d) 0 0 0 0 wibTimezone.
Proof.
  unfold parseTideDate, Fetcher.parseTideDate.
  destruct (List.length (dateRe_FindStringSubmatch text) <? 5)%nat eqn:E;
    [discriminate |].
  apply Nat.ltb_ge in E.
  destruct (ParseInLocation _ _ _) as [d |] eqn:Ep; simpl; [| discriminate].
  intros H. injection H as <-. eauto 6.
Qed.

(** A scrape that succeeds went all the way. *)
Lemma Fetch_inv (resp : HttpResult) (tideData : list TideData)
      (date : Time) :
  Fetch resp = Ok (tideData, date) ->
  exists doc,
    resp = Response StatusOK (Ok doc)
    /\ findDateText (divTexts doc) <> ""
    /\ parseTideDate (findDateText (divTexts doc)) = Ok date
    /\ tideData = accepted ToLower date (tableRows doc)
    /\ tideData <> [].
Proof.
  unfold Fetch, Fetcher.Fetch.
  destruct resp as [e | code [doc | e]]; try discriminate.
  - destruct (code =? StatusOK) eqn:Ec; simpl; [| discriminate].
    apply Z.eqb_eq in Ec. subst code.
    destruct (findDateText (divTexts doc) =? "")%string eqn:Eh;
      [discriminate |].
    apply String.eqb_neq in Eh.
    destruct (Fetcher.parseTideDate _ _ _) as [d |] eqn:Ed; [| discriminate].
    rewrite parseRows_accepted.
    destruct (accepted ToLower d (tableRows doc)) as [| x l] eqn:Ea;
      [discriminate |].
    simpl. intros H. injection H as <- <-.
    exists doc. repeat split; auto. discriminate.
  - destruct (negb (code =? StatusOK)); discriminate.
Qed.

Lemma accepted_In (date : Time) (rows : list (list string)) (t : TideData) :
  List.In t (accepted ToLower date rows) ->
  exists cols, List.In cols (tl rows) /\ parseRow ToLower date cols = Some t.
Proof.
  unfold accepted. intros H. apply in_flat_map in H.
  destruct H as [cols [Hin Ht]]. exists cols. split; [exact Hin |].
  unfold entry in Ht. destruct (parseRow ToLower date cols) as [data |].
  - destruct Ht as [<- | []]. reflexivity.
  - destruct Ht.
Qed.

Lemma parseTimeWIB_inv (date : Time) (s : string) (t : Time) :
  parseTimeWIB date s = Ok t ->
  exists hour minute,
    clock_text s hour minute
    /\ t = GoTime.Date (Year date) (Month date) (Day date) hour minute 0 0
                       wibTimezone.
Proof.
  destruct (parseTimeWIB_parts date s) as [-> _].
  destruct (Strings.split_colon s) as [| a [| b [| c parts]]] eqn:E;
    try discriminate.
  destruct (Strconv.Atoi a) as [hour |] eqn:Ea; [| discriminate].
  destruct (Strconv.Atoi b) as [minute |] eqn:Eb; [| discriminate].
  intros H. injection H as <-. exists hour, minute. split; [| reflexivity].
  exists a, b. apply split_colon_two in E. tauto.
Qed.

(** X5.  The date [parseTideDate] returns is midnight on the WIB clock,
    and it shows the year, month and day of the time the library read
    from the header, whatever time of day and location that one has. *)
Theorem tide_date_is_wib_midnight (text : string) (date : Time) :
  parseTideDate text = Ok date ->
  location date = wibTimezone
  /\ Hour_ date = 0 /\ Minute_ date = 0 /\ Second_ date = 0
  /\ Nanosecond_ date = 0
  /\ exists d,
       (let matches := dateRe_FindStringSubmatch text in
        ParseInLocation "January 2, 2006"
          (nth 2 matches "" ++ " " ++ nth 3 matches "" ++ ", "
           ++ nth 4 matches "") wibTimezone) = Ok d
       /\ Year date = Year d /\ Month date = Month d /\ Day date = Day d.
Proof.
  intros H. apply parseTideDate_inv in H.
  destruct H as [matches [d [<- [_ [Hp ->]]]]].
  destruct (Date_fields d 0 0 wibTimezone) as [Hy [Hm [Hd [Hh [Hmi [Hs Hn]]]]]];
    [lia | lia |].
  split; [reflexivity |].
  repeat (split; [assumption |]).
  eauto 8.
Qed.

(** X6.  Every entry of a scrape that succeeds is an entry of the
    station "Sekupang" for the date the scrape returns, without
    identifier yet, and its time is what [parseTimeWIB] makes of that
    date and a clock text: a time shown in WIB which is the date, a WIB
    midnight, plus the hours and minutes of the text, wherever that
    instant is one a [time.Time] holds. *)
Theorem scrape_entries_of_the_day (resp : HttpResult)
    (tideData : list TideData) (date : Time) (t : TideData) :
  Fetch resp = Ok (tideData, date) ->
  List.In t tideData ->
  ID t = "" /\ Models.Location t = TideLocation /\ Models.Date t = date
  /\ location (TideTime t) = wibTimezone
  /\ exists s hour minute,
       clock_text s hour minute
       /\ parseTimeWIB date s = Ok (TideTime t)
       /\ (representable (Add date (hour * Hour + minute * Minute)) = true ->
           unixNano (TideTime t)
           = unixNano date + hour * Hour + minute * Minute).
Proof.
  intros Hf Hin. apply Fetch_inv in Hf.
  destruct Hf as [doc [_ [_ [Hdate [-> _]]]]].
  apply accepted_In in Hin. destruct Hin as [cols [_ Hrow]].
  apply parseRow_accepts in Hrow.
  destruct Hrow as (a & b & c & kind & tt & m & ft & _ & _ & Ht & _ & ->).
  pose proof Ht as Hparse.
  apply parseTimeWIB_inv in Ht. destruct Ht as [hour [minute [Hc Htt]]].
  cbn [ID Models.Location Models.Date TideTime].
  repeat (split; [try reflexivity; rewrite Htt; reflexivity |]).
  exists (Strings.TrimSpace b), hour, minute. split; [exact Hc |].
  split; [exact Hparse |].
  intros _. rewrite Htt, Date_carries. apply parseTideDate_inv in Hdate.
  destruct Hdate as [matches [d [_ [_ [_ ->]]]]].
  rewrite (midnight_again d wibTimezone). reflexivity.
Qed.

(** X7.  The first row of the table is passed over as the header row
    whatever it holds, and every other row yields one entry at most: a
    scrape that succeeds returns fewer entries than the table has rows,
    so that a table of one row never yields a batch. *)
Theorem scrape_skips_header_row (doc : Document)
    (tideData : list TideData) (date : Time) :
  Fetch (Response StatusOK (Ok doc)) = Ok (tideData, date) ->
  (1 <= List.length tideData < List.length (tableRows doc))%nat
  /\ tideData = flat_map (entry ToLower date) (tl (tableRows doc)).
Proof.
  intros Hf. apply Fetch_inv in Hf.
  destruct Hf as [doc' [Heq [_ [_ [-> Hne]]]]].
  injection Heq as <-.
  split; [| reflexivity]. split.
  - destruct (accepted ToLower date (tableRows doc));
      [congruence | simpl; lia].
  - unfold accepted. destruct (tableRows doc) as [| header rows]; simpl.
    + exfalso. apply Hne. reflexivity.
    + clear Hne. induction rows as [| cols rows IH]; simpl; [lia |].
      rewrite length_app. unfold entry at 1.
      destruct (parseRow ToLower date cols); simpl; lia.
Qed.

End Entries.

(** X8.  A clock text within the range of a clock comes back as that
    clock time on the civil date it is combined with: the time
    [parseTimeWIB] returns shows, in WIB, the year, month and day of the
    date and the hour and minute of the text; the variant that stores
    UTC returns the same instant. *)
Theorem clock_time_round_trip (date : Time) (s : string) (hour minute : Z) :
  clock_text s hour minute ->
  0 <= hour <= 23 -> 0 <= minute <= 59 ->
  exists t,
    parseTimeWIB date s = Ok t
    /\ FetcherUTC.parseTimeWIB date s = Ok (toUTC t)
    /\ In (toUTC t) wibTimezone = t
    /\ Year t = Year date /\ Month t = Month date /\ Day t = Day date
    /\ Hour_ t = hour /\ Minute_ t = minute /\ Second_ t = 0
    /\ Nanosecond_ t = 0.
Proof.
  intros [a [b [Hs [Ha [Hb [Hh Hm]]]]]] Hhour Hminute.
  assert (Hsplit : Strings.split_colon s = [a; b])
    by (apply split_colon_two; auto).
  destruct (parseTimeWIB_parts date s) as [Hwib Hutc].
  rewrite Hsplit, Hh, Hm in Hwib. rewrite Hwib in Hutc.
  eexists. split; [exact Hwib |]. split; [exact Hutc |].
  split; [reflexivity |].
  apply (Date_fields date hour minute wibTimezone); assumption.
Qed.

Lemma clock_time_round_trip_witness :
  exists t,
    parseTimeWIB ScrapeFacts.pageDate "09:47" = Ok t
    /\ FetcherUTC.parseTimeWIB ScrapeFacts.pageDate "09:47" = Ok (toUTC t)
    /\ In (toUTC t) wibTimezone = t
    /\ Year t = Year ScrapeFacts.pageDate
    /\ Month t = Month ScrapeFacts.pageDate
    /\ Day t = Day ScrapeFacts.pageDate
    /\ Hour_ t = 9 /\ Minute_ t = 47 /\ Second_ t = 0
    /\ Nanosecond_ t = 0.
Proof.
  apply (clock_time_round_trip ScrapeFacts.pageDate "09:47" 9 47).
  - exists "09", "47". repeat split; reflexivity.
  - lia.
  - lia.
Defined.

Lemma tide_date_is_wib_midnight_witness :
  location pageDate = wibTimezone
  /\ Hour_ pageDate = 0 /\ Minute_ pageDate = 0 /\ Second_ pageDate = 0
  /\ Nanosecond_ pageDate = 0
  /\ exists d,
       (let matches :=
          dateRe "Tide Times for Sekupang: Thursday December 4, 2025 (WIB)" in
        parseLongDate "January 2, 2006"
          (nth 2 matches "" ++ " " ++ nth 3 matches "" ++ ", "
           ++ nth 4 matches "") wibTimezone) = Ok d
       /\ Year pageDate = Year d /\ Month pageDate = Month d
       /\ Day pageDate = Day d.
Proof.
  apply (tide_date_is_wib_midnight dateRe parseLongDate
           "Tide Times for Sekupang: Thursday December 4, 2025 (WIB)"
           pageDate).
  vm_compute. reflexivity.
Defined.

Lemma scrape_entries_of_the_day_witness :
  let t := pageTide TideTypeHigh 9 47 2.7 8.9 in
  ID t = "" /\ Models.Location t = TideLocation /\ Models.Date t = pageDate
  /\ location (TideTime t) = wibTimezone
  /\ exists s hour minute,
       clock_text s hour minute
       /\ parseTimeWIB pageDate s = Ok (TideTime t)
       /\ (representable (Add pageDate (hour * Hour + minute * Minute))
           = true ->
           unixNano (TideTime t)
           = unixNano pageDate + hour * Hour + minute * Minute).
Proof.
  apply (scrape_entries_of_the_day Strings.ascii_ToLower dateRe parseLongDate
           (Response StatusOK (Ok stationPage))
           [pageTide TideTypeLow 3 12 0.4 1.3;
            pageTide TideTypeHigh 9 47 2.7 8.9;
            pageTide TideTypeLow 23 58 (-0.1) (-0.3)]
           pageDate).
  - vm_compute. reflexivity.
  - right. left. reflexivity.
Defined.

Lemma scrape_skips_header_row_witness :
  let tideData := [pageTide TideTypeLow 3 12 0.4 1.3;
                   pageTide TideTypeHigh 9 47 2.7 8.9;
                   pageTide TideTypeLow 23 58 (-0.1) (-0.3)] in
  (1 <= List.length tideData < List.length (tableRows stationPage))%nat
  /\ tideData
     = flat_map (entry Strings.ascii_ToLower pageDate)
                (tl (tableRows stationPage)).
Proof.
  apply (scrape_skips_header_row Strings.ascii_ToLower dateRe parseLongDate
           stationPage _ pageDate).
  vm_compute. reflexivity.
Defined.

End FetchFacts.

(** ** The two variants of the fetcher *)

Module VariantFacts.
Import GoTime Models Store Fetcher TimeFacts ClockFacts MidnightFacts.

(** An entry as the variant that stores UTC builds it: the date is the
    UTC midnight [dateForStorage] and the time is shown in UTC. *)
Definition storedUTC (dateForStorage : Time) (t : TideData) : TideData :=
  mkTideData (ID t) (Models.Location t) dateForStorage (TideType_ t)
             (toUTC (TideTime t)) (HeightM t) (HeightFt t).

(** Midnight in UTC of the civil date that [date] shows. *)
Definition utcMidnight (date : Time) : Time :=
  GoTime.Date (Year date) (Month date) (Day date) 0 0 0 0 UTC.

Section Variants.
Variable ToLower : string -> string.
Variable dateRe_FindStringSubmatch : string -> list string.
Variable ParseInLocation : string -> string -> GoTime.Location -> result Time.

Lemma parseTideDate_utc (text : string) :
  FetcherUTC.parseTideDate dateRe_FindStringSubmatch ParseInLocation text
  = match Fetcher.parseTideDate dateRe_FindStringSubmatch ParseInLocation
            text with
    | Ok dateWIB => Ok (utcMidnight dateWIB, dateWIB)
    | Err e => Err e
    end.
Proof.
  unfold FetcherUTC.parseTideDate, Fetcher.parseTideDate.
  destruct (List.length (dateRe_FindStringSubmatch text) <? 5)%nat;
    [reflexivity |].
  destruct (ParseInLocation _ _ _) as [d |]; simpl; [| reflexivity].
  destruct (Date_fields d 0 0 wibTimezone) as [Hy [Hm [Hd _]]];
    [lia | lia |].
  unfold utcMidnight. rewrite Hy, Hm, Hd. reflexivity.
Qed.

Lemma parseRow_utc (dateForStorage dateWIB : Time) (cols : list string) :
  FetcherUTC.parseRow ToLower dateForStorage dateWIB cols
  = option_map (storedUTC dateForStorage)
               (Fetcher.parseRow ToLower dateWIB cols).
Proof.
  unfold FetcherUTC.parseRow, Fetcher.parseRow.
  destruct (negb (List.length cols =? 3)%nat); [reflexivity |].
  destruct (Strings.Contains (ToLower (Strings.TrimSpace (nth 0 cols "")))
                             "high");
    [| destruct (Strings.Contains
                   (ToLower (Strings.TrimSpace (nth 0 cols ""))) "low");
       [| reflexivity]];
    destruct (parseTimeWIB_parts dateWIB (Strings.TrimSpace (nth 1 cols "")))
      as [_ ->];
    destruct (Fetcher.parseTimeWIB dateWIB _) as [t |]; try reflexivity;
    destruct (parseHeight _) as [[m ft] |]; reflexivity.
Qed.

Lemma parseRows_utc (dateForStorage dateWIB : Time)
      (rows : list (list string)) :
  forall i tideData,
    FetcherUTC.parseRows ToLower dateForStorage dateWIB i rows
                         (map (storedUTC dateForStorage) tideData)
    = map (storedUTC dateForStorage)
          (Fetcher.parseRows ToLower dateWIB i rows tideData).
Proof.
  induction rows as [| cols rows IH]; intros i tideData; simpl.
  - reflexivity.
  - rewrite <- IH. f_equal.
    destruct (i =? 0)%nat; [reflexivity |].
    rewrite parseRow_utc.
    destruct (Fetcher.parseRow ToLower dateWIB cols) as [data |]; simpl.
    + rewrite map_app. reflexivity.
    + reflexivity.
Qed.

(** X9.  The variant of the fetcher that stores UTC and the one that
    stores WIB fail on the same responses with the same error, and
    succeed on the same responses with the same entries in the same
    order: kind, heights and instant of each tide are the same; the
    variant that stores UTC shows the times in UTC and dates the
    entries, and the batch, by the UTC midnight of the civil date of
    which the other variant gives the WIB midnight. *)
Theorem variants_scrape_alike (resp : HttpResult) :
  FetcherUTC.Fetch ToLower dateRe_FindStringSubmatch ParseInLocation resp
  = match Fetcher.Fetch ToLower dateRe_FindStringSubmatch ParseInLocation
            resp with
    | Ok (tideData, date) =>
        Ok (map (storedUTC (utcMidnight date)) tideData, utcMidnight date)
    | Err e => Err e
    end.
Proof.
  unfold FetcherUTC.Fetch, Fetcher.Fetch.
  destruct resp as [e | code [doc | e]]; try reflexivity.
  - destruct (negb (code =? StatusOK)); [reflexivity |].
    destruct (findDateText (divTexts doc) =? "")%string; [reflexivity |].
    rewrite parseTideDate_utc.
    destruct (Fetcher.parseTideDate _ _ _) as [dateWIB |]; [| reflexivity].
    pose proof (parseRows_utc (utcMidnight dateWIB) dateWIB
                              (tableRows doc) 0 []) as H.
    simpl map at 1 in H. rewrite H. rewrite length_map.
    destruct (List.length _ =? 0)%nat; reflexivity.
  - destruct (negb (code =? StatusOK)); reflexivity.
Qed.

(** X10.  The two dates the variant that stores UTC reads from a header
    show the same year, month and day, each at midnight on its own
    clock, UTC for the date to store and WIB for the date to combine
    with clock times; the first is seven hours after the second. *)
Theorem utc_dates_share_civil_date (text : string)
    (dateForStorage dateWIB : Time) :
  FetcherUTC.parseTideDate dateRe_FindStringSubmatch ParseInLocation text
  = Ok (dateForStorage, dateWIB) ->
  location dateForStorage = UTC /\ location dateWIB = wibTimezone
  /\ Year dateForStorage = Year dateWIB
  /\ Month dateForStorage = Month dateWIB
  /\ Day dateForStorage = Day dateWIB
  /\ Hour_ dateForStorage = 0 /\ Minute_ dateForStorage = 0
  /\ Second_ dateForStorage = 0 /\ Nanosecond_ dateForStorage = 0
  /\ Hour_ dateWIB = 0 /\ Minute_ dateWIB = 0
  /\ Second_ dateWIB = 0 /\ Nanosecond_ dateWIB = 0
  /\ unixNano dateForStorage = unixNano dateWIB + 7 * Hour.
Proof.
  unfold FetcherUTC.parseTideDate.
  destruct (List.length (dateRe_FindStringSubmatch text) <? 5)%nat;
    [discriminate |].
  destruct (ParseInLocation _ _ _) as [d |]; simpl; [| discriminate].
  intros H. injection H as <- <-.
  destruct (Date_fields d 0 0 wibTimezone)
    as [Hy [Hm [Hd [Hh [Hmi [Hs Hn]]]]]]; [lia | lia |].
  destruct (Date_fields d 0 0 UTC)
    as [Hy' [Hm' [Hd' [Hh' [Hmi' [Hs' Hn']]]]]]; [lia | lia |].
  split; [reflexivity |]. split; [reflexivity |].
  rewrite Hy, Hm, Hd, Hy', Hm', Hd'.
  repeat (split; [first [reflexivity | assumption] |]).
  pose proof (Date_of_day d 0 0 0 0 0 UTC) as Hu.
  pose proof (Date_of_day d 0 0 0 0 0 wibTimezone) as Hw.
  rewrite Z.add_0_r in Hu, Hw. rewrite Hu, Hw.
  cbn [zoneOffset UTC wibTimezone]. unfold Hour, Minute, Second. lia.
Qed.

End Variants.

Lemma utc_dates_share_civil_date_witness :
  let dateForStorage := GoTime.Date 2025 12 4 0 0 0 0 UTC in
  let dateWIB := GoTime.Date 2025 12 4 0 0 0 0 wibTimezone in
  location dateForStorage = UTC /\ location dateWIB = wibTimezone
  /\ Year dateForStorage = Year dateWIB
  /\ Month dateForStorage = Month dateWIB
  /\ Day dateForStorage = Day dateWIB
  /\ Hour_ dateForStorage = 0 /\ Minute_ dateForStorage = 0
  /\ Second_ dateForStorage = 0 /\ Nanosecond_ dateForStorage = 0
  /\ Hour_ dateWIB = 0 /\ Minute_ dateWIB = 0
  /\ Second_ dateWIB = 0 /\ Nanosecond_ dateWIB = 0
  /\ unixNano dateForStorage = unixNano dateWIB + 7 * Hour.
Proof.
  apply (utc_dates_share_civil_date ScrapeFacts.dateRe
           ScrapeFacts.parseLongDate
           "Tide Times for Sekupang: Thursday December 4, 2025 (WIB)").
  vm_compute. reflexivity.
Defined.

(** The page of the station, scraped by the variant that stores UTC. *)
Example page_scrape_utc :
  FetcherUTC.Fetch Strings.ascii_ToLower ScrapeFacts.dateRe
                   ScrapeFacts.parseLongDate
                   (Response StatusOK (Ok ScrapeFacts.stationPage))
  = let date := GoTime.Date 2025 12 4 0 0 0 0 UTC in
    Ok ([mkTideData "" TideLocation date TideTypeLow
                    (GoTime.Date 2025 12 3 20 12 0 0 UTC) 0.4 1.3;
         mkTideData "" TideLocation date TideTypeHigh
                    (GoTime.Date 2025 12 4 2 47 0 0 UTC) 2.7 8.9;
         mkTideData "" TideLocation date TideTypeLow
                    (GoTime.Date 2025 12 4 16 58 0 0 UTC) (-0.1) (-0.3)],
        date).
Proof. vm_compute. reflexivity. Qed.

End VariantFacts.

(** ** A cycle of the fetcher: scrape, then replace the day *)

Module CycleFacts.
Import GoTime Models Store Fetcher SyncFacts FetchFacts.

(** The rows of the day of [date] at the station, and the other rows. *)
Definition ofDay (date : Time) (t : TideData) : bool :=
  sameDay TideLocation date t.
Definition otherDays (date : Time) (t : TideData) : bool :=
  negb (sameDay TideLocation date t).

Lemma BeforeCreate_sameDay (location : string) (date : Time)
      (t : TideData) (ulid : string) :
  sameDay location date (BeforeCreate t ulid) = sameDay location date t.
Proof. unfold BeforeCreate. destruct (ID t =? "")%string; reflexivity. Qed.

Lemma created_ofDay (NewULID : nat -> string) (date : Time)
      (tideData : list TideData) :
  (forall t, List.In t tideData -> ofDay date t = true) ->
  forall n,
    filter (ofDay date) (created NewULID n tideData)
    = created NewULID n tideData
    /\ filter (otherDays date) (created NewULID n tideData) = [].
Proof.
  unfold ofDay, otherDays.
  induction tideData as [| t rest IH]; intros Hday n; simpl.
  - split; reflexivity.
  - rewrite BeforeCreate_sameDay, (Hday t) by (left; reflexivity). simpl.
    destruct (IH (fun x Hx => Hday x (or_intror Hx)) (S n)) as [-> ->].
    split; reflexivity.
Qed.

Lemma filter_ofDay_otherDays (date : Time) (db : Table) :
  filter (ofDay date) (filter (otherDays date) db) = []
  /\ filter (otherDays date) (filter (otherDays date) db)
     = filter (otherDays date) db.
Proof.
  unfold ofDay, otherDays. induction db as [| t db [IH1 IH2]]; simpl.
  - split; reflexivity.
  - destruct (sameDay TideLocation date t) eqn:E; simpl.
    + split; assumption.
    + rewrite E. simpl. rewrite IH1, IH2. split; reflexivity.
Qed.

(** The table after a replacement, by days. *)
Lemma replaced_by_days (NewULID : nat -> string) (db : Table) (date : Time)
      (tideData : list TideData) :
  (forall t, List.In t tideData -> ofDay date t = true) ->
  filter (ofDay date) (replaced NewULID db date tideData)
  = created NewULID 1 tideData
  /\ filter (otherDays date) (replaced NewULID db date tideData)
     = filter (otherDays date) db.
Proof.
  intros Hday. unfold replaced. rewrite !filter_app.
  destruct (created_ofDay NewULID date tideData Hday 1) as [-> ->].
  destruct (filter_ofDay_otherDays date db) as [H1 H2].
  unfold otherDays, ofDay in *. rewrite H1, H2, app_nil_r.
  split; reflexivity.
Qed.

Section Outcome.
Variable faults : Faults.
Variable NewULID : nat -> string.

(** No statement of a replacement of [n] rows fails, nor the commit. *)
Definition clean (n : nat) : Prop :=
  faultless faults 0 (S n) /\ commitFault faults = None.

(** A replacement either goes through or leaves the table alone, and
    which of the two does not depend on the table. *)
Lemma replace_outcome (tideData : list TideData) (date : Time) (db : Table) :
  tideData <> [] ->
  (clean (List.length tideData)
   /\ FetchAndStore faults NewULID (Ok (tideData, date)) db
      = (Ok (Z.of_nat (List.length tideData)),
         replaced NewULID db date tideData))
  \/ (~ clean (List.length tideData)
      /\ exists e,
           FetchAndStore faults NewULID (Ok (tideData, date)) db
           = (Err e, db)).
Proof.
  intros Hne. unfold FetchAndStore, clean.
  destruct tideData as [| d0 rest] eqn:Hd; [congruence |].
  rewrite <- Hd in *.
  assert (Hlen : (List.length tideData =? 0)%nat = false)
    by (rewrite Hd; reflexivity).
  rewrite Hlen. unfold Transaction, tx_bind, wrapError, tx_Delete.
  destruct (statementFault faults 0) as [e0 |] eqn:E0.
  - right. rewrite (statement_fault _ _ _ e0) by exact E0.
    split; [| eauto]. intros [Hok _].
    rewrite Hok in E0 by lia. discriminate.
  - rewrite statement_ok by exact E0. cbn [tx_rows tx_statements].
    destruct (classic_fault faults tideData 1) as [Hall | [i [Hi Hf]]].
    + rewrite insertAll_ok by exact Hall.
      destruct (commitFault faults) as [ec |] eqn:Ec.
      * right. split; [| eauto]. intros [_ Hc]. discriminate.
      * left. split; [| reflexivity]. split; [| reflexivity].
        intros i Hi. destruct i as [| i]; [exact E0 |].
        apply Hall. lia.
    + right.
      destruct (insertAll_fault faults NewULID tideData 0
                  (mkTx (filter (fun t => negb (sameDay TideLocation date t))
                                db) 1) i Hi Hf) as [e [st' ->]].
      split; [| eauto]. intros [Hok _]. apply Hf, Hok. lia.
Qed.

End Outcome.

Lemma created_length (NewULID : nat -> string) (tideData : list TideData) :
  forall n, List.length (created NewULID n tideData) = List.length tideData.
Proof.
  induction tideData as [| t rest IH]; intros n; simpl;
    [| rewrite IH]; reflexivity.
Qed.

Lemma created_ids (NewULID : nat -> string) (tideData : list TideData) :
  (forall t, List.In t tideData -> ID t = "") ->
  forall n,
    map ID (created NewULID n tideData)
    = map NewULID (seq n (List.length tideData)).
Proof.
  induction tideData as [| t rest IH]; intros Hid n; simpl.
  - reflexivity.
  - rewrite IH by (intros x Hx; apply Hid; right; exact Hx).
    unfold BeforeCreate. rewrite (Hid t) by (left; reflexivity).
    reflexivity.
Qed.

Section Cycle.
Variable ToLower : string -> string.
Variable dateRe_FindStringSubmatch : string -> list string.
Variable ParseInLocation : string -> string -> GoTime.Location -> result Time.

Let Fetch := Fetch ToLower dateRe_FindStringSubmatch ParseInLocation.

(** The entries of a scrape are fresh entries of the day scraped. *)
Lemma Fetch_fresh (resp : HttpResult) (tideData : list TideData)
      (date : Time) :
  Fetch resp = Ok (tideData, date) ->
  tideData <> []
  /\ forall t, List.In t tideData -> ID t = "" /\ ofDay date t = true.
Proof.
  intros Hf. apply Fetch_inv in Hf.
  destruct Hf as [doc [_ [_ [_ [-> Hne]]]]].
  split; [exact Hne |]. intros t Hin.
  apply accepted_In in Hin. destruct Hin as [cols [_ Hrow]].
  apply ScrapeFacts.parseRow_accepts in Hrow.
  destruct Hrow as (a & b & c & kind & tt & m & ft & _ & _ & _ & _ & ->).
  split; [reflexivity |].
  unfold ofDay, sameDay. cbn [Models.Location Models.Date].
  rewrite String.eqb_refl, Z.eqb_refl. reflexivity.
Qed.

(** X11.  A cycle passes an error of the scrape on as it is, without
    touching the table; and whatever the faults of the database, it
    either returns an error and leaves the table as it was, or returns
    the number of entries scraped, which is one at least. *)
Theorem cycle_fails_clean_or_counts (faults : Faults)
    (NewULID : nat -> string) (resp : HttpResult) (db : Table) :
  let run := FetchAndStore faults NewULID (Fetch resp) db in
  (forall e, Fetch resp = Err e -> run = (Err e, db))
  /\ ((exists e, run = (Err e, db))
      \/ (exists tideData date,
             Fetch resp = Ok (tideData, date)
             /\ (1 <= List.length tideData)%nat
             /\ run = (Ok (Z.of_nat (List.length tideData)),
                       replaced NewULID db date tideData))).
Proof.
  intros run. subst run. split.
  - intros e ->. reflexivity.
  - destruct (Fetch resp) as [[tideData date] | e] eqn:Hf.
    + destruct (Fetch_fresh _ _ _ Hf) as [Hne _].
      destruct (replace_outcome faults NewULID tideData date db Hne)
        as [[_ Hok] | [_ [e He]]].
      * right. exists tideData, date. split; [reflexivity |].
        split; [| exact Hok].
        destruct tideData; [congruence | simpl; lia].
      * left. eauto.
    + left. exists e. reflexivity.
Qed.

(** X12.  After a cycle that succeeds, the rows the table holds for the
    station and the date scraped are the entries scraped, in the order
    of the page, each with the identifier drawn at its insertion; the
    rows of other dates and stations are those it held before. *)
Theorem cycle_replaces_the_day (faults : Faults)
    (NewULID : nat -> string) (resp : HttpResult) (db db' : Table) (n : Z) :
  FetchAndStore faults NewULID (Fetch resp) db = (Ok n, db') ->
  exists tideData date,
    Fetch resp = Ok (tideData, date)
    /\ filter (ofDay date) db' = created NewULID 1 tideData
    /\ map ID (filter (ofDay date) db')
       = map NewULID (seq 1 (List.length tideData))
    /\ filter (otherDays date) db' = filter (otherDays date) db.
Proof.
  intros Hrun.
  destruct (Fetch resp) as [[tideData date] | e] eqn:Hf;
    [| discriminate Hrun].
  destruct (Fetch_fresh _ _ _ Hf) as [Hne Hfresh].
  destruct (replace_outcome faults NewULID tideData date db Hne)
    as [[_ Hok] | [_ [e He]]]; [| congruence].
  rewrite Hok in Hrun. injection Hrun as _ <-.
  destruct (replaced_by_days NewULID db date tideData
              (fun t Ht => proj2 (Hfresh t Ht))) as [Hday Hother].
  exists tideData, date. split; [reflexivity |].
  split; [exact Hday |]. split; [| exact Hother].
  rewrite Hday. apply created_ids. intros t Ht. apply Hfresh. exact Ht.
Qed.

(** X13.  Running the cycle a second time on the same page changes
    nothing but the identifiers: the second run returns the same count,
    the table has as many rows as after the first, and it is the table
    the second run alone would have left. *)
Theorem cycle_twice_as_once (faults1 faults2 : Faults)
    (NewULID1 NewULID2 : nat -> string) (resp : HttpResult)
    (db db1 db2 : Table) (n1 n2 : Z) :
  FetchAndStore faults1 NewULID1 (Fetch resp) db = (Ok n1, db1) ->
  FetchAndStore faults2 NewULID2 (Fetch resp) db1 = (Ok n2, db2) ->
  n2 = n1
  /\ List.length db2 = List.length db1
  /\ FetchAndStore faults2 NewULID2 (Fetch resp) db = (Ok n2, db2).
Proof.
  intros Hrun1 Hrun2.
  destruct (Fetch resp) as [[tideData date] | e] eqn:Hf;
    [| discriminate Hrun1].
  destruct (Fetch_fresh _ _ _ Hf) as [Hne Hfresh].
  assert (Hday : forall t, List.In t tideData -> ofDay date t = true)
    by (intros t Ht; apply Hfresh; exact Ht).
  destruct (replace_outcome faults1 NewULID1 tideData date db Hne)
    as [[_ Hok1] | [_ [e He]]]; [| congruence].
  rewrite Hok1 in Hrun1. injection Hrun1 as <- <-.
  destruct (replace_outcome faults2 NewULID2 tideData date
              (replaced NewULID1 db date tideData) Hne)
    as [[Hclean Hok2] | [_ [e He]]]; [| congruence].
  rewrite Hok2 in Hrun2. injection Hrun2 as <- <-.
  destruct (replaced_by_days NewULID1 db date tideData Hday) as [_ Hother].
  assert (Hsame : replaced NewULID2 (replaced NewULID1 db date tideData)
                           date tideData
                  = replaced NewULID2 db date tideData).
  { unfold replaced at 1. unfold otherDays in Hother. rewrite Hother.
    reflexivity. }
  split; [reflexivity |]. split.
  - rewrite Hsame. unfold replaced.
    rewrite !length_app, !created_length. reflexivity.
  - rewrite Hsame.
    destruct (replace_outcome faults2 NewULID2 tideData date db Hne)
      as [[_ Hok] | [Hdirty _]]; [exact Hok | contradiction].
Qed.

End Cycle.

(** *** A cycle on the page of the station *)

Definition pageCycle (faults : Faults) (db : Table) : result Z * Table :=
  FetchAndStore faults exampleULID
    (ScrapeFacts.scrape (Response StatusOK (Ok ScrapeFacts.stationPage))) db.

(** The three entries of the page take the place of the two rows stored
    for the day; the row of the day before stays. *)
Example page_cycle :
  pageCycle noFaults storedDays
  = (Ok 3,
     [exampleRow "01A" (AddDate exampleDate 0 0 (-1)) TideTypeHigh 21 40
                 2.5 8.2;
      exampleRow "01J1" exampleDate TideTypeLow 3 12 0.4 1.3;
      exampleRow "01J2" exampleDate TideTypeHigh 9 47 2.7 8.9;
      exampleRow "01J3" exampleDate TideTypeLow 23 58 (-0.1) (-0.3)]).
Proof. vm_compute. reflexivity. Qed.

Lemma cycle_replaces_the_day_witness :
  let db' := snd (pageCycle noFaults storedDays) in
  exists tideData date,
    ScrapeFacts.scrape (Response StatusOK (Ok ScrapeFacts.stationPage))
    = Ok (tideData, date)
    /\ filter (ofDay date) db' = created exampleULID 1 tideData
    /\ map ID (filter (ofDay date) db')
       = map exampleULID (seq 1 (List.length tideData))
    /\ filter (otherDays date) db' = filter (otherDays date) storedDays.
Proof.
  apply (cycle_replaces_the_day Strings.ascii_ToLower ScrapeFacts.dateRe
           ScrapeFacts.parseLongDate noFaults exampleULID
           (Response StatusOK (Ok ScrapeFacts.stationPage))
           storedDays (snd (pageCycle noFaults storedDays)) 3).
  vm_compute. reflexivity.
Defined.

Lemma cycle_twice_as_once_witness :
  let db1 := snd (pageCycle noFaults storedDays) in
  let db2 := snd (pageCycle noFaults db1) in
  3 = 3
  /\ List.length db2 = List.length db1
  /\ pageCycle noFaults storedDays = (Ok 3, db2).
Proof.
  apply (cycle_twice_as_once Strings.ascii_ToLower ScrapeFacts.dateRe
           ScrapeFacts.parseLongDate noFaults noFaults
           exampleULID exampleULID
           (Response StatusOK (Ok ScrapeFacts.stationPage))
           storedDays (snd (pageCycle noFaults storedDays))
           (snd (pageCycle noFaults (snd (pageCycle noFaults storedDays))))
           3 3).
  - vm_compute. reflexivity.
  - vm_compute. reflexivity.
Defined.

End CycleFacts.

(** ** The cadence of the schedule *)

Module CadenceFacts.
Import GoTime Fetcher TimeFacts ScheduleFacts.

(** The next run as a function of the instant alone: the first multiple
    of two hours on the WIB clock after the hour the instant is in. *)
Lemma next_instant (clock : Time) :
  unixNano (calculateNext2HourMark clock)
  = (((unixNano clock / Second + 25200) / 7200 + 1) * 7200 - 25200) * Second
  /\ location (calculateNext2HourMark clock) = wibTimezone.
Proof.
  rewrite next_closed. cbn [unixNano location]. split; [| reflexivity].
  unfold nextHourOf, Hour_, localDay, localSeconds.
  cbn [unixNano location In zoneOffset wibTimezone].
  unfold secondsPerDay, Second.
  set (u := unixNano clock). clearbody u.
  Z.div_mod_to_equations. lia.
Qed.

(** X14.  The runs of the schedule are two hours apart: the run after a
    run is two hours later; a later clock never gives an earlier run;
    and the run depends on the instant of the clock only, not on the
    location the clock is shown in. *)
Theorem runs_two_hours_apart (clock : Time) :
  calculateNext2HourMark (calculateNext2HourMark clock)
  = Add (calculateNext2HourMark clock) (2 * Hour)
  /\ (forall later,
         unixNano clock <= unixNano later ->
         unixNano (calculateNext2HourMark clock)
         <= unixNano (calculateNext2HourMark later))
  /\ (forall other,
         unixNano other = unixNano clock ->
         calculateNext2HourMark other = calculateNext2HourMark clock).
Proof.
  split; [| split].
  - apply Time_eq.
    + destruct (next_instant (calculateNext2HourMark clock)) as [-> _].
      cbn [Add unixNano].
      destruct (next_instant clock) as [-> _].
      unfold Hour, Minute, Second.
      set (u := unixNano clock). clearbody u.
      Z.div_mod_to_equations. lia.
    + destruct (next_instant (calculateNext2HourMark clock)) as [_ ->].
      cbn [Add location].
      destruct (next_instant clock) as [_ ->]. reflexivity.
  - intros later Hle.
    destruct (next_instant clock) as [-> _].
    destruct (next_instant later) as [-> _].
    unfold Second.
    set (u := unixNano clock) in *. set (v := unixNano later) in *.
    clearbody u v. Z.div_mod_to_equations. lia.
  - intros other Heq. apply Time_eq.
    + destruct (next_instant clock) as [-> _].
      destruct (next_instant other) as [-> _].
      rewrite Heq. reflexivity.
    + destruct (next_instant clock) as [_ ->].
      destruct (next_instant other) as [_ ->]. reflexivity.
Qed.

End CadenceFacts.

(** ** Integers read with the error dropped *)

Module StrconvValue.

(** The integer of [n, _ := strconv.Atoi(s)]: the value when [s] is
    read; 0 on a syntax error; the nearest bound of [int] when the
    digits are out of range. *)
Definition AtoiValue (s : string) : Z :=
  match Strconv.Atoi s with
  | Ok n => n
  | Err _ =>
      let '(neg, body) :=
        match s with
        | String "-"%char s' => (true, s')
        | String "+"%char s' => (false, s')
        | _ => (false, s)
        end in
      match body, Strconv.digits_value body 0 with
      | String _ _, Some _ =>
          if neg then Strconv.minInt64 else Strconv.maxInt64
      | _, _ => 0
      end
  end.

(** An [int] of 64 bits. *)
Definition wrap64 (z : Z) : Z := (z + 2 ^ 63) mod 2 ^ 64 - 2 ^ 63.

End StrconvValue.

(** ** Package [controllers]: the timezone of a request *)

Module Timezone.

(** [offsetRegex.FindStringSubmatch] for
    [regexp.MustCompile(`^([+-])(\d{2}):?(\d{2})$`)]: the whole text is a
    sign, two digits, possibly a colon, and two digits; nil otherwise. *)
Definition offsetRegex_FindStringSubmatch (s : string) : list string :=
  match s with
  | String sign (String h1 (String h2 rest)) =>
      if (Ascii.eqb sign "+" || Ascii.eqb sign "-")
         && Strconv.is_digit h1 && Strconv.is_digit h2
      then
        let minutes :=
          match rest with
          | String c r => if Ascii.eqb c ":" then r else rest
          | EmptyString => rest
          end in
        match minutes with
        | String m1 (String m2 EmptyString) =>
            if Strconv.is_digit m1 && Strconv.is_digit m2
            then [s; String sign ""; String h1 (String h2 "");
                  String m1 (String m2 "")]
            else []
        | _ => []
        end
      else []
  | _ => []
  end.

(** parseTimezone converts a UTC offset to IANA timezone string, or
    returns as-is.  Etc/GMT signs are inverted (Etc/GMT-8 = UTC+08:00);
    the minutes are not used. *)
Definition parseTimezone (tz : string) : string :=
  if String.eqb tz "" then tz
  else
    match offsetRegex_FindStringSubmatch tz with
    | [] => tz
    | matches =>
        let sign := nth 1 matches "" in
        let hours := StrconvValue.AtoiValue (nth 2 matches "") in
        if String.eqb sign "+" then "Etc/GMT-" ++ Strconv.Itoa hours
        else "Etc/GMT+" ++ Strconv.Itoa hours
    end.

End Timezone.

Module TimezoneFacts.
Import Timezone.

(** A UTC offset: sign, two digits of hours, two digits of minutes,
    with or without a colon between them. *)
Definition offset_text (tz : string) (sign h1 h2 m1 m2 : ascii) : Prop :=
  (sign = "+"%char \/ sign = "-"%char)
  /\ Strconv.is_digit h1 = true /\ Strconv.is_digit h2 = true
  /\ Strconv.is_digit m1 = true /\ Strconv.is_digit m2 = true
  /\ (tz = String sign (String h1 (String h2 (String m1 (String m2 ""))))
      \/ tz = String sign (String h1 (String h2
                (String ":" (String m1 (String m2 "")))))).

Lemma digit_not_colon (c : ascii) :
  Strconv.is_digit c = true -> Ascii.eqb c ":" = false.
Proof.
  destruct c as [[] [] [] [] [] [] [] []]; intros H;
    try discriminate H; reflexivity.
Qed.

Lemma digit_not_sign (c : ascii) :
  Strconv.is_digit c = true ->
  forall s : string,
    match String c s with
    | String "-"%char s' => (true, s')
    | String "+"%char s' => (false, s')
    | _ => (false, String c s)
    end = (false, String c s).
Proof.
  destruct c as [[] [] [] [] [] [] [] []]; intros H s;
    try discriminate H; reflexivity.
Qed.

Lemma digit_value_range (c : ascii) :
  Strconv.is_digit c = true -> 0 <= Strconv.digit_value c <= 9.
Proof.
  destruct c as [[] [] [] [] [] [] [] []]; intros H;
    try discriminate H; vm_compute; split; discriminate.
Qed.

(** [strconv.Atoi] on two digits. *)
Lemma Atoi_two_digits (h1 h2 : ascii) :
  Strconv.is_digit h1 = true -> Strconv.is_digit h2 = true ->
  Strconv.Atoi (String h1 (String h2 ""))
  = Ok (10 * Strconv.digit_value h1 + Strconv.digit_value h2).
Proof.
  intros H1 H2. unfold Strconv.Atoi.
  rewrite (digit_not_sign h1 H1).
  cbn [Strconv.digits_value]. rewrite H1, H2.
  pose proof (digit_value_range h1 H1). pose proof (digit_value_range h2 H2).
  unfold Strconv.minInt64, Strconv.maxInt64.
  replace (0 * 10 + Strconv.digit_value h1) with (Strconv.digit_value h1)
    by lia.
  replace (Strconv.digit_value h1 * 10 + Strconv.digit_value h2)
    with (10 * Strconv.digit_value h1 + Strconv.digit_value h2) by lia.
  destruct (_ <=? _) eqn:E1; [| apply Z.leb_gt in E1; lia].
  destruct (_ + _ <=? _) eqn:E2; [reflexivity | apply Z.leb_gt in E2; lia].
Qed.

(** The pattern matches the offsets and nothing else. *)
Lemma offsetRegex_match (tz : string) (sign h1 h2 m1 m2 : ascii) :
  offset_text tz sign h1 h2 m1 m2 ->
  offsetRegex_FindStringSubmatch tz
  = [tz; String sign ""; String h1 (String h2 "");
     String m1 (String m2 "")].
Proof.
  intros [Hs [H1 [H2 [H3 [H4 Htz]]]]].
  assert (Hsign : (Ascii.eqb sign "+" || Ascii.eqb sign "-")%bool = true)
    by (destruct Hs as [-> | ->]; reflexivity).
  destruct Htz as [-> | ->]; unfold offsetRegex_FindStringSubmatch;
    rewrite Hsign, H1, H2; cbn [andb].
  - rewrite (digit_not_colon m1 H3), H3, H4. reflexivity.
  - rewrite Ascii.eqb_refl, H3, H4. reflexivity.
Qed.

Lemma offsetRegex_sound (tz : string) :
  offsetRegex_FindStringSubmatch tz <> [] ->
  exists sign h1 h2 m1 m2, offset_text tz sign h1 h2 m1 m2.
Proof.
  unfold offsetRegex_FindStringSubmatch.
  destruct tz as [| sign [| h1 [| h2 rest]]]; try congruence.
  destruct (Ascii.eqb sign "+" || Ascii.eqb sign "-")%bool eqn:Es;
    [| simpl; congruence].
  destruct (Strconv.is_digit h1) eqn:E1; [| simpl; congruence].
  destruct (Strconv.is_digit h2) eqn:E2; [| simpl; congruence].
  cbn [andb].
  assert (Hsign : sign = "+"%char \/ sign = "-"%char).
  { apply orb_true_iff in Es. destruct Es as [E | E];
      apply Ascii.eqb_eq in E; auto. }
  destruct rest as [| c r]; [congruence |].
  destruct (Ascii.eqb c ":") eqn:Ec.
  - apply Ascii.eqb_eq in Ec. subst c.
    destruct r as [| m1 [| m2 [| x r]]]; try congruence.
    destruct (Strconv.is_digit m1) eqn:E3; [| simpl; congruence].
    destruct (Strconv.is_digit m2) eqn:E4; [| simpl; congruence].
    intros _. exists sign, h1, h2, m1, m2. unfold offset_text. auto 10.
  - destruct r as [| m2 [| x r]]; try congruence.
    destruct (Strconv.is_digit c) eqn:E3; [| simpl; congruence].
    destruct (Strconv.is_digit m2) eqn:E4; [| simpl; congruence].
    intros _. exists sign, h1, h2, c, m2. unfold offset_text. auto 10.
Qed.

Lemma parseTimezone_named (r : string) :
  parseTimezone (String "E" r) = String "E" r.
Proof.
  unfold parseTimezone, offsetRegex_FindStringSubmatch.
  destruct r as [| a [| b r]]; reflexivity.
Qed.

Example timezone_examples :
  map parseTimezone
      [""; "+08:00"; "-05:00"; "+0800"; "-0530"; "+05:30"; "+00:00";
       "+99:99"; "Asia/Singapore"; "+8:00"; "+08:00 "; "UTC+08:00"]
  = [""; "Etc/GMT-8"; "Etc/GMT+5"; "Etc/GMT-8"; "Etc/GMT+5"; "Etc/GMT-5";
     "Etc/GMT-0"; "Etc/GMT-99"; "Asia/Singapore"; "+8:00"; "+08:00 ";
     "UTC+08:00"].
Proof. vm_compute. reflexivity. Qed.

(** X15.  A UTC offset, with or without colon, becomes the Etc/GMT zone
    of the opposite sign and of the hours of the offset, read as a
    number; the minutes are dropped and the hours are not checked
    against a range. *)
Theorem offset_becomes_etc_gmt (tz : string) (sign h1 h2 m1 m2 : ascii) :
  offset_text tz sign h1 h2 m1 m2 ->
  parseTimezone tz
  = "Etc/GMT" ++ (if Ascii.eqb sign "+" then "-" else "+")
    ++ Strconv.Itoa (10 * Strconv.digit_value h1 + Strconv.digit_value h2).
Proof.
  intros Hoff. pose proof (offsetRegex_match _ _ _ _ _ _ Hoff) as Hm.
  destruct Hoff as [Hs [H1 [H2 [H3 [H4 Htz]]]]].
  unfold parseTimezone. rewrite Hm.
  assert (Hne : String.eqb tz "" = false)
    by (destruct Htz as [-> | ->]; reflexivity).
  rewrite Hne. cbn [nth]. unfold StrconvValue.AtoiValue.
  rewrite (Atoi_two_digits h1 h2 H1 H2).
  destruct Hs as [-> | ->]; reflexivity.
Qed.

Lemma offset_becomes_etc_gmt_witness :
  parseTimezone "-05:30"
  = "Etc/GMT" ++ (if Ascii.eqb "-" "+" then "-" else "+")
    ++ Strconv.Itoa (10 * Strconv.digit_value "0" + Strconv.digit_value "5").
Proof.
  apply (offset_becomes_etc_gmt "-05:30" "-" "0" "5" "3" "0").
  unfold offset_text. repeat split; auto.
Defined.

(** X16.  A timezone that is not a UTC offset is returned as it is, and
    [parseTimezone] applied to its own result changes nothing: the zone
    it makes of an offset is not taken for an offset again. *)
Theorem parseTimezone_idempotent (tz : string) :
  ((forall sign h1 h2 m1 m2, ~ offset_text tz sign h1 h2 m1 m2) ->
   parseTimezone tz = tz)
  /\ parseTimezone (parseTimezone tz) = parseTimezone tz.
Proof.
  assert (Hcases : parseTimezone tz = tz
                   \/ exists r, parseTimezone tz = String "E" r).
  { unfold parseTimezone. destruct (String.eqb tz ""); [left; reflexivity |].
    destruct (offsetRegex_FindStringSubmatch tz) as [| m ms];
      [left; reflexivity |].
    right. destruct (String.eqb (nth 1 (m :: ms) "") "+"); simpl; eauto. }
  split.
  - intros Hno. unfold parseTimezone.
    destruct (String.eqb tz ""); [reflexivity |].
    destruct (offsetRegex_FindStringSubmatch tz) as [| m ms] eqn:E;
      [reflexivity |].
    exfalso.
    destruct (offsetRegex_sound tz) as (sign & h1 & h2 & m1 & m2 & H);
      [congruence |].
    exact (Hno _ _ _ _ _ H).
  - destruct Hcases as [H | [r Hr]]; [rewrite H; exact H |].
    rewrite Hr. apply parseTimezone_named.
Qed.

End TimezoneFacts.

(** ** Package [controllers]: the pages of a listing *)

Module Paging.
Import StrconvValue.

(** The page, the limit and the offset the handler [Index] of the
    alerts computes from the query parameters "page", "limit" and
    "as-card" (a parameter that is missing reads as the empty text), and
    the limit and offset of its query.  The handlers of the tidal
    listing compute page, limit and offset alike. *)
Record Window := mkWindow {
  page : Z;
  limit : Z;
  offset : Z;
  queryLimit : Z;
  queryOffset : Z
}.

Definition window (pageParam limitParam asCard : string) : Window :=
  let page := AtoiValue pageParam in
  let limit := AtoiValue limitParam in
  let page := if page <? 1 then 1 else page in
  let limit := if (limit <? 1) || (100 <? limit) then 20 else limit in
  let offset := wrap64 ((page - 1) * limit) in
  let isCardMode := String.eqb asCard "html" || String.eqb asCard "html-dark" in
  let queryLimit := if isCardMode then 1 else limit in
  let queryOffset := if isCardMode then 0 else offset in
  mkWindow page limit offset queryLimit queryOffset.

(** The number of pages of [total] rows. *)
Definition totalPages (total limit : Z) : Z :=
  let totalPages := Z.quot total limit in
  if 0 <? Z.rem total limit then totalPages + 1 else totalPages.

End Paging.

Module PagingFacts.
Import StrconvValue Paging.


Example window_examples :
  map (fun q => let w := window (fst q) (snd q) "" in
                (page w, limit w, offset w))
      [("", ""); ("3", "25"); ("0", "0"); ("-4", "101"); ("x", "100");
       ("2", "1e2"); ("99999999999999999999", "100")]
  = [(1, 20, 0); (3, 25, 50); (1, 20, 0); (1, 20, 0); (1, 100, 0);
     (2, 20, 20); (9223372036854775807, 100, -200)].
Proof. vm_compute. reflexivity. Qed.


(** X18.  For a count of rows that is not negative and a limit of one
    at least, the number of pages is the count divided by the limit,
    rounded up: no page for no row, and otherwise the last page is the
    one that holds the last row.  A page at or before the last starts
    within the rows, a page after the last starts beyond them. *)
Theorem totalPages_rounds_up (total limit : Z) :
  0 <= total -> 1 <= limit ->
  let pages := totalPages total limit in
  (total = 0 -> pages = 0)
  /\ (0 < total -> (pages - 1) * limit < total <= pages * limit)
  /\ (forall page, 1 <= page ->
                   ((page - 1) * limit < total <-> page <= pages)).
Proof.
  intros Htotal Hlimit pages. subst pages. unfold totalPages.
  rewrite Z.quot_div_nonneg, Z.rem_mod_nonneg by lia.
  pose proof (Z.div_mod total limit ltac:(lia)) as Hdm.
  pose proof (Z.mod_pos_bound total limit ltac:(lia)) as Hmod.
  set (q := total / limit) in *. set (r := total mod limit) in *.
  clearbody q r.
  assert (Hq : 0 <= q) by nia.
  destruct (0 <? r) eqn:Er; [apply Z.ltb_lt in Er | apply Z.ltb_ge in Er].
  - repeat split; nia.
  - assert (r = 0) by lia. subst r. repeat split; nia.
Qed.

Lemma totalPages_rounds_up_witness :
  let pages := totalPages 41 20 in
  (41 = 0 -> pages = 0)
  /\ (0 < 41 -> (pages - 1) * 20 < 41 <= pages * 20)
  /\ (forall page, 1 <= page -> ((page - 1) * 20 < 41 <-> page <= pages)).
Proof. apply (totalPages_rounds_up 41 20); lia. Defined.

End PagingFacts.

(** ** Package [fetcher]: the alerts of the province *)

Module Bmkg.
Import GoTime.

(** ProvinceFilter is the province filter for alerts. *)
Definition ProvinceFilter : string := "Kep. Riau".

(** [models.WeatherAlert] of the base module: the fields the fetcher
    reads or writes, and the rest of the alert. *)
Record WeatherAlert := mkWeatherAlert {
  ID : string;
  GUID : string;
  Province : string;
  CreatedAt : Time;
  Rest : string
}.

(** What the database answers to [First] and to [Create] or [Save]:
    [Written a] carries the alert as the call left it. *)
Inductive FirstReply :=
| Found (existing : WeatherAlert)
| RecordNotFound
| FirstError (e : string).

Inductive WriteReply :=
| Written (alert : WeatherAlert)
| WriteError (e : string).

(** A computation on the table of alerts: finished, or a call of
    [db.Where("guid = ?", guid).First(&existing)], [db.Create(&alert)]
    or [db.Save(&alert)] and what follows its answer. *)
Inductive Prog (A : Type) : Type :=
| Ret (a : A)
| First (guid : string) (k : FirstReply -> Prog A)
| Create (alert : WeatherAlert) (k : WriteReply -> Prog A)
| Save (alert : WeatherAlert) (k : WriteReply -> Prog A).
Arguments Ret {A} a.
Arguments First {A} guid k.
Arguments Create {A} alert k.
Arguments Save {A} alert k.

(** The database, as far as its answers go: the answer to each call, by
    the number of the call. *)
Record Database := mkDatabase {
  onFirst : nat -> string -> FirstReply;
  onCreate : nat -> WeatherAlert -> WriteReply;
  onSave : nat -> WeatherAlert -> WriteReply
}.

Inductive Event :=
| DidFirst (guid : string) (reply : FirstReply)
| DidCreate (alert : WeatherAlert) (reply : WriteReply)
| DidSave (alert : WeatherAlert) (reply : WriteReply).

(** The run of a computation from call number [n]: its result and the
    calls made, in order. *)
Fixpoint run {A} (db : Database) (n : nat) (p : Prog A) : A * list Event :=
  match p with
  | Ret a => (a, [])
  | First guid k =>
      let reply := onFirst db n guid in
      let '(a, events) := run db (S n) (k reply) in
      (a, DidFirst guid reply :: events)
  | Create alert k =>
      let reply := onCreate db n alert in
      let '(a, events) := run db (S n) (k reply) in
      (a, DidCreate alert reply :: events)
  | Save alert k =>
      let reply := onSave db n alert in
      let '(a, events) := run db (S n) (k reply) in
      (a, DidSave alert reply :: events)
  end.

(** The loop over the filtered alerts; [count] and [storedAlerts] are
    the variables of the caller. *)
Fixpoint storeAlerts (filteredAlerts : list WeatherAlert) (count : Z)
    (storedAlerts : list WeatherAlert) : Prog (Z * list WeatherAlert) :=
  match filteredAlerts with
  | [] => Ret (count, storedAlerts)
  | alert :: rest =>
      First (GUID alert)
        (fun result =>
           match result with
           | RecordNotFound =>
               Create alert
                 (fun created =>
                    match created with
                    | WriteError _ => storeAlerts rest count storedAlerts
                    | Written alert =>
                        storeAlerts rest (count + 1)
                                    (storedAlerts ++ [alert])%list
                    end)
           | Found existing =>
               let alert :=
                 mkWeatherAlert (ID existing) (GUID alert) (Province alert)
                                (CreatedAt existing) (Rest alert) in
               Save alert
                 (fun saved =>
                    match saved with
                    | WriteError _ => storeAlerts rest count storedAlerts
                    | Written alert =>
                        storeAlerts rest count
                                    (storedAlerts ++ [alert])%list
                    end)
           | FirstError _ => storeAlerts rest count storedAlerts
           end)
  end.

(** The result of a computation passed through [f]. *)
Fixpoint mapProg {A B} (f : A -> B) (p : Prog A) : Prog B :=
  match p with
  | Ret a => Ret (f a)
  | First guid k => First guid (fun r => mapProg f (k r))
  | Create alert k => Create alert (fun r => mapProg f (k r))
  | Save alert k => Save alert (fun r => mapProg f (k r))
  end.

(** FetchAndStore fetches alerts from BMKG, filters by province, and
    stores them.  [fetched] is what the base [Fetch()] returned; the
    second component of the result is the list of alerts handed to the
    background fetch of the details. *)
Definition FetchAndStore (fetched : result (list WeatherAlert))
  : Prog (result Z * list WeatherAlert) :=
  match fetched with
  | Err e => Ret (Err e, [])
  | Ok alerts =>
      let filteredAlerts :=
        filter (fun alert => Strings.Contains (Province alert) ProvinceFilter)
               alerts in
      mapProg (fun '(count, storedAlerts) => (Ok count, storedAlerts))
              (storeAlerts filteredAlerts 0 [])
  end.

End Bmkg.

Module BmkgFacts.
Import GoTime Bmkg.

(** An alert of the province. *)
Definition ofProvince (alert : WeatherAlert) : bool :=
  Strings.Contains (Province alert) ProvinceFilter.

(** The alert written over the row [existing]: the alert of the feed
    under the identifier and the creation time of the row. *)
Definition over (existing alert : WeatherAlert) : WeatherAlert :=
  mkWeatherAlert (ID existing) (GUID alert) (Province alert)
                 (CreatedAt existing) (Rest alert).

(** The calls a sync of a list of alerts may make: for each alert in
    turn a lookup of its GUID, followed by a [Create] of the alert when
    no row was found, by a [Save] over the row when one was found, and
    by nothing when the lookup failed. *)
Inductive protocol : list WeatherAlert -> list Event -> Prop :=
| protocol_done : protocol [] []
| protocol_skip alert alerts e events :
    protocol alerts events ->
    protocol (alert :: alerts)
             (DidFirst (GUID alert) (FirstError e) :: events)
| protocol_create alert alerts reply events :
    protocol alerts events ->
    protocol (alert :: alerts)
             (DidFirst (GUID alert) RecordNotFound
              :: DidCreate alert reply :: events)
| protocol_save alert alerts existing reply events :
    protocol alerts events ->
    protocol (alert :: alerts)
             (DidFirst (GUID alert) (Found existing)
              :: DidSave (over existing alert) reply :: events).

(** The alerts the calls of a run wrote, and the number of rows they
    created. *)
Fixpoint written (events : list Event) : list WeatherAlert :=
  match events with
  | [] => []
  | DidCreate _ (Written alert) :: rest => alert :: written rest
  | DidSave _ (Written alert) :: rest => alert :: written rest
  | _ :: rest => written rest
  end.

Fixpoint creations (events : list Event) : Z :=
  match events with
  | [] => 0
  | DidCreate _ (Written _) :: rest => 1 + creations rest
  | _ :: rest => creations rest
  end.

Lemma run_mapProg {A B} (f : A -> B) (db : Database) (p : Prog A) :
  forall n,
    run db n (mapProg f p) = (f (fst (run db n p)), snd (run db n p)).
Proof.
  induction p as [a | guid k IH | alert k IH | alert k IH]; intros n;
    simpl; try reflexivity;
    rewrite IH; destruct (run db (S n) (k _)); reflexivity.
Qed.

(** The loop follows the protocol, counts the rows created and collects
    the alerts written. *)
Lemma storeAlerts_run (db : Database) (alerts : list WeatherAlert) :
  forall n count stored,
    let '(result, events) := run db n (storeAlerts alerts count stored) in
    protocol alerts events
    /\ result = (count + creations events, (stored ++ written events)%list).
Proof.
  induction alerts as [| alert rest IH]; intros n count stored.
  - simpl. split; [constructor |].
    rewrite Z.add_0_r, app_nil_r. reflexivity.
  - cbn [storeAlerts run].
    destruct (onFirst db n (GUID alert)) as [existing | | e].
    + cbn [run].
      destruct (onSave db (S n) _) as [saved | e].
      * specialize (IH (S (S n)) count (stored ++ [saved])%list).
        destruct (run db (S (S n)) _) as [result events].
        destruct IH as [Hp ->]. split; [constructor; exact Hp |].
        cbn [creations written]. rewrite <- app_assoc. reflexivity.
      * specialize (IH (S (S n)) count stored).
        destruct (run db (S (S n)) _) as [result events].
        destruct IH as [Hp ->]. split; [constructor; exact Hp |].
        reflexivity.
    + cbn [run].
      destruct (onCreate db (S n) alert) as [created | e].
      * specialize (IH (S (S n)) (count + 1) (stored ++ [created])%list).
        destruct (run db (S (S n)) _) as [result events].
        destruct IH as [Hp ->]. split; [constructor; exact Hp |].
        cbn [creations written]. rewrite <- app_assoc.
        f_equal. lia.
      * specialize (IH (S (S n)) count stored).
        destruct (run db (S (S n)) _) as [result events].
        destruct IH as [Hp ->]. split; [constructor; exact Hp |].
        reflexivity.
    + specialize (IH (S n) count stored).
      destruct (run db (S n) _) as [result events].
      destruct IH as [Hp ->]. split; [constructor; exact Hp |].
      reflexivity.
Qed.

Lemma protocol_lengths (alerts : list WeatherAlert) (events : list Event) :
  protocol alerts events ->
  0 <= creations events <= Z.of_nat (List.length alerts)
  /\ (List.length (written events) <= List.length alerts)%nat.
Proof.
  induction 1 as [| alert alerts e events _ [IH1 IH2]
                  | alert alerts reply events _ [IH1 IH2]
                  | alert alerts existing reply events _ [IH1 IH2]].
  - simpl. lia.
  - cbn [creations written List.length]. lia.
  - destruct reply; cbn [creations written List.length]; lia.
  - destruct reply; cbn [creations written List.length]; lia.
Qed.

(** The run of a sync on a feed. *)
Definition sync (db : Database) (fetched : result (list WeatherAlert))
  : (result Z * list WeatherAlert) * list Event :=
  run db 0 (FetchAndStore fetched).

Lemma sync_run (db : Database) (alerts : list WeatherAlert) :
  let events := snd (sync db (Ok alerts)) in
  protocol (filter ofProvince alerts) events
  /\ fst (sync db (Ok alerts)) = (Ok (creations events), written events).
Proof.
  unfold sync, FetchAndStore. rewrite run_mapProg. cbn [fst snd].
  pose proof (storeAlerts_run db (filter ofProvince alerts) 0 0 []) as H.
  fold ofProvince.
  destruct (run db 0 (storeAlerts (filter ofProvince alerts) 0 []))
    as [result events].
  destruct H as [Hp ->]. cbn [fst snd]. split; [exact Hp |].
  rewrite Z.add_0_l. reflexivity.
Qed.

(** X19.  Whatever the database answers, the calls of a sync follow the
    protocol on the alerts of the feed whose province holds "Kep. Riau",
    in the order of the feed: one lookup by GUID for each, then a
    [Create] of the alert if no row was found, a [Save] under the
    identifier and creation time of the row if one was found, and no
    write if the lookup failed. *)
Theorem sync_follows_protocol (db : Database) (alerts : list WeatherAlert) :
  protocol (filter ofProvince alerts) (snd (sync db (Ok alerts))).
Proof.
  unfold sync, FetchAndStore. rewrite run_mapProg. cbn [snd].
  fold ofProvince.
  pose proof (storeAlerts_run db (filter ofProvince alerts) 0 0 []) as H.
  destruct (run db 0 (storeAlerts (filter ofProvince alerts) 0 []))
    as [result events].
  destruct H as [Hp _]. exact Hp.
Qed.

(** X20.  A sync whose fetch succeeded returns no error, whatever the
    database answers: failed lookups and writes are passed over.  The
    count it returns is the number of rows created, which is at most
    the number of alerts of the province; the alerts handed to the
    fetch of details are the alerts written, created or updated.  A
    sync whose fetch failed returns that error and calls nothing. *)
Theorem sync_counts_creations (db : Database) :
  (forall alerts,
      let '(result, storedAlerts, events) := sync db (Ok alerts) in
      result = Ok (creations events)
      /\ storedAlerts = written events
      /\ 0 <= creations events
         <= Z.of_nat (List.length (filter ofProvince alerts))
      /\ (List.length storedAlerts
          <= List.length (filter ofProvince alerts))%nat)
  /\ (forall e, sync db (Err e) = (Err e, [], [])).
Proof.
  split; [| reflexivity].
  intros alerts. destruct (sync_run db alerts) as [Hp Hr].
  destruct (sync db (Ok alerts)) as [[result storedAlerts] events].
  cbn [fst snd] in *. injection Hr as -> ->.
  destruct (protocol_lengths _ _ Hp) as [H1 H2].
  repeat split; try assumption; lia.
Qed.

(** A write of a run, and the alert it wrote. *)
Definition wrote (event : Event) (alert : WeatherAlert) : Prop :=
  (exists reply, event = DidCreate alert reply)
  \/ (exists reply, event = DidSave alert reply).

Lemma protocol_writes (alerts : list WeatherAlert) (events : list Event) :
  protocol alerts events ->
  forall event a,
    List.In event events -> wrote event a ->
    exists alert,
      List.In alert alerts
      /\ GUID a = GUID alert /\ Province a = Province alert
      /\ Rest a = Rest alert.
Proof.
  induction 1 as [| alert alerts e events _ IH
                  | alert alerts reply events _ IH
                  | alert alerts existing reply events _ IH];
    intros event a Hin Hw.
  - destruct Hin.
  - destruct Hin as [<- | Hin].
    + destruct Hw as [[r Hr] | [r Hr]]; discriminate.
    + destruct (IH _ _ Hin Hw) as [x [Hx Hf]]. exists x.
      split; [right; exact Hx | exact Hf].
  - destruct Hin as [<- | [<- | Hin]].
    + destruct Hw as [[r Hr] | [r Hr]]; discriminate.
    + destruct Hw as [[r Hr] | [r Hr]]; [| discriminate].
      injection Hr as -> _. exists a. split; [left; reflexivity | auto].
    + destruct (IH _ _ Hin Hw) as [x [Hx Hf]]. exists x.
      split; [right; exact Hx | exact Hf].
  - destruct Hin as [<- | [<- | Hin]].
    + destruct Hw as [[r Hr] | [r Hr]]; discriminate.
    + destruct Hw as [[r Hr] | [r Hr]]; [discriminate |].
      injection Hr as <- _. exists alert.
      split; [left; reflexivity | auto].
    + destruct (IH _ _ Hin Hw) as [x [Hx Hf]]. exists x.
      split; [right; exact Hx | exact Hf].
Qed.

(** X21.  A sync writes nothing of another province and nothing of its
    own making: every alert it creates or saves has the GUID, the
    province and the content of an alert of the feed whose province
    holds "Kep. Riau". *)
Theorem sync_writes_the_province_only (db : Database)
    (alerts : list WeatherAlert) (event : Event) (a : WeatherAlert) :
  List.In event (snd (sync db (Ok alerts))) ->
  wrote event a ->
  Strings.Contains (Province a) ProvinceFilter = true
  /\ exists alert,
       List.In alert alerts
       /\ GUID a = GUID alert /\ Province a = Province alert
       /\ Rest a = Rest alert.
Proof.
  intros Hin Hw. destruct (sync_run db alerts) as [Hp _].
  destruct (protocol_writes _ _ Hp _ _ Hin Hw) as [alert [Ha [Hg [Hpv Hr]]]].
  apply filter_In in Ha. destruct Ha as [Ha Hprov].
  split; [rewrite Hpv; exact Hprov |]. exists alert. auto.
Qed.

(** *** A feed of three alerts *)

Definition feedTime : Time := GoTime.Date 2025 12 4 8 0 0 0 UTC.

Definition feed : list WeatherAlert :=
  [mkWeatherAlert "" "guid-1" "Kep. Riau" zeroTime "Heavy rain in Batam";
   mkWeatherAlert "" "guid-2" "Jambi" zeroTime "Strong wind";
   mkWeatherAlert "" "guid-3" "Riau, Kep. Riau" zeroTime "Thunderstorm"].

(** A database that holds a row for "guid-3" and accepts every write,
    giving a created row an identifier. *)
Definition oneRow : Database :=
  mkDatabase
    (fun _ guid =>
       if String.eqb guid "guid-3"
       then Found (mkWeatherAlert "01OLD" "guid-3" "Kep. Riau" feedTime "old")
       else RecordNotFound)
    (fun n alert =>
       Written (mkWeatherAlert ("01NEW" ++ Strconv.Itoa (Z.of_nat n))
                               (GUID alert) (Province alert) feedTime
                               (Rest alert)))
    (fun _ alert => Written alert).

Example sync_feed :
  sync oneRow (Ok feed)
  = (Ok 1,
     [mkWeatherAlert "01NEW1" "guid-1" "Kep. Riau" feedTime
                     "Heavy rain in Batam";
      mkWeatherAlert "01OLD" "guid-3" "Riau, Kep. Riau" feedTime
                     "Thunderstorm"],
     [DidFirst "guid-1" RecordNotFound;
      DidCreate (mkWeatherAlert "" "guid-1" "Kep. Riau" zeroTime
                                "Heavy rain in Batam")
                (Written (mkWeatherAlert "01NEW1" "guid-1" "Kep. Riau"
                                         feedTime "Heavy rain in Batam"));
      DidFirst "guid-3"
               (Found (mkWeatherAlert "01OLD" "guid-3" "Kep. Riau" feedTime
                                      "old"));
      DidSave (mkWeatherAlert "01OLD" "guid-3" "Riau, Kep. Riau" feedTime
                              "Thunderstorm")
              (Written (mkWeatherAlert "01OLD" "guid-3" "Riau, Kep. Riau"
                                       feedTime "Thunderstorm"))]).
Proof. vm_compute. reflexivity. Qed.

(** A database on which every call fails. *)
Definition downDatabase : Database :=
  mkDatabase (fun _ _ => FirstError "connection refused")
             (fun _ _ => WriteError "connection refused")
             (fun _ _ => WriteError "connection refused").

Example sync_feed_database_down :
  sync downDatabase (Ok feed)
  = (Ok 0, [],
     [DidFirst "guid-1" (FirstError "connection refused");
      DidFirst "guid-3" (FirstError "connection refused")]).
Proof. vm_compute. reflexivity. Qed.

Lemma sync_writes_the_province_only_witness :
  let a := mkWeatherAlert "01OLD" "guid-3" "Riau, Kep. Riau" feedTime
                          "Thunderstorm" in
  Strings.Contains (Province a) ProvinceFilter = true
  /\ exists alert,
       List.In alert feed
       /\ GUID a = GUID alert /\ Province a = Province alert
       /\ Rest a = Rest alert.
Proof.
  intros a.
  apply (sync_writes_the_province_only oneRow feed (DidSave a (Written a)) a).
  - vm_compute. right. right. right. left. reflexivity.
  - right. exists (Written a). reflexivity.
Defined.

End BmkgFacts.

(** ** What [parseHeight] reads *)

Module HeightReadFacts.
Import Fetcher Fetcher.HeightRe HeightFacts.

Local Open Scope result_scope.

(** The heights of the two captures. *)
Definition heights (g1 g2 : string) : result (Q * Q) :=
  heightM <- Strconv.ParseFloat g1 ;;
  heightFt <- Strconv.ParseFloat g2 ;;
  Ok (heightM, heightFt).

Lemma parseHeight_at (text g1 g2 post : string) :
  pattern_text text g1 g2 ->
  parseHeight (text ++ post) = heights g1 g2.
Proof.
  intros Hp. unfold parseHeight.
  rewrite (FindStringSubmatch_here _ text g1 g2)
    by (apply match_here_complete; exact Hp).
  reflexivity.
Qed.

(** X22.  When [parseHeight] succeeds, the input holds the pattern, and
    the two heights returned are the values of the two numerals of that
    occurrence, both decimal numerals. *)
Theorem parseHeight_reads_an_occurrence (s : string) (m ft : Q) :
  parseHeight s = Ok (m, ft) ->
  exists pre text g1 g2 post,
    s = (pre ++ text ++ post)%string
    /\ pattern_text text g1 g2
    /\ decimal_text g1 /\ decimal_text g2
    /\ Strconv.ParseFloat g1 = Ok m /\ Strconv.ParseFloat g2 = Ok ft.
Proof.
  unfold parseHeight.
  destruct (FindStringSubmatch_sound s)
    as [-> | [pre [text [g1 [g2 [post [-> [Hs Hp]]]]]]]].
  - discriminate.
  - simpl.
    destruct (Strconv.ParseFloat g1) as [v1 |] eqn:E1; simpl;
      [| discriminate].
    destruct (Strconv.ParseFloat g2) as [v2 |] eqn:E2; simpl;
      [| discriminate].
    intros H. injection H as <- <-.
    exists pre, text, g1, g2, post.
    repeat split; try assumption; eapply ParseFloat_decimal; eassumption.
Qed.

(** X23.  Neither the white space between the parts of the pattern nor
    the text after it matters: an input that starts with the pattern is
    read as the same two numerals written with single spaces. *)
Theorem parseHeight_ignores_spacing (text g1 g2 post : string) :
  pattern_text text g1 g2 ->
  parseHeight (text ++ post) = parseHeight (g1 ++ " m (" ++ g2 ++ " ft)").
Proof.
  intros Hp. rewrite (parseHeight_at text g1 g2 post Hp).
  destruct Hp as [w1 [w2 [w3 [Hn1 [Hn2 _]]]]].
  rewrite <- (append_empty_r (g1 ++ " m (" ++ g2 ++ " ft)")).
  symmetry. apply parseHeight_at.
  exists " ", " ", " ". repeat split; auto.
Qed.

Lemma parseHeight_reads_an_occurrence_witness :
  exists pre text g1 g2 post,
    "High 2.7m(8.9 ft) rising" = (pre ++ text ++ post)%string
    /\ pattern_text text g1 g2
    /\ decimal_text g1 /\ decimal_text g2
    /\ Strconv.ParseFloat g1 = Ok 2.7%Q /\ Strconv.ParseFloat g2 = Ok 8.9%Q.
Proof.
  apply (parseHeight_reads_an_occurrence "High 2.7m(8.9 ft) rising").
  vm_compute. reflexivity.
Defined.

Lemma parseHeight_ignores_spacing_witness :
  parseHeight ("2.7m(8.9 ft)" ++ " rising")
  = parseHeight ("2.7" ++ " m (" ++ "8.9" ++ " ft)").
Proof.
  apply (parseHeight_ignores_spacing "2.7m(8.9 ft)" "2.7" "8.9" " rising").
  exists "", "", " ". repeat split; try reflexivity.
  - exists "2.7". repeat split; auto. discriminate.
  - exists "8.9". repeat split; auto. discriminate.
Defined.

End HeightReadFacts.
